(** * rd450x-fan-control: a shallow embedding of [main.go]

    The program is a thin command-line front end over [ipmitool]: it reads
    and sets fan duty cycles through raw OEM commands and renders the
    sensor table.  Go strings are byte sequences, so they are modelled by
    [string] (a list of 8-bit [ascii]); Go's [int]/[int64] values are
    modelled by [Z] together with the range checks the library performs
    (a 64-bit platform is assumed for [int]).

    The file has three parts: the embedding of the program, the vocabulary
    in which its properties are stated, and the properties themselves, C1
    to C10. *)

From Stdlib Require Import ZArith Ascii String Lia Permutation.
From stdpp Require Import base option list gmap strings.

Local Open Scope Z_scope.

#[local] Arguments String.append !_ _ / : simpl nomatch.

(** ** Bytes *)

Definition byteVal (c : ascii) : Z := Z.of_N (N_of_ascii c).
Definition byteOf (n : Z) : ascii := ascii_of_N (Z.to_N n).

(** ** [strconv]: integers

    [strconv.ParseUint], [strconv.ParseInt] and [strconv.Atoi], restricted to
    the way the program calls them: an explicit base (10 or 16, so neither a
    base prefix nor underscores are accepted) and 64-bit results.  The
    program only inspects [err != nil], so a failed parse carries its kind
    and no value. *)

Inductive NumError := ErrSyntax | ErrRange.

Inductive Parsed := Num (n : Z) | Bad (e : NumError).

Definition maxUint64 : Z := 2 ^ 64 - 1.

(** The digit switch of [ParseUint]: ['0'..'9'], then letters through
    [lower(c) = c | ('x' - 'X')]. *)
Definition digitVal (c : ascii) : option Z :=
  let n := byteVal c in
  if (48 <=? n) && (n <=? 57) then Some (n - 48)
  else let l := Z.lor n 32 in
       if (97 <=? l) && (l <=? 122) then Some (l - 97 + 10) else None.

Fixpoint parseUintFrom (base : Z) (s : string) (n : Z) : Parsed :=
  match s with
  | EmptyString => Num n
  | String c s' =>
      match digitVal c with
      | None => Bad ErrSyntax
      | Some d =>
          if base <=? d then Bad ErrSyntax
          else if maxUint64 / base + 1 <=? n then Bad ErrRange
          else let n1 := n * base + d in
               if maxUint64 <? n1 then Bad ErrRange
               else parseUintFrom base s' n1
      end
  end.

Definition ParseUint (s : string) (base : Z) : Parsed :=
  match s with
  | EmptyString => Bad ErrSyntax
  | _ => parseUintFrom base s 0
  end.

Definition ParseInt (s : string) (base : Z) : Parsed :=
  match s with
  | EmptyString => Bad ErrSyntax
  | String c rest =>
      let neg := Ascii.eqb c "-" in
      let body := if Ascii.eqb c "+" || neg then rest else s in
      match ParseUint body base with
      | Bad ErrSyntax => Bad ErrSyntax
      | Bad ErrRange => Bad ErrRange
      | Num un =>
          let cutoff := 2 ^ 63 in
          if negb neg && (cutoff <=? un) then Bad ErrRange
          else if neg && (cutoff <? un) then Bad ErrRange
          else Num (if neg then - un else un)
      end
  end.

(** [strconv.Atoi(s)] "is equivalent to ParseInt(s, 10, 0), converted to
    type int". *)
Definition Atoi (s : string) : Parsed := ParseInt s 10.

(** ** [fmt]: integer verbs *)

Definition digitChar (d : Z) : ascii :=
  if d <? 10 then byteOf (48 + d) else byteOf (97 + (d - 10)).

Fixpoint fmtUintAux (base : Z) (fuel : nat) (n : Z) (acc : string) : string :=
  match fuel with
  | O => acc
  | S fuel' =>
      let acc' := String (digitChar (n mod base)) acc in
      if n <? base then acc' else fmtUintAux base fuel' (n / base) acc'
  end.

Definition fmtUint (base : Z) (n : Z) : string :=
  fmtUintAux base (S (Z.to_nat (Z.log2 n))) n EmptyString.

(** [%d] *)
Definition fmt_d (n : Z) : string :=
  if n <? 0 then "-" +:+ fmtUint 10 (- n) else fmtUint 10 n.

(** [%x] *)
Definition fmt_x (n : Z) : string :=
  if n <? 0 then "-" +:+ fmtUint 16 (- n) else fmtUint 16 n.

(** [%02d]: the sign counts towards the width of two. *)
Definition fmt_02d (n : Z) : string :=
  if n <? 0 then fmt_d n
  else if n <? 10 then "0" +:+ fmt_d n else fmt_d n.

(** ** [hexToPercent] *)

Definition hexToPercent (hexStr : string) : string :=
  match ParseInt hexStr 16 with
  | Bad _ => "N/A"
  | Num dec => fmt_d dec +:+ "%"
  end.

(** ** [strings]: byte-level routines

    These are exact for every Go string: they only compare and cut bytes. *)

Fixpoint HasPrefix (s prefix : string) : bool :=
  match prefix, s with
  | EmptyString, _ => true
  | String p prefix', String c s' => Ascii.eqb c p && HasPrefix s' prefix'
  | String _ _, EmptyString => false
  end.

Fixpoint Contains (s substr : string) : bool :=
  HasPrefix s substr ||
  match s with
  | EmptyString => false
  | String _ s' => Contains s' substr
  end.

(** [strings.Split(s, sep)] for a one-byte separator, which is how both call
    sites use it.  The result is never empty: splitting
    the empty string gives one empty piece. *)
Fixpoint Split (s : string) (sep : ascii) : list string :=
  match s with
  | EmptyString => [EmptyString]
  | String c s' =>
      if Ascii.eqb c sep then EmptyString :: Split s' sep
      else match Split s' sep with
           | [] => [String c EmptyString]
           | piece :: pieces => String c piece :: pieces
           end
  end.

Definition strRev (s : string) : string :=
  string_of_list_ascii (rev (list_ascii_of_string s)).

Definition HasSuffix (s suffix : string) : bool :=
  HasPrefix (strRev s) (strRev suffix).

Definition TrimSuffix (s suffix : string) : string :=
  if HasSuffix s suffix
  then String.substring 0 (String.length s - String.length suffix) s
  else s.

(** [parts[i]] on a slice of strings.  Go panics out of range; every use in
    the program is guarded by a length test, and the model returns the empty string where
    Go would panic. *)
Definition index (parts : list string) (i : nat) : string :=
  default EmptyString (parts !! i).

(** ** ASCII reference behaviour of the Unicode-aware routines *)

Definition isASCIIByte (c : ascii) : bool := byteVal c <? 128.

Fixpoint isASCII (s : string) : bool :=
  match s with
  | EmptyString => true
  | String c s' => isASCIIByte c && isASCII s'
  end.

Definition lowerByte (c : ascii) : ascii :=
  let n := byteVal c in
  if (65 <=? n) && (n <=? 90) then byteOf (n + 32) else c.

Definition upperByte (c : ascii) : ascii :=
  let n := byteVal c in
  if (97 <=? n) && (n <=? 122) then byteOf (n - 32) else c.

Fixpoint mapBytes (f : ascii -> ascii) (s : string) : string :=
  match s with
  | EmptyString => EmptyString
  | String c s' => String (f c) (mapBytes f s')
  end.

Definition asciiLower : string -> string := mapBytes lowerByte.
Definition asciiUpper : string -> string := mapBytes upperByte.

(** The ASCII white space of [strings.TrimSpace] and [strings.Fields]:
    tab, line feed, vertical tab, form feed, carriage return, space. *)
Definition asciiSpace (c : ascii) : bool :=
  let n := byteVal c in
  ((9 <=? n) && (n <=? 13)) || (n =? 32).

Fixpoint trimLeft (s : string) : string :=
  match s with
  | EmptyString => EmptyString
  | String c s' => if asciiSpace c then trimLeft s' else s
  end.

Definition asciiTrimSpace (s : string) : string :=
  strRev (trimLeft (strRev (trimLeft s))).

(** Fields, scanning left to right with the field under construction. *)
Fixpoint fieldsFrom (s : string) (cur : list ascii) : list string :=
  let flush (rest : list string) :=
    match cur with
    | [] => rest
    | _ => string_of_list_ascii (rev cur) :: rest
    end in
  match s with
  | EmptyString => flush []
  | String c s' =>
      if asciiSpace c then flush (fieldsFrom s' [])
      else fieldsFrom s' (c :: cur)
  end.

Definition asciiFields (s : string) : list string := fieldsFrom s [].

Fixpoint zeros (k : nat) : string :=
  match k with
  | O => EmptyString
  | S k' => String "0" (zeros k')
  end.

(** ** The part of the Go library kept abstract

    [strings.ToLower], [strings.ToUpper], [strings.TrimSpace] and
    [strings.Fields] consult the Unicode tables on non-ASCII input, and
    [strconv.ParseFloat] with [fmt]'s [%.0f] is IEEE-754 arithmetic.  The
    program is verified against any implementation of these routines that
    meets the contract below: the documented behaviour on ASCII text and on
    decimals with an all-zero fraction (the shape [ipmitool] prints, such as
    ["35.000"]).  [ParseFloat s = None] stands for [err != nil]. *)

Class GoLib := {
  ToLower : string -> string;
  ToUpper : string -> string;
  TrimSpace : string -> string;
  Fields : string -> list string;
  float64 : Type;
  ParseFloat : string -> option float64;
  fmt_f0 : float64 -> string;
  ToLower_ascii : forall s, isASCII s = true -> ToLower s = asciiLower s;
  ToUpper_ascii : forall s, isASCII s = true -> ToUpper s = asciiUpper s;
  TrimSpace_ascii : forall s, isASCII s = true -> TrimSpace s = asciiTrimSpace s;
  Fields_ascii : forall s, isASCII s = true -> Fields s = asciiFields s;
  ParseFloat_integral : forall (n : Z) (k : nat),
    0 <= n < 2 ^ 53 ->
    fmt_f0 <$> ParseFloat (fmt_d n +:+ "." +:+ zeros k) = Some (fmt_d n)
}.

(** ** Data model *)

Record FanStatus := { Name : string; RPM : string; PWM : string }.

(** The source's [ThermalStatus] has fields [Name] and [Value]; the
    projections carry a [T] here because [FanStatus] already owns [Name]. *)
Record ThermalStatus := { TName : string; TValue : string }.

Record StatusReport := { Fans : list FanStatus; Thermals : list ThermalStatus }.

(** The degree-Celsius unit of the source, as UTF-8 bytes C2 B0 43. *)
Definition degC : string := String "194" (String "176" (String "C" EmptyString)).

Definition fanNames : list string :=
  ["System Fan1"; "System Fan2"; "System Fan3"; "System Fan4"; "CPU Fan1"; "CPU Fan2"].

(** Go's [m[k]] on a [map[string]string]: the zero value, the empty string,
    when absent. *)
Definition mapGet (m : gmap string string) (k : string) : string :=
  default EmptyString (m !! k).

(** ** The process and its environment

    Every run of [ipmitool] is an event of the trace.  The tool is an
    arbitrary function of the invocations made so far and of the current
    argument vector, so that nothing is assumed about the controller.
    [site] names the calling function; it is bookkeeping for the statements
    and no behaviour depends on it. *)

Inductive ToolResult :=
| Done (out : string)
| Failed (err : string) (out : string).

Inductive Site := AtGetPWMs | AtGetSpeed | AtSetSpeed | AtGetStatus.

Record Event := { site : Site; argv : list string; result : ToolResult }.

(** What the process writes to standard output.  Plain lines are kept as
    text; the two renderings of a report (the fixed-width tables and the
    indented JSON document) are kept symbolic. *)
Inductive Output :=
| Text (s : string)
| Tables (fans : list FanStatus) (thermals : list ThermalStatus)
| Json (report : StatusReport).

Record World := { trace : list Event; stdout : list Output }.

(** [lookPath]: whether [exec.LookPath("ipmitool")] succeeds.
    [mapOrder k]: the order in which the [k]-th [range] statement over a map
    visits its entries; Go leaves it unspecified. *)
Record Env := {
  lookPath : bool;
  tool : list (list string) -> list string -> ToolResult;
  mapOrder : nat -> list (string * string) -> list (string * string)
}.

Inductive Outcome (A : Type) :=
| Ret (a : A)
| Exited (code : Z).
Arguments Ret {A} a.
Arguments Exited {A} code.

(** A computation either returns or leaves the process through [os.Exit]. *)
Definition Prog (A : Type) : Type := World -> Outcome A * World.

Definition ret {A} (a : A) : Prog A := fun w => (Ret a, w).

Definition bind {A B} (m : Prog A) (k : A -> Prog B) : Prog B :=
  fun w => match m w with
           | (Ret a, w') => k a w'
           | (Exited c, w') => (Exited c, w')
           end.

#[global] Instance Prog_ret : MRet Prog := @ret.
#[global] Instance Prog_bind : MBind Prog := fun A B k m => bind m k.

Definition osExit {A} (code : Z) : Prog A := fun w => (Exited code, w).

Definition emit (o : Output) : Prog unit :=
  fun w => (Ret tt, {| trace := trace w; stdout := stdout w ++ [o] |}).

Definition newline : string := String "010" EmptyString.

Definition Println (s : string) : Prog unit := emit (Text (s +:+ newline)).
Definition Printf (s : string) : Prog unit := emit (Text s).

Fixpoint forEach {A} (l : list A) (body : A -> Prog unit) : Prog unit :=
  match l with
  | [] => ret tt
  | x :: l' => body x ;; forEach l' body
  end.

Definition exitCode {A} (r : Outcome A * World) : Z :=
  match r.1 with
  | Ret _ => 0
  | Exited c => c
  end.

Definition world0 : World := {| trace := []; stdout := [] |}.

(** ** The program *)

Section Program.
Context `{GoLib} (E : Env).

(** [exec.Command("ipmitool", args...)] run to completion. *)
Definition run (st : Site) (args : list string) : Prog ToolResult :=
  fun w =>
    let r := tool E (argv <$> trace w) args in
    (Ret r, {| trace := trace w ++ [{| site := st; argv := args; result := r |}];
               stdout := stdout w |}).

(** [ipmiRaw]: [inl out] on success, [inr msg] for a non-nil error. *)
Definition ipmiRaw (st : Site) (args : list string) : Prog (string + string) :=
  r ← run st ("raw" :: "0x2e" :: args);
  match r with
  | Failed err out => mret (inr (err +:+ ": " +:+ out))
  | Done out => mret (inl out)
  end.

Definition getPWMs : Prog (gmap string string) :=
  r ← ipmiRaw AtGetPWMs ["0x31"];
  match r with
  | inr _ => mret ∅
  | inl out =>
      let parts := Fields out in
      if (7 <=? length parts)%nat then
        mret (<["CPU Fan2" := hexToPercent (index parts 6)]>
             (<["CPU Fan1" := hexToPercent (index parts 5)]>
             (<["System Fan4" := hexToPercent (index parts 4)]>
             (<["System Fan3" := hexToPercent (index parts 3)]>
             (<["System Fan2" := hexToPercent (index parts 2)]>
             (<["System Fan1" := hexToPercent (index parts 1)]> ∅))))))
      else mret ∅
  end.

Definition isAll (idStr : string) : bool :=
  bool_decide (ToLower idStr = "all") || bool_decide (idStr = "0")
  || bool_decide (idStr = "00").

Definition getSpeed (idStr : string) : Prog unit :=
  if isAll idStr then
    Println "Error: To view all fans, use the 'status' command."
  else
    match Atoi idStr with
    | Bad _ => Println "Error: Fan ID must be between 01 and 06"
    | Num id =>
        if (id <? 1) || (6 <? id) then
          Println "Error: Fan ID must be between 01 and 06"
        else
          r ← ipmiRaw AtGetSpeed ["0x31"];
          match r with
          | inr err => Printf ("IPMI Error: " +:+ err +:+ newline) ;; osExit 1
          | inl out =>
              let parts := Fields out in
              if id <? Z.of_nat (length parts) then
                Printf ("Fan " +:+ fmt_02d id +:+ " PWM: "
                        +:+ hexToPercent (index parts (Z.to_nat id)) +:+ newline)
              else
                Println "Error: Unexpected IPMI response format or missing data"
          end
    end.

Definition formatID (idStr : string) : string :=
  if isAll idStr then "00"
  else if (String.length idStr =? 1)%nat then "0" +:+ idStr
  else idStr.

Definition setSpeed (idStr speedStr : string) : Prog unit :=
  match Atoi speedStr with
  | Bad _ => Println "Error: Speed must be an integer between 0 and 100"
  | Num speed =>
      if (speed <? 0) || (100 <? speed) then
        Println "Error: Speed must be an integer between 0 and 100"
      else
        let hexSpeed := "0x" +:+ fmt_x speed in
        let formattedID := formatID idStr in
        r ← ipmiRaw AtSetSpeed ["0x30"; "00"; formattedID; hexSpeed];
        match r with
        | inr err => Printf ("IPMI Error: " +:+ err +:+ newline) ;; osExit 1
        | inl _ =>
            if isAll idStr then
              Printf ("All fans successfully set to " +:+ fmt_d speed +:+ "%" +:+ newline)
            else
              Printf ("Fan " +:+ formattedID +:+ " successfully set to "
                      +:+ fmt_d speed +:+ "%" +:+ newline)
        end
  end.

(** One iteration of the sensor loop of [getStatus]; [continue] leaves the
    accumulated [rpmMap] and [thermals] as they are. *)
Definition sensorStep (st : gmap string string * list ThermalStatus) (line : string)
  : gmap string string * list ThermalStatus :=
  if bool_decide (TrimSpace line = EmptyString) then st
  else
    let parts := Split line "|" in
    if (length parts <? 3)%nat then st
    else
      let name := TrimSpace (index parts 0) in
      let val := TrimSpace (index parts 1) in
      let unit := TrimSpace (index parts 2) in
      let lineUpper := ToUpper line in
      if bool_decide (val = "na") && negb (Contains lineUpper "FAN") then st
      else if Contains lineUpper "FAN" && negb (Contains lineUpper "POWER") then
        if negb (bool_decide (val = "na"))
        then (<[name := val +:+ " RPM"]> st.1, st.2)
        else st
      else if Contains lineUpper "TEMP" || Contains lineUpper "AIRFLOW" then
        let cleanVal := match ParseFloat val with
                        | Some valFloat => fmt_f0 valFloat
                        | None => val
                        end in
        let cleanUnit := if bool_decide (unit = "degrees C") then degC else unit in
        if bool_decide (cleanVal = "0") && bool_decide (cleanUnit = degC) then st
        else (st.1, st.2 ++ [{| TName := name; TValue := cleanVal +:+ " " +:+ cleanUnit |}])
      else st.

Definition parseSensors (out : string) : gmap string string * list ThermalStatus :=
  foldl sensorStep (∅, []) (Split out "010").

Definition orNA (s : string) : string :=
  if bool_decide (s = EmptyString) then "N/A" else s.

(** The loop that builds "the exact 6-fan array". *)
Definition buildFans (pwms rpmMap : gmap string string) : list FanStatus :=
  foldl (fun fans name =>
           fans ++ [{| Name := name;
                       RPM := orNA (mapGet rpmMap name);
                       PWM := orNA (mapGet pwms name) |}])
        [] fanNames.

Definition getStatus (asJson : bool) : Prog unit :=
  pwms ← getPWMs;
  r ← run AtGetStatus ["sensor"; "list"];
  match r with
  | Failed err _ => Printf ("Error fetching sensor data: " +:+ err +:+ newline)
  | Done out =>
      let '(rpmMap, thermals) := parseSensors out in
      let fans := buildFans pwms rpmMap in
      if asJson then emit (Json {| Fans := fans; Thermals := thermals |})
      else emit (Tables fans thermals)
  end.

Definition fanIDs : gmap string string :=
  <["CPU Fan2" := "06"]> (<["CPU Fan1" := "05"]> (<["System Fan4" := "04"]>
  (<["System Fan3" := "03"]> (<["System Fan2" := "02"]>
  (<["System Fan1" := "01"]> ∅))))).

(** Step 0 of [testrun]: one iteration of the loop over [fanIDs]. *)
Definition saveStep (originalPWMs : gmap string string)
    (st : gmap string string * list Output) (entry : string * string)
  : gmap string string * list Output :=
  let '(name, id) := entry in
  let pwmStr := mapGet originalPWMs name in
  if negb (bool_decide (pwmStr = "N/A")) && negb (bool_decide (pwmStr = EmptyString)) then
    let speedVal := TrimSuffix pwmStr "%" in
    (<[id := speedVal]> st.1,
     st.2 ++ [Text ("    ID " +:+ id +:+ " (" +:+ name +:+ ") backed up at "
                    +:+ speedVal +:+ "%" +:+ newline)])
  else st.

Definition saveSpeeds (originalPWMs : gmap string string)
  : gmap string string * list Output :=
  foldl (saveStep originalPWMs) (∅, []) (mapOrder E 0 (map_to_list fanIDs)).

Definition testrun : Prog unit :=
  Println "--- STARTING AUTOMATED TEST SEQUENCE ---" ;;
  Println "[STEP 0] Saving current fan speeds..." ;;
  originalPWMs ← getPWMs;
  let '(savedSpeeds, backedUp) := saveSpeeds originalPWMs in
  forEach backedUp emit ;;
  Println (newline +:+ "[STEP 1] Testing 'set all' command (setting to 40%)...") ;;
  setSpeed "all" "40" ;;
  Println (newline +:+ "[STEP 2] Testing 'get' command for Fan 01...") ;;
  getSpeed "01" ;;
  Println (newline +:+ "[STEP 3] Displaying full status dashboard...") ;;
  getStatus false ;;
  Println (newline +:+ "[STEP 4] Restoring original fan speeds...") ;;
  forEach (mapOrder E 1 (map_to_list savedSpeeds))
          (fun entry => setSpeed entry.1 entry.2) ;;
  Println (newline +:+ "--- TEST SEQUENCE COMPLETE ---").

Definition usage : Prog unit :=
  Println "Usage:" ;;
  Println "  rd450x-fan-control status [--json]" ;;
  Println "  rd450x-fan-control get <id>" ;;
  Println "  rd450x-fan-control set <id|all> <speed>".

(** [main], with [args] standing for [os.Args]. *)
Definition main (args : list string) : Prog unit :=
  if negb (lookPath E) then
    Println "Error: 'ipmitool' not found in PATH. Install it via: apt install ipmitool" ;;
    osExit 1
  else
    match args with
    | [] | [_] => usage
    | _ :: cmd :: rest =>
        if bool_decide (cmd = "status") then
          getStatus (match rest with
                     | flag :: _ => bool_decide (flag = "--json")
                     | [] => false
                     end)
        else if bool_decide (cmd = "get") then
          match rest with
          | idStr :: _ => getSpeed idStr
          | [] => Println "Error: Missing arguments. Example: rd450x-fan-control get 01"
          end
        else if bool_decide (cmd = "set") then
          match rest with
          | idStr :: speedStr :: _ => setSpeed idStr speedStr
          | _ => Println "Error: Missing arguments. Example: rd450x-fan-control set all 50"
          end
        else if bool_decide (cmd = "testrun") then testrun
        else Printf ("Error: Unknown command '" +:+ cmd +:+ "'" +:+ newline)
    end.

End Program.

(** * Vocabulary of the statements

    Definitions used to state the properties: what the specification says in
    words, the shapes of worlds and messages, and example environments.  The
    program above does not use them. *)

(** ** Base-16 integers, as the specification words them

    A base-16 integer is an optional sign followed by at least one
    hexadecimal digit; it parses when its value fits [int64]. *)

Definition hexDigit (c : ascii) : option Z :=
  let n := byteVal c in
  if (48 <=? n) && (n <=? 57) then Some (n - 48)
  else if (97 <=? n) && (n <=? 102) then Some (n - 87)
  else if (65 <=? n) && (n <=? 70) then Some (n - 55)
  else None.

Fixpoint hexValue (s : string) (acc : Z) : option Z :=
  match s with
  | EmptyString => Some acc
  | String c s' =>
      match hexDigit c with
      | Some d => hexValue s' (acc * 16 + d)
      | None => None
      end
  end.

Definition hexInteger (s : string) : option Z :=
  match s with
  | EmptyString => None
  | String c rest =>
      let neg := Ascii.eqb c "-" in
      let body := if Ascii.eqb c "+" || neg then rest else s in
      match body with
      | EmptyString => None
      | _ =>
          match hexValue body 0 with
          | Some v =>
              let n := if neg then - v else v in
              if (- 2 ^ 63 <=? n) && (n <? 2 ^ 63) then Some n else None
          | None => None
          end
      end
  end.

(** ** Worlds, invocations and messages *)

Definition logged (st : Site) (args : list string) (r : ToolResult) (w : World) : World :=
  {| trace := trace w ++ [{| site := st; argv := args; result := r |}];
     stdout := stdout w |}.

Definition printed (o : Output) (w : World) : World :=
  {| trace := trace w; stdout := stdout w ++ [o] |}.

Definition readArgv : list string := ["raw"; "0x2e"; "0x31"].
Definition sensorArgv : list string := ["sensor"; "list"].
Definition writeArgv (id : string) (speed : Z) : list string :=
  ["raw"; "0x2e"; "0x30"; "00"; id; "0x" +:+ fmt_x speed].

Definition history (w : World) : list (list string) := argv <$> trace w.

Definition rawResult (r : ToolResult) : string + string :=
  match r with
  | Failed err out => inr (err +:+ ": " +:+ out)
  | Done out => inl out
  end.

Definition speedError : Output :=
  Text ("Error: Speed must be an integer between 0 and 100" +:+ newline).
Definition idError : Output :=
  Text ("Error: Fan ID must be between 01 and 06" +:+ newline).
Definition useStatus : Output :=
  Text ("Error: To view all fans, use the 'status' command." +:+ newline).
Definition ipmiError (err out : string) : Output :=
  Text ("IPMI Error: " +:+ (err +:+ ": " +:+ out) +:+ newline).

(** The strings that address every fan: ["all"] in any letter case, ["0"]
    and ["00"]. *)
Definition broadcastWord (idStr : string) : Prop :=
  asciiLower idStr = "all" \/ idStr = "0" \/ idStr = "00".

Definition integerIn (lo hi : Z) (s : string) : Prop :=
  exists v, Atoi s = Num v /\ lo <= v <= hi.

Definition singleDigit (idStr : string) : Prop :=
  exists c, idStr = String c EmptyString /\ 48 <= byteVal c <= 57.

Definition report (asJson : bool) (fans : list FanStatus) (thermals : list ThermalStatus)
  : Output :=
  if asJson then Json {| Fans := fans; Thermals := thermals |} else Tables fans thermals.

Definition sensorError (err : string) : Output :=
  Text ("Error fetching sensor data: " +:+ err +:+ newline).

(** A fan of the report, with ["N/A"] for a name missing from a lookup. *)
Definition fanRow (pwms rpmMap : gmap string string) (name : string) : FanStatus :=
  {| Name := name;
     RPM := default "N/A" (rpmMap !! name);
     PWM := default "N/A" (pwms !! name) |}.

Definition noEmptyValue (m : gmap string string) : Prop :=
  forall k v, m !! k = Some v -> v <> EmptyString.

Definition notFound : Output :=
  Text ("Error: 'ipmitool' not found in PATH. Install it via: apt install ipmitool"
        +:+ newline).

Definition jsonFlag (rest : list string) : bool :=
  match rest with
  | flag :: _ => bool_decide (flag = "--json")
  | [] => false
  end.

Definition isReport (o : Output) : bool :=
  match o with
  | Text _ => false
  | Tables _ _ | Json _ => true
  end.

(** ** Exit behaviour *)

(** A tool failure inside [getSpeed] or [setSpeed]. *)
Definition fatal (e : Event) : bool :=
  match site e, result e with
  | (AtGetSpeed | AtSetSpeed), Failed _ _ => true
  | _, _ => false
  end.

(** A computation is [Orderly] when it leaves the process only with code 1
    and right after a fatal event, and returns only when no event it added
    is fatal. *)
Definition Orderly {A} (m : Prog A) : Prop :=
  forall w, exists evs,
    trace (m w).2 = trace w ++ evs /\
    match (m w).1 with
    | Ret _ => Forall (fun e => fatal e = false) evs
    | Exited c => c = 1 /\ Exists (fun e => fatal e = true) evs
    end.

Definition succeeded (e : Event) : Prop :=
  site e = AtSetSpeed /\ exists out, result e = Done out.

(** A computation that only prints. *)
Definition Quiet (m : Prog unit) : Prop :=
  forall w, exists w1, m w = (Ret tt, w1) /\ trace w1 = trace w.

(** ** The six fans *)

(** The fans by position in the raw PWM answer, with their ids. *)
Definition slots : list (nat * string) :=
  [(6%nat, "06"); (5%nat, "05"); (4%nat, "04"); (3%nat, "03"); (2%nat, "02"); (1%nat, "01")].

Definition fanTable : list (string * string) :=
  [("CPU Fan2", "06"); ("CPU Fan1", "05"); ("System Fan4", "04");
   ("System Fan3", "03"); ("System Fan2", "02"); ("System Fan1", "01")].

Definition inRange (v : Z) : bool := (0 <=? v) && (v <=? 100).

Section Vocabulary.
Context `{GoLib}.

(** The PWM lookup built from one answer to the raw read command. *)
Definition pwmTable (r : ToolResult) : gmap string string :=
  match r with
  | Failed _ _ => ∅
  | Done out =>
      let parts := Fields out in
      if (7 <=? length parts)%nat then
        <["CPU Fan2" := hexToPercent (index parts 6)]>
        (<["CPU Fan1" := hexToPercent (index parts 5)]>
        (<["System Fan4" := hexToPercent (index parts 4)]>
        (<["System Fan3" := hexToPercent (index parts 3)]>
        (<["System Fan2" := hexToPercent (index parts 2)]>
        (<["System Fan1" := hexToPercent (index parts 1)]> ∅)))))
      else ∅
  end.

Definition setConfirmation (idStr : string) (speed : Z) : Output :=
  if isAll idStr
  then Text ("All fans successfully set to " +:+ fmt_d speed +:+ "%" +:+ newline)
  else Text ("Fan " +:+ formatID idStr +:+ " successfully set to "
             +:+ fmt_d speed +:+ "%" +:+ newline).

Definition getAnswer (id : Z) (out : string) : Output :=
  let parts := Fields out in
  if id <? Z.of_nat (length parts) then
    Text ("Fan " +:+ fmt_02d id +:+ " PWM: "
          +:+ hexToPercent (index parts (Z.to_nat id)) +:+ newline)
  else Text ("Error: Unexpected IPMI response format or missing data" +:+ newline).

(** ** The sensor table, row by row

    The classification of a row as the specification words it (section 4.3,
    steps 1 to 6), to be compared with the loop of [getStatus]. *)

Definition hasWord (line word : string) : bool := Contains (ToUpper line) word.

(** Steps 1 and 2: a row is a non-blank line with at least three fields. *)
Definition wellFormedRow (line : string) : bool :=
  negb (bool_decide (TrimSpace line = EmptyString)) && (3 <=? length (Split line "|"))%nat.

Definition rowName (line : string) : string := TrimSpace (index (Split line "|") 0).
Definition rowValue (line : string) : string := TrimSpace (index (Split line "|") 1).
Definition rowUnit (line : string) : string := TrimSpace (index (Split line "|") 2).

(** Step 3: FAN without POWER is an RPM candidate; otherwise TEMP or AIRFLOW
    is a thermal candidate. *)
Definition fanCandidate (line : string) : bool :=
  hasWord line "FAN" && negb (hasWord line "POWER").

Definition thermalCandidate (line : string) : bool :=
  negb (fanCandidate line) && (hasWord line "TEMP" || hasWord line "AIRFLOW").

(** Step 4: a row without FAN whose value is ["na"] is a disconnected sensor. *)
Definition disconnected (line : string) : bool :=
  bool_decide (rowValue line = "na") && negb (hasWord line "FAN").

(** Step 5. *)
Definition rpmReading (line : string) : option (string * string) :=
  if wellFormedRow line && fanCandidate line && negb (bool_decide (rowValue line = "na"))
  then Some (rowName line, rowValue line +:+ " RPM")
  else None.

(** Step 6. *)
Definition normalValue (val : string) : string :=
  match ParseFloat val with
  | Some valFloat => fmt_f0 valFloat
  | None => val
  end.

Definition normalUnit (unit : string) : string :=
  if bool_decide (unit = "degrees C") then degC else unit.

Definition isThermalRow (line : string) : bool :=
  wellFormedRow line && negb (disconnected line) && thermalCandidate line.

Definition thermalReading (line : string) : option ThermalStatus :=
  if isThermalRow line then
    if bool_decide (normalValue (rowValue line) = "0")
       && bool_decide (normalUnit (rowUnit line) = degC)
    then None
    else Some {| TName := rowName line;
                 TValue := normalValue (rowValue line) +:+ " " +:+ normalUnit (rowUnit line) |}
  else None.

(** The thermal rows as the claim words them: every pipe-delimited line that
    contains TEMP or AIRFLOW, whatever else it contains and whatever its
    value; and the thermal list that wording describes. *)
Definition mentionsThermal (line : string) : bool :=
  wellFormedRow line && (hasWord line "TEMP" || hasWord line "AIRFLOW").

Definition claimedReading (line : string) : option ThermalStatus :=
  if mentionsThermal line then
    if bool_decide (normalValue (rowValue line) = "0")
       && bool_decide (normalUnit (rowUnit line) = degC)
    then None
    else Some {| TName := rowName line;
                 TValue := normalValue (rowValue line) +:+ " " +:+ normalUnit (rowUnit line) |}
  else None.

Definition everyThermalRowListed (out : string) : Prop :=
  (parseSensors out).2 = omap claimedReading (Split out "010").

Definition store (m : gmap string string) (entry : option (string * string))
  : gmap string string :=
  match entry with
  | Some (k, v) => <[k := v]> m
  | None => m
  end.

(** ** The [testrun] sequence *)

(** The PWM text of the fan at position [k] of one answer to the raw read:
    absent when the read failed or was short. *)
Definition pwmText (r : ToolResult) (k : nat) : option string :=
  match r with
  | Done out =>
      let parts := Fields out in
      if (7 <=? length parts)%nat then Some (hexToPercent (index parts k)) else None
  | Failed _ _ => None
  end.

(** The valid reading of that fan: the percentage, unless the text is
    absent or ["N/A"]. *)
Definition reading (r : ToolResult) (k : nat) : option Z :=
  match r with
  | Done out =>
      let parts := Fields out in
      if (7 <=? length parts)%nat then
        match ParseInt (index parts k) 16 with
        | Num v => Some v
        | Bad _ => None
        end
      else None
  | Failed _ _ => None
  end.

(** The restore calls the sequence is expected to make. *)
Definition expectedRestore (r : ToolResult) (slot : nat * string) : option (list string) :=
  match reading r slot.1 with
  | Some v => if inRange v then Some (writeArgv slot.2 v) else None
  | None => None
  end.

Definition expectedRestores (r : ToolResult) : list (list string) :=
  omap (expectedRestore r) slots.

(** What one iteration of the saving loop records. *)
Definition saveOf (originalPWMs : gmap string string) (entry : string * string)
  : option (string * string) :=
  let pwmStr := mapGet originalPWMs entry.1 in
  if negb (bool_decide (pwmStr = "N/A")) && negb (bool_decide (pwmStr = EmptyString))
  then Some (entry.2, TrimSuffix pwmStr "%")
  else None.

(** What one iteration of the restoring loop sends. *)
Definition restoreOf (entry : string * string) : option (list string) :=
  match Atoi entry.2 with
  | Num v => if inRange v then Some (writeArgv (formatID entry.1) v) else None
  | Bad _ => None
  end.

(** The claim as the specification states it: every fan with a valid
    reading before the run is restored to that reading by a write call. *)
Definition restoresEveryValidReading (E : Env) (w : World) : Prop :=
  forall k id v,
    (k, id) ∈ slots ->
    reading (tool E (history w) readArgv) k = Some v ->
    writeArgv id v ∈ argv <$> trace (testrun E w).2.

End Vocabulary.

(** ** A reference library

    An implementation of [GoLib] for running the program on concrete input:
    the ASCII routines above, and decimals [sign digits [. digits]] held
    exactly and printed by rounding half to even.  It shows that the
    contract of [GoLib] can be met; it agrees with Go on ASCII text and on
    decimals that a [float64] holds exactly. *)

Record Decimal := { dNeg : bool; dInt : Z; dFrac : Z; dScale : nat }.

Fixpoint decDigits (s : string) (acc : Z) (cnt : nat) : Z * nat * string :=
  match s with
  | EmptyString => (acc, cnt, EmptyString)
  | String c s' =>
      let n := byteVal c in
      if (48 <=? n) && (n <=? 57) then decDigits s' (acc * 10 + (n - 48)) (S cnt)
      else (acc, cnt, s)
  end.

Definition parseDecimal (s : string) : option Decimal :=
  let '(neg, body) :=
    match s with
    | String c rest =>
        if Ascii.eqb c "-" then (true, rest)
        else if Ascii.eqb c "+" then (false, rest) else (false, s)
    | EmptyString => (false, s)
    end in
  let '(ip, ni, rest) := decDigits body 0 0 in
  match rest with
  | EmptyString =>
      if (ni =? 0)%nat then None
      else Some {| dNeg := neg; dInt := ip; dFrac := 0; dScale := 0 |}
  | String c frac =>
      if Ascii.eqb c "." then
        let '(fp, nf, rest') := decDigits frac 0 0 in
        match rest' with
        | EmptyString =>
            if (ni + nf =? 0)%nat then None
            else Some {| dNeg := neg; dInt := ip; dFrac := fp; dScale := nf |}
        | _ => None
        end
      else None
  end.

Definition roundHalfEven (num den : Z) : Z :=
  let q := num / den in
  let r := num mod den in
  if 2 * r <? den then q
  else if den <? 2 * r then q + 1
  else if Z.even q then q else q + 1.

Definition formatDecimal0 (d : Decimal) : string :=
  let den := 10 ^ Z.of_nat (dScale d) in
  (if dNeg d then "-" else EmptyString) +:+ fmt_d (roundHalfEven (dInt d * den + dFrac d) den).

(** ** Example environments

    A controller that answers the raw read with [pwm], the sensor listing
    with [sensors] and every other command with [other]; maps are visited in
    the order [map_to_list] gives. *)

Definition bmc (pwm sensors other : ToolResult) : Env :=
  {| lookPath := true;
     tool := fun _ args =>
       if bool_decide (args = readArgv) then pwm
       else if bool_decide (args = sensorArgv) then sensors
       else other;
     mapOrder := fun _ entries => entries |}.

Definition sampleSensors : string :=
  "CPU1 Temp        | 35.000     | degrees C  | ok" +:+ newline +:+
  "System Fan1      | 1558.000   | RPM        | ok" +:+ newline +:+
  "System Fan2      | na         | RPM        | na" +:+ newline +:+
  "PCH Temp         | na         | degrees C  | na" +:+ newline +:+
  "Airflow rate     | 0.0        | CFM        | ok" +:+ newline +:+
  "DIMM Temp        | 0.000      | degrees C  | ok" +:+ newline +:+
  "Fan Power        | 12.5       | Watts      | ok" +:+ newline.

Definition sampleBmc : Env := bmc (Done " 00 32 46 ff zz 64 0a") (Done sampleSensors) (Done EmptyString).

Definition quietBmc : Env := bmc (Done " 00 32 46 50 3c 64 0a") (Done EmptyString) (Done EmptyString).

(** A controller that reports 0xff for the first fan and never fails. *)
Definition hotBmc : Env := bmc (Done " 00 ff 46 50 3c 64 0a") (Done EmptyString) (Done EmptyString).

(** ** Vocabulary of the further properties *)

(** The fan names by position in the raw PWM answer. *)
Definition positions : list (nat * string) :=
  [(6%nat, "CPU Fan2"); (5%nat, "CPU Fan1"); (4%nat, "System Fan4");
   (3%nat, "System Fan3"); (2%nat, "System Fan2"); (1%nat, "System Fan1")].

Definition sixFans : gset string := list_to_set fanNames.

(** The three shapes of invocation the program is meant to make: the raw
    read, the sensor listing, and a raw write of a speed in [0,100]. *)
Definition allowedArgv (args : list string) : Prop :=
  args = readArgv \/ args = sensorArgv
  \/ exists id v, 0 <= v <= 100 /\ args = writeArgv id v.

Definition readingArgv (args : list string) : Prop :=
  args = readArgv \/ args = sensorArgv.

(** [Adds P m]: the events [m] appends to the trace all satisfy [P]. *)
Definition Adds (P : Event -> Prop) {A} (m : Prog A) : Prop :=
  forall w, exists evs, trace (m w).2 = trace w ++ evs /\ Forall P evs.

(** A line made of ASCII white space only. *)
Fixpoint allSpace (s : string) : bool :=
  match s with
  | EmptyString => true
  | String c s' => asciiSpace c && allSpace s'
  end.

Definition zeroCelsius : string := "0 " +:+ degC.

Definition formatError : Output :=
  Text ("Error: Unexpected IPMI response format or missing data" +:+ newline).

Definition pwmLine (id : Z) (pwm : string) : Output :=
  Text ("Fan " +:+ fmt_02d id +:+ " PWM: " +:+ pwm +:+ newline).

(** Steps 1 to 4 of [testrun] once the speeds are saved. *)
Definition testrunTail `{GoLib} (E : Env) (savedSpeeds : gmap string string) : Prog unit :=
  setSpeed E "all" "40" ;;
  Println (newline +:+ "[STEP 2] Testing 'get' command for Fan 01...") ;;
  getSpeed E "01" ;;
  Println (newline +:+ "[STEP 3] Displaying full status dashboard...") ;;
  getStatus E false ;;
  Println (newline +:+ "[STEP 4] Restoring original fan speeds...") ;;
  forEach (mapOrder E 1 (map_to_list savedSpeeds))
          (fun entry => setSpeed E entry.1 entry.2) ;;
  Println (newline +:+ "--- TEST SEQUENCE COMPLETE ---").

(** * Properties *)

(** ** The embedding on concrete input *)

Example Atoi_signed : Atoi "+45" = Num 45 /\ Atoi "-0" = Num 0 /\ Atoi "007" = Num 7.
Proof. repeat split. Qed.

Example Atoi_rejects :
  Atoi EmptyString = Bad ErrSyntax /\ Atoi " 45" = Bad ErrSyntax /\ Atoi "4_5" = Bad ErrSyntax
  /\ Atoi "0x10" = Bad ErrSyntax /\ Atoi "99999999999999999999" = Bad ErrRange.
Proof. repeat split. Qed.

Example ParseInt_limits :
  ParseInt "7fffffffffffffff" 16 = Num (2 ^ 63 - 1)
  /\ ParseInt "8000000000000000" 16 = Bad ErrRange
  /\ ParseInt "-8000000000000000" 16 = Num (- 2 ^ 63).
Proof. repeat split. Qed.

Example fmt_verbs :
  fmt_d (-26) = "-26" /\ fmt_x 100 = "64" /\ fmt_x 10 = "a" /\ fmt_02d 3 = "03"
  /\ fmt_d 0 = "0".
Proof. repeat split. Qed.

Example hexToPercent_signed : hexToPercent "-1A" = "-26%" /\ hexToPercent "+32" = "50%".
Proof. repeat split. Qed.

Example Split_pipe : Split "a|b||c" "|" = ["a"; "b"; EmptyString; "c"] /\ Split EmptyString "|" = [EmptyString].
Proof. repeat split. Qed.

Example Contains_word :
  Contains "SYSTEM FAN1" "FAN" = true /\ Contains "FA N" "FAN" = false
  /\ Contains EmptyString EmptyString = true.
Proof. repeat split. Qed.

Example TrimSuffix_once : TrimSuffix "50%%" "%" = "50%" /\ TrimSuffix "50" "%" = "50".
Proof. repeat split. Qed.

Example asciiFields_answer :
  asciiFields (" 00 32  46" +:+ newline) = ["00"; "32"; "46"] /\ asciiFields "   " = [].
Proof. repeat split. Qed.

Example asciiTrimSpace_field : asciiTrimSpace "  35.000   " = "35.000".
Proof. reflexivity. Qed.

Example parseDecimal_rounds :
  formatDecimal0 <$> parseDecimal "35.000" = Some "35"
  /\ formatDecimal0 <$> parseDecimal "0.5" = Some "0"
  /\ formatDecimal0 <$> parseDecimal "1.5" = Some "2"
  /\ formatDecimal0 <$> parseDecimal "-0.2" = Some "-0"
  /\ parseDecimal "na" = None.
Proof. repeat split. Qed.

(** ** Integer formatting and parsing *)

Lemma append_assoc (s t u : string) : (s +:+ t) +:+ u = s +:+ (t +:+ u).
Proof. induction s as [|c s IH]; cbn [String.append]; [reflexivity | f_equal; exact IH]. Qed.

Lemma append_nil_r (s : string) : s +:+ EmptyString = s.
Proof. induction s as [|c s IH]; cbn [String.append]; [reflexivity | f_equal; exact IH]. Qed.

Lemma fmtUintAux_app base fuel : forall n acc,
  fmtUintAux base fuel n acc = fmtUintAux base fuel n EmptyString +:+ acc.
Proof.
  induction fuel as [|fuel IH]; intros n acc; simpl; [reflexivity|].
  destruct (n <? base); [reflexivity|].
  rewrite (IH _ (String _ acc)), (IH _ (String _ EmptyString)), append_assoc. reflexivity.
Qed.

Lemma fmtUintAux_S base fuel n acc :
  fmtUintAux base (S fuel) n acc =
  if n <? base then String (digitChar (n mod base)) acc
  else fmtUintAux base fuel (n / base) (String (digitChar (n mod base)) acc).
Proof. reflexivity. Qed.

(** Induction over the digits [fmtUint] writes, most significant first. *)
Lemma fmtUint_rect (base : Z) (P : Z -> string -> Prop) :
  2 <= base ->
  (forall d, 0 <= d < base -> P d (String (digitChar d) EmptyString)) ->
  (forall n s, base <= n -> P (n / base) s ->
               P n (s +:+ String (digitChar (n mod base)) EmptyString)) ->
  forall n, 0 <= n -> P n (fmtUint base n).
Proof.
  intros Hb Hone Hsnoc n Hn. unfold fmtUint.
  assert (Hlt : n < 2 ^ Z.of_nat (S (Z.to_nat (Z.log2 n)))).
  { destruct (Z.eq_dec n 0) as [->|Hne]; [reflexivity|].
    rewrite Nat2Z.inj_succ, Z2Nat.id by apply Z.log2_nonneg.
    apply Z.log2_spec. lia. }
  revert Hlt. generalize (Z.to_nat (Z.log2 n)) as fuel. revert n Hn.
  intros n Hn fuel; revert n Hn.
  induction fuel as [|fuel IH]; intros n Hn Hlt.
  - simpl. change (2 ^ Z.of_nat 1) with 2 in Hlt.
    replace (n <? base) with true by (symmetry; apply Z.ltb_lt; lia).
    rewrite Z.mod_small by lia. apply Hone. lia.
  - rewrite fmtUintAux_S. destruct (Z.ltb_spec n base) as [Hsmall|Hbig].
    + rewrite Z.mod_small by lia. apply Hone. lia.
    + rewrite fmtUintAux_app. apply Hsnoc; [exact Hbig|].
      apply IH.
      * apply Z.div_pos; lia.
      * rewrite Nat2Z.inj_succ, Z.pow_succ_r in Hlt by lia.
        apply Z.div_lt_upper_bound; [lia|].
        assert (0 < 2 ^ Z.of_nat (S fuel)) by (apply Z.pow_pos_nonneg; lia).
        nia.
Qed.

Lemma digitVal_digitChar (d : Z) : 0 <= d < 16 -> digitVal (digitChar d) = Some d.
Proof.
  intros Hd.
  assert (Hcases : d = 0 \/ d = 1 \/ d = 2 \/ d = 3 \/ d = 4 \/ d = 5 \/ d = 6 \/ d = 7
                   \/ d = 8 \/ d = 9 \/ d = 10 \/ d = 11 \/ d = 12 \/ d = 13
                   \/ d = 14 \/ d = 15) by lia.
  repeat (destruct Hcases as [->|Hcases]; [reflexivity|]). subst. reflexivity.
Qed.

Lemma parseUintFrom_snoc base c : forall s k,
  parseUintFrom base (s +:+ String c EmptyString) k =
  match parseUintFrom base s k with
  | Num v => parseUintFrom base (String c EmptyString) v
  | Bad e => Bad e
  end.
Proof.
  induction s as [|a s IH]; intros k; [reflexivity|].
  cbn [String.append parseUintFrom].
  destruct (digitVal a) as [d|]; [|reflexivity].
  destruct (base <=? d); [reflexivity|].
  destruct (maxUint64 / base + 1 <=? k); [reflexivity|].
  cbv zeta. destruct (maxUint64 <? k * base + d); [reflexivity|]. apply IH.
Qed.

Lemma parseUintFrom_fmtUint (base n : Z) :
  2 <= base <= 16 -> 0 <= n <= maxUint64 ->
  parseUintFrom base (fmtUint base n) 0 = Num n.
Proof.
  intros Hb [Hn Hmax]. revert Hmax.
  apply (fmtUint_rect base (fun n s => n <= maxUint64 -> parseUintFrom base s 0 = Num n));
    [lia| | |exact Hn].
  - intros d Hd _. cbn [parseUintFrom]. rewrite digitVal_digitChar by lia.
    replace (base <=? d) with false by (symmetry; apply Z.leb_gt; lia).
    replace (maxUint64 / base + 1 <=? 0) with false.
    2:{ symmetry; apply Z.leb_gt.
        assert (0 <= maxUint64 / base) by (apply Z.div_pos; [unfold maxUint64|]; lia). lia. }
    cbv zeta. replace (maxUint64 <? 0 * base + d) with false; [f_equal; lia|].
    symmetry; apply Z.ltb_ge. unfold maxUint64. lia.
  - intros m s Hm IH Hmax. rewrite parseUintFrom_snoc.
    assert (Hq : 0 <= m / base) by (apply Z.div_pos; lia).
    assert (Hr : 0 <= m mod base < base) by (apply Z.mod_pos_bound; lia).
    assert (Hdm : m = base * (m / base) + m mod base) by (apply Z.div_mod; lia).
    rewrite IH by nia. cbn [parseUintFrom].
    rewrite digitVal_digitChar by lia.
    replace (base <=? m mod base) with false by (symmetry; apply Z.leb_gt; lia).
    replace (maxUint64 / base + 1 <=? m / base) with false.
    2:{ symmetry; apply Z.leb_gt.
        assert (m / base <= maxUint64 / base) by (apply Z.div_le_mono; lia). lia. }
    cbv zeta. replace (maxUint64 <? m / base * base + m mod base) with false;
      [f_equal; lia|].
    symmetry; apply Z.ltb_ge. lia.
Qed.

(** The first byte [fmtUint] writes is a digit, so neither a sign nor empty. *)
Lemma fmtUint_head (base n : Z) :
  2 <= base <= 16 -> 0 <= n ->
  exists d s, 0 <= d < base /\ fmtUint base n = String (digitChar d) s.
Proof.
  intros Hb Hn.
  apply (fmtUint_rect base (fun _ s => exists d s', 0 <= d < base /\ s = String (digitChar d) s'));
    [lia| | |exact Hn].
  - intros d Hd. exists d, EmptyString. auto.
  - intros m s _ (d & s' & Hd & ->). exists d, (s' +:+ String (digitChar (m mod base)) EmptyString).
    auto.
Qed.

Lemma digitChar_not_sign (d : Z) :
  0 <= d < 16 -> Ascii.eqb (digitChar d) "+" = false /\ Ascii.eqb (digitChar d) "-" = false.
Proof.
  intros Hd.
  assert (Hcases : d = 0 \/ d = 1 \/ d = 2 \/ d = 3 \/ d = 4 \/ d = 5 \/ d = 6 \/ d = 7
                   \/ d = 8 \/ d = 9 \/ d = 10 \/ d = 11 \/ d = 12 \/ d = 13
                   \/ d = 14 \/ d = 15) by lia.
  repeat (destruct Hcases as [->|Hcases]; [split; reflexivity|]). subst. split; reflexivity.
Qed.

Lemma ParseUint_fmtUint (base n : Z) :
  2 <= base <= 16 -> 0 <= n <= maxUint64 -> ParseUint (fmtUint base n) base = Num n.
Proof.
  intros Hb Hn. destruct (fmtUint_head base n Hb (proj1 Hn)) as (d & s & _ & Hs).
  unfold ParseUint. rewrite <- (parseUintFrom_fmtUint base n Hb Hn).
  rewrite Hs. reflexivity.
Qed.

(** [Atoi] reads back what [%d] writes, for every [int64]. *)
Lemma Atoi_fmt_d (v : Z) : - 2 ^ 63 <= v < 2 ^ 63 -> Atoi (fmt_d v) = Num v.
Proof.
  intros Hv. unfold Atoi, fmt_d. destruct (Z.ltb_spec v 0) as [Hneg|Hpos].
  - cbn [String.append ParseInt]. change (Ascii.eqb "-" "-") with true.
    change (Ascii.eqb "-" "+") with false. cbn [orb negb andb].
    rewrite ParseUint_fmtUint by (unfold maxUint64; lia).
    replace (2 ^ 63 <? - v) with false by (symmetry; apply Z.ltb_ge; lia).
    f_equal. lia.
  - destruct (fmtUint_head 10 v ltac:(lia) Hpos) as (d & s & Hd & Hs).
    pose proof (ParseUint_fmtUint 10 v ltac:(lia) ltac:(unfold maxUint64; lia)) as Hp.
    rewrite Hs in *. destruct (digitChar_not_sign d ltac:(lia)) as [Hplus Hminus].
    cbn [ParseInt]. rewrite Hplus, Hminus. cbn [orb negb andb]. rewrite Hp.
    replace (2 ^ 63 <=? v) with false by (symmetry; apply Z.leb_gt; lia).
    reflexivity.
Qed.

Lemma hexDigit_digitVal (c : ascii) :
  hexDigit c = match digitVal c with
               | Some d => if 16 <=? d then None else Some d
               | None => None
               end.
Proof.
  destruct c as [[] [] [] [] [] [] [] []]; reflexivity.
Qed.

Lemma hexDigit_bound c d : hexDigit c = Some d -> 0 <= d < 16.
Proof.
  destruct c as [[] [] [] [] [] [] [] []]; cbv; intros [=<-]; split; congruence.
Qed.

Lemma hexValue_mono : forall s acc v, 0 <= acc -> hexValue s acc = Some v -> acc <= v.
Proof.
  induction s as [|c s IH]; intros acc v Hacc; cbn [hexValue].
  - intros [=->]. lia.
  - destruct (hexDigit c) as [d|] eqn:Hd; [|discriminate].
    apply hexDigit_bound in Hd. intros Hv. apply IH in Hv; lia.
Qed.

Lemma parseUintFrom_hexValue : forall s n v,
  0 <= n <= maxUint64 ->
  parseUintFrom 16 s n = Num v <-> hexValue s n = Some v /\ v <= maxUint64.
Proof.
  induction s as [|c s IH]; intros n v Hn; cbn [parseUintFrom hexValue].
  - split; [intros [=->]; split; [reflexivity|lia] | intros [[=->] _]; reflexivity].
  - rewrite hexDigit_digitVal. destruct (digitVal c) as [d|] eqn:Hc.
    2:{ split; [discriminate | intros [? _]; discriminate]. }
    destruct (Z.leb_spec 16 d) as [Hbig|Hd].
    { split; [discriminate | intros [? _]; discriminate]. }
    assert (Hd0 : 0 <= d).
    { assert (Hh : hexDigit c = Some d).
      { rewrite hexDigit_digitVal, Hc.
        replace (16 <=? d) with false by (symmetry; apply Z.leb_gt; lia). reflexivity. }
      apply hexDigit_bound in Hh. lia. }
    change (maxUint64 / 16 + 1) with (2 ^ 60). unfold maxUint64 in *.
    destruct (Z.leb_spec (2 ^ 60) n) as [Hcut|Hcut].
    { split; [discriminate|]. intros [Hv Hle]. apply hexValue_mono in Hv; lia. }
    cbv zeta. destruct (Z.ltb_spec (2 ^ 64 - 1) (n * 16 + d)) as [Hover|Hfit].
    { split; [discriminate|]. intros [Hv Hle]. apply hexValue_mono in Hv; lia. }
    apply IH. lia.
Qed.

(** [ParseInt(s, 16, 64)] succeeds exactly on the base-16 integers. *)
Lemma ParseInt_hexInteger (s : string) (v : Z) :
  ParseInt s 16 = Num v <-> hexInteger s = Some v.
Proof.
  destruct s as [|c rest]; [split; discriminate|].
  cbn [ParseInt hexInteger]. set (neg := Ascii.eqb c "-").
  set (body := if Ascii.eqb c "+" || neg then rest else String c rest).
  unfold ParseUint. destruct body as [|b body']; [split; discriminate|].
  set (bs := String b body').
  pose proof (fun u => parseUintFrom_hexValue bs 0 u ltac:(unfold maxUint64; lia)) as Hspec.
  destruct (parseUintFrom 16 bs 0) as [un|e] eqn:Hp.
  - destruct (proj1 (Hspec un) eq_refl) as [Hv Hle]. rewrite Hv.
    pose proof (hexValue_mono bs 0 un ltac:(lia) Hv) as Hpos. unfold maxUint64 in Hle.
    destruct neg; cbn [negb andb].
    + destruct (Z.ltb_spec (2 ^ 63) un).
      * replace (- 2 ^ 63 <=? - un) with false by (symmetry; apply Z.leb_gt; lia).
        split; discriminate.
      * replace (- 2 ^ 63 <=? - un) with true by (symmetry; apply Z.leb_le; lia).
        replace (- un <? 2 ^ 63) with true by (symmetry; apply Z.ltb_lt; lia).
        split; intros [=<-]; reflexivity.
    + destruct (Z.leb_spec (2 ^ 63) un).
      * replace (un <? 2 ^ 63) with false by (symmetry; apply Z.ltb_ge; lia).
        rewrite andb_false_r. split; discriminate.
      * replace (- 2 ^ 63 <=? un) with true by (symmetry; apply Z.leb_le; lia).
        replace (un <? 2 ^ 63) with true by (symmetry; apply Z.ltb_lt; lia).
        split; intros [=<-]; reflexivity.
  - assert (Hbad : forall w, Bad e <> Num w) by discriminate.
    destruct (hexValue bs 0) as [u|] eqn:Hv.
    + assert (Hgt : maxUint64 < u).
      { destruct (Z.lt_ge_cases maxUint64 u) as [|Hle]; [assumption|].
        exfalso. apply (Hbad u), Hspec. split; [reflexivity|lia]. }
      unfold maxUint64 in Hgt.
      replace ((- 2 ^ 63 <=? (if neg then - u else u)) && ((if neg then - u else u) <? 2 ^ 63))
        with false.
      2:{ symmetry. destruct neg; [apply andb_false_iff; left; apply Z.leb_gt
                                  |apply andb_false_iff; right; apply Z.ltb_ge]; lia. }
      destruct e; split; discriminate.
    + destruct e; split; discriminate.
Qed.

(** ** [hexToPercent] and the percent suffix *)

Lemma append_percent_not_NA (s : string) : s +:+ "%" <> "N/A".
Proof.
  destruct s as [|a [|b [|c [|d s]]]]; cbn; congruence.
Qed.

Lemma append_percent_not_empty (s : string) : s +:+ "%" <> EmptyString.
Proof. destruct s; cbn; congruence. Qed.

Lemma hexToPercent_Num (s : string) (v : Z) :
  ParseInt s 16 = Num v -> hexToPercent s = fmt_d v +:+ "%".
Proof. unfold hexToPercent. intros ->. reflexivity. Qed.

Lemma hexToPercent_Bad (s : string) (e : NumError) :
  ParseInt s 16 = Bad e -> hexToPercent s = "N/A".
Proof. unfold hexToPercent. intros ->. reflexivity. Qed.

Lemma hexToPercent_not_empty (s : string) : hexToPercent s <> EmptyString.
Proof.
  unfold hexToPercent. destruct (ParseInt s 16); [apply append_percent_not_empty | discriminate].
Qed.

Lemma ParseInt_int64 (s : string) (v : Z) :
  ParseInt s 16 = Num v -> - 2 ^ 63 <= v < 2 ^ 63.
Proof.
  intros Hp. apply ParseInt_hexInteger in Hp. unfold hexInteger in Hp.
  destruct s as [|c rest]; [discriminate|]. cbv zeta in Hp.
  destruct (if Ascii.eqb c "+" || Ascii.eqb c "-" then rest else String c rest);
    [discriminate|].
  destruct (hexValue _ 0) as [u|]; [|discriminate].
  destruct (Z.leb_spec (- 2 ^ 63) (if Ascii.eqb c "-" then - u else u));
    destruct (Z.ltb_spec (if Ascii.eqb c "-" then - u else u) (2 ^ 63));
    cbn [andb] in Hp; try discriminate.
  injection Hp as <-. lia.
Qed.

Lemma list_ascii_of_string_app (s t : string) :
  list_ascii_of_string (s +:+ t) = list_ascii_of_string s ++ list_ascii_of_string t.
Proof. induction s as [|c s IH]; cbn; [reflexivity | now rewrite IH]. Qed.

Lemma strRev_snoc (s : string) (c : ascii) :
  strRev (s +:+ String c EmptyString) = String c (strRev s).
Proof.
  unfold strRev. rewrite list_ascii_of_string_app. cbn [list_ascii_of_string].
  rewrite rev_unit. reflexivity.
Qed.

Lemma length_append (s t : string) :
  String.length (s +:+ t) = (String.length s + String.length t)%nat.
Proof. induction s as [|c s IH]; cbn; [reflexivity | now rewrite IH]. Qed.

Lemma substring_append (s t : string) :
  String.substring 0 (String.length s) (s +:+ t) = s.
Proof.
  induction s as [|c s IH]; cbn.
  - destruct t; reflexivity.
  - now rewrite IH.
Qed.

Lemma HasPrefix_nil (s : string) : HasPrefix s EmptyString = true.
Proof. destruct s; reflexivity. Qed.

Lemma TrimSuffix_percent (s : string) : TrimSuffix (s +:+ "%") "%" = s.
Proof.
  unfold TrimSuffix, HasSuffix. rewrite strRev_snoc.
  change (strRev "%") with (String "%" EmptyString). cbn [HasPrefix].
  change (Ascii.eqb "%" "%") with true. cbn [andb].
  rewrite HasPrefix_nil, length_append. cbn [String.length].
  replace (String.length s + 1 - 1)%nat with (String.length s) by lia.
  apply substring_append.
Qed.

(** C4.  [hexToPercent] answers ["N/A"] exactly on the strings that are not a
    base-16 integer (optional sign, hexadecimal digits, value within
    [int64]); on every other string it answers the decimal rendering of the
    value followed by a percent sign, whatever the value: nothing is
    validated or clamped, so 0xff reads 255%.  In particular ["32"] gives
    ["50%"] and ["zz"] gives ["N/A"]. *)
Theorem hexToPercent_correct :
  (forall s, hexToPercent s = "N/A" <-> hexInteger s = None) /\
  (forall s v, hexInteger s = Some v -> hexToPercent s = fmt_d v +:+ "%") /\
  hexToPercent "32" = "50%" /\
  hexToPercent "zz" = "N/A" /\
  hexToPercent "ff" = "255%".
Proof.
  split; [|split; [|repeat split]].
  - intros s. unfold hexToPercent. destruct (ParseInt s 16) as [v|e] eqn:Hp.
    + apply ParseInt_hexInteger in Hp. rewrite Hp. split; [|discriminate].
      intros Habs. exfalso. exact (append_percent_not_NA _ Habs).
    + split; [|reflexivity]. intros _.
      destruct (hexInteger s) as [v|] eqn:Hh; [|reflexivity].
      apply ParseInt_hexInteger in Hh. congruence.
  - intros s v Hh. apply hexToPercent_Num, ParseInt_hexInteger, Hh.
Qed.

Lemma hexToPercent_correct_witness :
  hexInteger "64" = Some 100 /\ hexToPercent "64" = fmt_d 100 +:+ "%".
Proof.
  split; [reflexivity|].
  apply (proj1 (proj2 hexToPercent_correct) "64" 100). reflexivity.
Defined.

(** ** The reference library meets the contract *)

Lemma decDigits_snoc (c : ascii) (d : Z) : forall s acc cnt v k,
  0 <= d < 10 -> c = digitChar d ->
  decDigits s acc cnt = (v, k, EmptyString) ->
  decDigits (s +:+ String c EmptyString) acc cnt = (v * 10 + d, S k, EmptyString).
Proof.
  intros s acc cnt v k Hd ->. revert acc cnt.
  assert (Hc : let n := byteVal (digitChar d) in (48 <=? n) && (n <=? 57) = true /\ n - 48 = d).
  { assert (Hcases : d = 0 \/ d = 1 \/ d = 2 \/ d = 3 \/ d = 4 \/ d = 5 \/ d = 6 \/ d = 7
                     \/ d = 8 \/ d = 9) by lia.
    repeat (destruct Hcases as [->|Hcases]; [split; reflexivity|]). subst; split; reflexivity. }
  cbv zeta in Hc. destruct Hc as [Hc1 Hc2].
  induction s as [|a s IH]; intros acc cnt; cbn [String.append decDigits].
  - intros [= -> ->]. rewrite Hc1, Hc2. reflexivity.
  - destruct ((48 <=? byteVal a) && (byteVal a <=? 57)); [apply IH | discriminate].
Qed.

Lemma decDigits_fmtUint (n : Z) :
  0 <= n -> exists k, decDigits (fmtUint 10 n) 0 0 = (n, S k, EmptyString).
Proof.
  intros Hn.
  apply (fmtUint_rect 10 (fun n s => exists k, decDigits s 0 0 = (n, S k, EmptyString)));
    [lia| | |exact Hn].
  - intros d Hd. exists 0%nat.
    apply (decDigits_snoc (digitChar d) d EmptyString 0 0%nat 0 0%nat Hd eq_refl eq_refl).
  - intros m s Hm [k IH]. exists (S k).
    assert (Hr : 0 <= m mod 10 < 10) by (apply Z.mod_pos_bound; lia).
    rewrite (decDigits_snoc _ (m mod 10) s 0 0%nat (m / 10) (S k) Hr eq_refl IH).
    f_equal. f_equal. pose proof (Z.div_mod m 10). lia.
Qed.

Lemma decDigits_app_stop (t : string) : forall s acc cnt v k,
  decDigits s acc cnt = (v, k, EmptyString) ->
  decDigits t v k = (v, k, t) ->
  decDigits (s +:+ t) acc cnt = (v, k, t).
Proof.
  induction s as [|a s IH]; intros acc cnt v k; cbn [String.append decDigits].
  - intros [= -> ->]. auto.
  - destruct ((48 <=? byteVal a) && (byteVal a <=? 57)); [apply IH | discriminate].
Qed.

Lemma decDigits_zeros : forall k cnt, decDigits (zeros k) 0 cnt = (0, (cnt + k)%nat, EmptyString).
Proof.
  induction k as [|k IH]; intros cnt; cbn [zeros decDigits].
  - now rewrite Nat.add_0_r.
  - change ((48 <=? byteVal "0") && (byteVal "0" <=? 57)) with true. cbv iota.
    change (0 * 10 + (byteVal "0" - 48)) with 0. rewrite IH. f_equal. f_equal. lia.
Qed.

Lemma parseDecimal_integral (n : Z) (k : nat) :
  0 <= n ->
  formatDecimal0 <$> parseDecimal (fmt_d n +:+ "." +:+ zeros k) = Some (fmt_d n).
Proof.
  intros Hn. unfold fmt_d at 1.
  replace (n <? 0) with false by (symmetry; apply Z.ltb_ge; lia).
  destruct (fmtUint_head 10 n ltac:(lia) Hn) as (d & s & Hd & Hs).
  destruct (decDigits_fmtUint n Hn) as [cnt Hdec].
  destruct (digitChar_not_sign d ltac:(lia)) as [Hplus Hminus].
  unfold parseDecimal. rewrite Hs. cbn [String.append]. rewrite Hminus, Hplus.
  change (String (digitChar d) (s +:+ String "." (zeros k)))
    with (String (digitChar d) s +:+ String "." (zeros k)).
  rewrite <- Hs.
  rewrite (decDigits_app_stop _ _ _ _ _ _ Hdec) by reflexivity.
  change (Ascii.eqb "." ".") with true. cbv iota.
  rewrite decDigits_zeros. cbn [Nat.add].
  destruct k as [|k]; cbn [zeros Nat.add Nat.eqb fmap option_fmap option_map].
  - unfold formatDecimal0, roundHalfEven. cbn [dNeg dInt dFrac dScale Z.of_nat].
    change (10 ^ 0) with 1. rewrite Z.mul_1_r, Z.add_0_r, Z.div_1_r, Z.mod_1_r.
    reflexivity.
  - unfold formatDecimal0, roundHalfEven. cbn [dNeg dInt dFrac dScale].
    set (den := 10 ^ Z.of_nat (S k)).
    assert (Hden : 1 < den).
    { unfold den. rewrite Nat2Z.inj_succ, Z.pow_succ_r by lia.
      assert (0 < 10 ^ Z.of_nat k) by (apply Z.pow_pos_nonneg; lia). lia. }
    rewrite Z.add_0_r, Z.div_mul, Z.mod_mul by lia.
    replace (2 * 0 <? den) with true by (symmetry; apply Z.ltb_lt; lia).
    reflexivity.
Qed.

(** The reference library, packaged once its contract is proved. *)
Definition referenceLib : GoLib := {|
  ToLower := asciiLower;
  ToUpper := asciiUpper;
  TrimSpace := asciiTrimSpace;
  Fields := asciiFields;
  float64 := Decimal;
  ParseFloat := parseDecimal;
  fmt_f0 := formatDecimal0;
  ToLower_ascii := fun _ _ => eq_refl;
  ToUpper_ascii := fun _ _ => eq_refl;
  TrimSpace_ascii := fun _ _ => eq_refl;
  Fields_ascii := fun _ _ => eq_refl;
  ParseFloat_integral := fun n k Hn => parseDecimal_integral n k (proj1 Hn)
|}.

Example status_dashboard :
  stdout (main (H := referenceLib) sampleBmc ["fan"; "status"] world0).2
  = [Tables [ {| Name := "System Fan1"; RPM := "1558.000 RPM"; PWM := "50%" |};
              {| Name := "System Fan2"; RPM := "N/A"; PWM := "70%" |};
              {| Name := "System Fan3"; RPM := "N/A"; PWM := "255%" |};
              {| Name := "System Fan4"; RPM := "N/A"; PWM := "N/A" |};
              {| Name := "CPU Fan1"; RPM := "N/A"; PWM := "100%" |};
              {| Name := "CPU Fan2"; RPM := "N/A"; PWM := "10%" |} ]
            [ {| TName := "CPU1 Temp"; TValue := "35 " +:+ degC |};
              {| TName := "Airflow rate"; TValue := "0 CFM" |} ]].
Proof. vm_compute. reflexivity. Qed.

Example testrun_invocations :
  argv <$> trace (main (H := referenceLib) sampleBmc ["fan"; "testrun"] world0).2
  = [ readArgv; writeArgv "00" 40; readArgv; readArgv; sensorArgv;
      writeArgv "05" 100; writeArgv "01" 50; writeArgv "06" 10; writeArgv "02" 70 ].
Proof. vm_compute. reflexivity. Qed.

(** ** Running computations *)

Lemma bind_eq {A B} (m : Prog A) (k : A -> Prog B) (w : World) :
  (m ≫= k) w = match m w with
               | (Ret a, w') => k a w'
               | (Exited c, w') => (Exited c, w')
               end.
Proof. reflexivity. Qed.

Lemma bind_Ret {A B} (m : Prog A) (k : A -> Prog B) (w w' : World) (a : A) :
  m w = (Ret a, w') -> (m ≫= k) w = k a w'.
Proof. intros Hm. rewrite bind_eq, Hm. reflexivity. Qed.

Lemma bind_Exited {A B} (m : Prog A) (k : A -> Prog B) (w w' : World) (c : Z) :
  m w = (Exited c, w') -> (m ≫= k) w = (Exited c, w').
Proof. intros Hm. rewrite bind_eq, Hm. reflexivity. Qed.

Lemma bind_Ret_inv {A B} (m : Prog A) (k : A -> Prog B) (w w' : World) (b : B) :
  (m ≫= k) w = (Ret b, w') ->
  exists a w1, m w = (Ret a, w1) /\ k a w1 = (Ret b, w').
Proof.
  rewrite bind_eq. destruct (m w) as [[a|c] w1]; [eauto | discriminate].
Qed.

Lemma emit_eq (o : Output) (w : World) : emit o w = (Ret tt, printed o w).
Proof. reflexivity. Qed.

Lemma Println_eq (s : string) (w : World) :
  Println s w = (Ret tt, printed (Text (s +:+ newline)) w).
Proof. reflexivity. Qed.

Lemma Printf_eq (s : string) (w : World) : Printf s w = (Ret tt, printed (Text s) w).
Proof. reflexivity. Qed.

Section ProgramFacts.
Context `{GoLib} (E : Env).

Lemma run_eq st args w :
  run E st args w = (Ret (tool E (history w) args),
                     logged st args (tool E (history w) args) w).
Proof. reflexivity. Qed.

Lemma ipmiRaw_eq st args w :
  let r := tool E (history w) ("raw" :: "0x2e" :: args) in
  ipmiRaw E st args w = (Ret (rawResult r), logged st ("raw" :: "0x2e" :: args) r w).
Proof.
  cbv zeta. unfold ipmiRaw. rewrite (bind_Ret _ _ _ _ _ (run_eq _ _ _)).
  destruct (tool E (history w) ("raw" :: "0x2e" :: args)); reflexivity.
Qed.

Lemma getPWMs_eq w :
  let r := tool E (history w) readArgv in
  getPWMs E w = (Ret (pwmTable r), logged AtGetPWMs readArgv r w).
Proof.
  cbv zeta. unfold getPWMs. rewrite (bind_Ret _ _ _ _ _ (ipmiRaw_eq _ _ _)).
  fold readArgv. destruct (tool E (history w) readArgv) as [out|err out]; cbn [rawResult pwmTable].
  - destruct (7 <=? length (Fields out))%nat; reflexivity.
  - reflexivity.
Qed.

End ProgramFacts.

(** ** Identifiers and the [set] and [get] commands *)

Lemma lowerByte_ascii (c : ascii) :
  isASCIIByte (lowerByte c) = true -> isASCIIByte c = true.
Proof. destruct c as [[] [] [] [] [] [] [] []]; vm_compute; congruence. Qed.

Lemma asciiLower_ascii : forall s, isASCII (asciiLower s) = true -> isASCII s = true.
Proof.
  induction s as [|c s IH]; [reflexivity|]. cbn [asciiLower mapBytes isASCII].
  intros [Hc Hs]%andb_true_iff. apply andb_true_iff. split.
  - apply lowerByte_ascii, Hc.
  - apply IH, Hs.
Qed.

Lemma not_integerIn (lo hi : Z) (s : string) :
  ~ integerIn lo hi s -> forall v, Atoi s = Num v -> v < lo \/ hi < v.
Proof.
  intros Hbad v Hv.
  destruct (Z.lt_ge_cases v lo) as [|Hlo]; [left; assumption|].
  destruct (Z.lt_ge_cases hi v) as [|Hhi]; [right; assumption|].
  exfalso. apply Hbad. exists v. split; [exact Hv | lia].
Qed.

Section Commands.
Context `{GoLib} (E : Env).

Lemma isAll_broadcast (idStr : string) : broadcastWord idStr -> isAll idStr = true.
Proof.
  unfold isAll. intros [Hall|[->| ->]].
  - rewrite ToLower_ascii, Hall; [reflexivity|].
    apply asciiLower_ascii. rewrite Hall. reflexivity.
  - rewrite orb_true_iff. left. rewrite orb_true_iff. right. reflexivity.
  - rewrite orb_true_iff. right. reflexivity.
Qed.

Lemma isAll_ascii (idStr : string) :
  isASCII idStr = true ->
  isAll idStr = bool_decide (asciiLower idStr = "all") || bool_decide (idStr = "0")
                || bool_decide (idStr = "00").
Proof. intros Hascii. unfold isAll. rewrite ToLower_ascii by exact Hascii. reflexivity. Qed.

Lemma formatID_broadcast (idStr : string) :
  broadcastWord idStr -> formatID idStr = "00".
Proof. intros Hb. unfold formatID. rewrite (isAll_broadcast idStr Hb). reflexivity. Qed.

Lemma setSpeed_invalid (idStr speedStr : string) (w : World) :
  (forall v, Atoi speedStr = Num v -> v < 0 \/ 100 < v) ->
  setSpeed E idStr speedStr w = (Ret tt, printed speedError w).
Proof.
  intros Hbad. unfold setSpeed. destruct (Atoi speedStr) as [v|e]; [|reflexivity].
  destruct (Hbad v eq_refl) as [Hlo|Hhi].
  - replace (v <? 0) with true by (symmetry; apply Z.ltb_lt; lia). reflexivity.
  - replace (100 <? v) with true by (symmetry; apply Z.ltb_lt; lia).
    rewrite orb_true_r. reflexivity.
Qed.

Lemma setSpeed_valid (idStr speedStr : string) (v : Z) (w : World) :
  Atoi speedStr = Num v -> 0 <= v <= 100 ->
  let args := writeArgv (formatID idStr) v in
  setSpeed E idStr speedStr w =
  match tool E (history w) args with
  | Done out =>
      (Ret tt, printed (setConfirmation idStr v) (logged AtSetSpeed args (Done out) w))
  | Failed err out =>
      (Exited 1, printed (ipmiError err out) (logged AtSetSpeed args (Failed err out) w))
  end.
Proof.
  intros Hv Hrange. cbv zeta. unfold setSpeed. rewrite Hv.
  replace (v <? 0) with false by (symmetry; apply Z.ltb_ge; lia).
  replace (100 <? v) with false by (symmetry; apply Z.ltb_ge; lia).
  cbn [orb]. cbv zeta.
  rewrite (bind_Ret _ _ _ _ _ (ipmiRaw_eq E _ _ _)).
  change ("raw" :: "0x2e" :: ["0x30"; "00"; formatID idStr; "0x" +:+ fmt_x v])
    with (writeArgv (formatID idStr) v).
  destruct (tool E (history w) (writeArgv (formatID idStr) v)) as [out|err out];
    cbn [rawResult].
  - unfold setConfirmation. destruct (isAll idStr); reflexivity.
  - reflexivity.
Qed.

Lemma getSpeed_broadcast (idStr : string) (w : World) :
  isAll idStr = true -> getSpeed E idStr w = (Ret tt, printed useStatus w).
Proof. intros Hall. unfold getSpeed. rewrite Hall. reflexivity. Qed.

Lemma getSpeed_invalid (idStr : string) (w : World) :
  isAll idStr = false ->
  (forall v, Atoi idStr = Num v -> v < 1 \/ 6 < v) ->
  getSpeed E idStr w = (Ret tt, printed idError w).
Proof.
  intros Hall Hbad. unfold getSpeed. rewrite Hall.
  destruct (Atoi idStr) as [v|e]; [|reflexivity].
  destruct (Hbad v eq_refl) as [Hlo|Hhi].
  - replace (v <? 1) with true by (symmetry; apply Z.ltb_lt; lia). reflexivity.
  - replace (6 <? v) with true by (symmetry; apply Z.ltb_lt; lia).
    rewrite orb_true_r. reflexivity.
Qed.

Lemma getSpeed_valid (idStr : string) (id : Z) (w : World) :
  isAll idStr = false -> Atoi idStr = Num id -> 1 <= id <= 6 ->
  getSpeed E idStr w =
  match tool E (history w) readArgv with
  | Done out =>
      (Ret tt, printed (getAnswer id out) (logged AtGetSpeed readArgv (Done out) w))
  | Failed err out =>
      (Exited 1, printed (ipmiError err out) (logged AtGetSpeed readArgv (Failed err out) w))
  end.
Proof.
  intros Hall Hid Hrange. unfold getSpeed. rewrite Hall, Hid.
  replace (id <? 1) with false by (symmetry; apply Z.ltb_ge; lia).
  replace (6 <? id) with false by (symmetry; apply Z.ltb_ge; lia).
  cbn [orb]. rewrite (bind_Ret _ _ _ _ _ (ipmiRaw_eq E _ _ _)). fold readArgv.
  destruct (tool E (history w) readArgv) as [out|err out]; cbn [rawResult].
  - unfold getAnswer. cbv zeta.
    destruct (id <? Z.of_nat (length (Fields out))); reflexivity.
  - reflexivity.
Qed.

(** The three ways [setSpeed] can go. *)
Lemma setSpeed_cases (idStr speedStr : string) (w : World) :
  setSpeed E idStr speedStr w = (Ret tt, printed speedError w)
  /\ ~ integerIn 0 100 speedStr
  \/ exists v, Atoi speedStr = Num v /\ 0 <= v <= 100 /\
       let args := writeArgv (formatID idStr) v in
       ((exists out, tool E (history w) args = Done out /\
           setSpeed E idStr speedStr w
           = (Ret tt, printed (setConfirmation idStr v) (logged AtSetSpeed args (Done out) w)))
        \/ (exists err out, tool E (history w) args = Failed err out /\
           setSpeed E idStr speedStr w
           = (Exited 1, printed (ipmiError err out)
                                (logged AtSetSpeed args (Failed err out) w)))).
Proof.
  destruct (Atoi speedStr) as [v|e] eqn:Hv.
  - destruct (Z.lt_ge_cases v 0) as [Hlo|Hlo]; [|destruct (Z.lt_ge_cases 100 v) as [Hhi|Hhi]].
    + left. split.
      * apply setSpeed_invalid. intros v' Hv'. rewrite Hv in Hv'. injection Hv' as <-. lia.
      * intros (v' & Hv' & Hr). rewrite Hv in Hv'. injection Hv' as <-. lia.
    + left. split.
      * apply setSpeed_invalid. intros v' Hv'. rewrite Hv in Hv'. injection Hv' as <-. lia.
      * intros (v' & Hv' & Hr). rewrite Hv in Hv'. injection Hv' as <-. lia.
    + right. exists v. split; [reflexivity|]. split; [lia|]. cbv zeta.
      rewrite (setSpeed_valid idStr speedStr v w Hv ltac:(lia)).
      destruct (tool E (history w) (writeArgv (formatID idStr) v)) as [out|err out]; eauto.
  - left. split.
    + apply setSpeed_invalid. intros v' Hv'. rewrite Hv in Hv'. discriminate.
    + intros (v' & Hv' & _). rewrite Hv in Hv'. discriminate.
Qed.

Lemma getSpeed_cases (idStr : string) (w : World) :
  (exists o, getSpeed E idStr w = (Ret tt, printed o w))
  \/ exists id, isAll idStr = false /\ Atoi idStr = Num id /\ 1 <= id <= 6 /\
       ((exists out, tool E (history w) readArgv = Done out /\
           getSpeed E idStr w
           = (Ret tt, printed (getAnswer id out) (logged AtGetSpeed readArgv (Done out) w)))
        \/ (exists err out, tool E (history w) readArgv = Failed err out /\
           getSpeed E idStr w
           = (Exited 1, printed (ipmiError err out)
                                (logged AtGetSpeed readArgv (Failed err out) w)))).
Proof.
  destruct (isAll idStr) eqn:Hall.
  { left. exists useStatus. apply getSpeed_broadcast, Hall. }
  destruct (Atoi idStr) as [id|e] eqn:Hid.
  - destruct (Z.lt_ge_cases id 1) as [Hlo|Hlo]; [|destruct (Z.lt_ge_cases 6 id) as [Hhi|Hhi]].
    + left. exists idError. apply getSpeed_invalid; [exact Hall|].
      intros v' Hv'. rewrite Hid in Hv'. injection Hv' as <-. lia.
    + left. exists idError. apply getSpeed_invalid; [exact Hall|].
      intros v' Hv'. rewrite Hid in Hv'. injection Hv' as <-. lia.
    + right. exists id. split; [reflexivity|]. split; [reflexivity|]. split; [lia|].
      rewrite (getSpeed_valid idStr id w Hall Hid ltac:(lia)).
      destruct (tool E (history w) readArgv) as [out|err out]; eauto.
  - left. exists idError. apply getSpeed_invalid; [exact Hall|].
    intros v' Hv'. rewrite Hid in Hv'. discriminate.
Qed.

End Commands.

(** ** The [set] command *)

(** C8.  Whatever the id, a speed argument that is not an integer in
    [0,100] makes [set] print the range error and do nothing else: the
    process keeps running, and the trace of tool invocations is the one it
    started with. *)
Theorem set_rejects_bad_speed `{GoLib} (E : Env) (idStr speedStr : string) (w : World) :
  ~ integerIn 0 100 speedStr ->
  setSpeed E idStr speedStr w = (Ret tt, printed speedError w) /\
  trace (setSpeed E idStr speedStr w).2 = trace w /\
  stdout (setSpeed E idStr speedStr w).2 = stdout w ++ [speedError].
Proof.
  intros Hbad.
  assert (Heq : setSpeed E idStr speedStr w = (Ret tt, printed speedError w)).
  { apply setSpeed_invalid, not_integerIn, Hbad. }
  rewrite Heq. repeat split.
Qed.

Lemma set_all_150_rejected :
  ~ integerIn 0 100 "150" /\
  setSpeed (H := referenceLib) quietBmc "all" "150" world0
  = (Ret tt, printed speedError world0) /\
  trace (setSpeed (H := referenceLib) quietBmc "all" "150" world0).2 = [].
Proof.
  assert (Hbad : ~ integerIn 0 100 "150").
  { intros (v & Hv & Hrange). vm_compute in Hv. injection Hv as <-. lia. }
  split; [exact Hbad|].
  destruct (set_rejects_bad_speed (H := referenceLib) quietBmc "all" "150" world0 Hbad)
    as (Heq & Htr & _).
  split; [exact Heq | exact Htr].
Defined.

(** C6, as the code has it.  [set 1 s] and [set 01 s] are the same
    computation, and for a valid speed both issue the one write command with
    id ["01"].  ["all"] in any letter case, ["0"] and ["00"] become the
    broadcast id ["00"].  Any other id of exactly one byte, digit or not, is
    prefixed with ["0"]; any other id of another length is handed to the tool
    unchanged, with no upper bound. *)
Theorem set_id_normalisation `{GoLib} (E : Env) :
  (forall speedStr w, setSpeed E "1" speedStr w = setSpeed E "01" speedStr w) /\
  (forall idStr speedStr v w,
     Atoi speedStr = Num v -> 0 <= v <= 100 ->
     argv <$> trace (setSpeed E idStr speedStr w).2
     = history w ++ [writeArgv (formatID idStr) v]) /\
  formatID "1" = "01" /\ formatID "01" = "01" /\
  (forall idStr, broadcastWord idStr -> formatID idStr = "00") /\
  (forall idStr, isAll idStr = false -> String.length idStr = 1%nat ->
                 formatID idStr = "0" +:+ idStr) /\
  (forall idStr, isAll idStr = false -> String.length idStr <> 1%nat ->
                 formatID idStr = idStr).
Proof.
  assert (H1 : isAll "1" = false) by (rewrite isAll_ascii; reflexivity).
  assert (H01 : isAll "01" = false) by (rewrite isAll_ascii; reflexivity).
  assert (F1 : formatID "1" = "01") by (unfold formatID; rewrite H1; reflexivity).
  assert (F01 : formatID "01" = "01") by (unfold formatID; rewrite H01; reflexivity).
  split; [|split; [|split; [exact F1|split; [exact F01|split; [|split]]]]].
  - intros speedStr w. unfold setSpeed. rewrite F1, F01, H1, H01. reflexivity.
  - intros idStr speedStr v w Hv Hrange.
    rewrite (setSpeed_valid E idStr speedStr v w Hv Hrange).
    destruct (tool E (history w) (writeArgv (formatID idStr) v)); cbn [snd trace printed logged];
      unfold history; rewrite fmap_app; reflexivity.
  - intros idStr Hb. unfold formatID. rewrite (isAll_broadcast idStr Hb). reflexivity.
  - intros idStr Hall Hlen. unfold formatID. rewrite Hall, Hlen. reflexivity.
  - intros idStr Hall Hlen. unfold formatID. rewrite Hall.
    destruct (Nat.eqb_spec (String.length idStr) 1); [contradiction | reflexivity].
Qed.

Lemma set_id_normalisation_witness :
  Atoi "45" = Num 45 /\
  argv <$> trace (setSpeed (H := referenceLib) quietBmc "1" "45" world0).2
  = [writeArgv "01" 45] /\
  argv <$> trace (setSpeed (H := referenceLib) quietBmc "01" "45" world0).2
  = [writeArgv "01" 45].
Proof.
  pose proof (set_id_normalisation (H := referenceLib) quietBmc)
    as (Hsame & Hissue & F1 & F01 & _).
  assert (H45 : Atoi "45" = Num 45) by reflexivity.
  split; [exact H45|]. split.
  - rewrite (Hissue "1" "45" 45 world0 H45 ltac:(lia)), F1. reflexivity.
  - rewrite (Hissue "01" "45" 45 world0 H45 ltac:(lia)), F01. reflexivity.
Defined.

(** The id ["x"] is neither a broadcast word nor a single digit, yet it is
    not handed to the tool as it is: the write command carries ["0x"]. *)
Lemma set_letter_id_not_passed_through :
  ~ (forall idStr : string,
       ~ broadcastWord idStr -> ~ singleDigit idStr ->
       argv <$> trace (setSpeed (H := referenceLib) quietBmc idStr "50" world0).2
       = [writeArgv idStr 50]).
Proof.
  intros Hclaim. specialize (Hclaim "x").
  assert (Hnb : ~ broadcastWord "x").
  { intros [Ha|[Hz|Hzz]]; [vm_compute in Ha|..]; discriminate. }
  assert (Hnd : ~ singleDigit "x").
  { intros (c & [= <-] & Hc). change (byteVal "x") with 120 in Hc. lia. }
  specialize (Hclaim Hnb Hnd). vm_compute in Hclaim. discriminate.
Qed.

(** ** The [get] command *)

(** C7.  [get] runs the tool only for an id that reads as an integer in
    [1,6] (["3"], ["03"]).  The broadcast words ["all"], ["0"], ["00"] are
    answered with the pointer to [status]; any other id that is not an
    integer in [1,6], such as ["07"], is answered with the validation error;
    in both cases the command returns normally and the trace of tool
    invocations is left as it was.  An accepted id issues the raw read
    command, once. *)
Theorem get_validates_id `{GoLib} (E : Env) (idStr : string) (w : World) :
  (broadcastWord idStr -> getSpeed E idStr w = (Ret tt, printed useStatus w)) /\
  (isAll idStr = false -> ~ integerIn 1 6 idStr ->
   getSpeed E idStr w = (Ret tt, printed idError w)) /\
  (isAll idStr = true \/ ~ integerIn 1 6 idStr ->
   (getSpeed E idStr w).1 = Ret tt /\ trace (getSpeed E idStr w).2 = trace w) /\
  (isAll idStr = false -> integerIn 1 6 idStr ->
   argv <$> trace (getSpeed E idStr w).2 = history w ++ [readArgv]).
Proof.
  assert (Hinv : isAll idStr = false -> ~ integerIn 1 6 idStr ->
                 getSpeed E idStr w = (Ret tt, printed idError w)).
  { intros Hall Hbad. apply getSpeed_invalid; [exact Hall | apply not_integerIn, Hbad]. }
  split; [|split; [exact Hinv|split]].
  - intros Hb. apply getSpeed_broadcast, isAll_broadcast, Hb.
  - intros Hrej. destruct (isAll idStr) eqn:Hall.
    + rewrite (getSpeed_broadcast E idStr w Hall). split; reflexivity.
    + destruct Hrej as [Habs|Hbad]; [discriminate|].
      rewrite (Hinv eq_refl Hbad). split; reflexivity.
  - intros Hall (v & Hv & Hrange). rewrite (getSpeed_valid E idStr v w Hall Hv Hrange).
    destruct (tool E (history w) readArgv); cbn [snd trace printed logged];
      unfold history; rewrite fmap_app; reflexivity.
Qed.

Lemma get_validates_id_witness :
  (getSpeed (H := referenceLib) quietBmc "all" world0 = (Ret tt, printed useStatus world0)
   /\ getSpeed (H := referenceLib) quietBmc "00" world0 = (Ret tt, printed useStatus world0))
  /\ (~ integerIn 1 6 "07"
      /\ getSpeed (H := referenceLib) quietBmc "07" world0 = (Ret tt, printed idError world0))
  /\ (integerIn 1 6 "03"
      /\ argv <$> trace (getSpeed (H := referenceLib) quietBmc "03" world0).2 = [readArgv]).
Proof.
  assert (H07 : ~ integerIn 1 6 "07").
  { intros (v & Hv & Hrange). vm_compute in Hv. injection Hv as <-. lia. }
  assert (H03 : integerIn 1 6 "03") by (exists 3; split; [reflexivity | lia]).
  split; [split|split; split].
  - apply (get_validates_id (H := referenceLib) quietBmc "all" world0).
    left. reflexivity.
  - apply (get_validates_id (H := referenceLib) quietBmc "00" world0).
    right. right. reflexivity.
  - exact H07.
  - apply (get_validates_id (H := referenceLib) quietBmc "07" world0);
      [reflexivity | exact H07].
  - exact H03.
  - apply (get_validates_id (H := referenceLib) quietBmc "03" world0);
      [reflexivity | exact H03].
Defined.

(** ** The sensor table *)

Section Sensors.
Context `{GoLib}.

Lemma sensorStep_eq (st : gmap string string * list ThermalStatus) (line : string) :
  sensorStep st line =
  (store st.1 (rpmReading line), st.2 ++ option_list (thermalReading line)).
Proof.
  destruct st as [rpmMap thermals].
  unfold sensorStep, rpmReading, thermalReading, isThermalRow, disconnected,
    thermalCandidate, fanCandidate, wellFormedRow, hasWord, rowName, rowValue, rowUnit,
    normalValue, normalUnit.
  cbn [fst snd].
  destruct (bool_decide (TrimSpace line = EmptyString)); cbn [negb andb];
    [rewrite app_nil_r; reflexivity|].
  rewrite Nat.ltb_antisym.
  destruct (3 <=? length (Split line "|"))%nat; cbn [negb andb];
    [|rewrite app_nil_r; reflexivity].
  destruct (bool_decide (TrimSpace (index (Split line "|") 1) = "na"));
    destruct (Contains (ToUpper line) "FAN");
    destruct (Contains (ToUpper line) "POWER");
    cbn [negb andb orb store option_list]; rewrite ?app_nil_r; try reflexivity;
    destruct (Contains (ToUpper line) "TEMP" || Contains (ToUpper line) "AIRFLOW");
    cbn [negb andb orb store option_list]; rewrite ?app_nil_r; try reflexivity;
    match goal with
    | |- context [bool_decide (?a = "0") && bool_decide (?b = degC)] =>
        destruct (bool_decide (a = "0") && bool_decide (b = degC))
    end; cbn [option_list]; rewrite ?app_nil_r; reflexivity.
Qed.

Lemma foldl_sensorStep (lines : list string) :
  forall st,
    foldl sensorStep st lines =
    (foldl store st.1 (rpmReading <$> lines), st.2 ++ omap thermalReading lines).
Proof.
  induction lines as [|line lines IH]; intros st; cbn [foldl fmap list_fmap omap list_omap].
  - rewrite app_nil_r. destruct st; reflexivity.
  - rewrite IH, sensorStep_eq. cbn [fst snd]. f_equal.
    rewrite <- app_assoc. f_equal.
    destruct (thermalReading line); reflexivity.
Qed.

Lemma parseSensors_eq (out : string) :
  parseSensors out =
  (foldl store ∅ (rpmReading <$> Split out "010"), omap thermalReading (Split out "010")).
Proof. unfold parseSensors. rewrite foldl_sensorStep. reflexivity. Qed.

Lemma normalValue_0_0 : normalValue "0.0" = "0".
Proof.
  pose proof (ParseFloat_integral 0 1 ltac:(lia)) as Hlaw.
  change (fmt_d 0 +:+ "." +:+ zeros 1) with "0.0" in Hlaw.
  change (fmt_d 0) with "0" in Hlaw.
  unfold normalValue. destruct (ParseFloat "0.0") as [f|]; [|discriminate].
  cbn in Hlaw. congruence.
Qed.

Lemma foldl_store_absent (k : string) (entries : list (option (string * string))) :
  forall m,
    (forall v, Some (k, v) ∉ entries) ->
    foldl store m entries !! k = m !! k.
Proof.
  induction entries as [|entry entries IH]; intros m Hnone; [reflexivity|].
  cbn [foldl]. rewrite IH.
  - destruct entry as [[k' v']|]; cbn [store]; [|reflexivity].
    apply lookup_insert_ne. intros ->. apply (Hnone v'). left.
  - intros v Hin. apply (Hnone v). right. exact Hin.
Qed.

(** C3, as the code has it.  The thermal list is, in the order of the
    lines, the reading of each row that reaches the thermal branch: a
    non-blank line of at least three fields that contains TEMP or AIRFLOW,
    is not a fan candidate (FAN without POWER) and is not a disconnected row
    (value ["na"] without FAN).  Its value is the zero-decimal rendering of
    the parsed number when the value parses as a floating-point number and
    the value itself otherwise; the unit ["degrees C"] becomes the
    degree-Celsius symbol and any other unit is kept; the reading is dropped
    exactly when it comes out as ["0"] with the Celsius unit.  So ["0.0"] in
    ["degrees C"] is dropped and ["0.0"] in ["CFM"] is kept as ["0 CFM"].
    A line that contains TEMP or AIRFLOW and is a fan candidate or a
    disconnected row adds nothing to the thermal list: the value of the fan
    candidate goes to the RPM mapping instead. *)
Theorem thermal_rows_normalised :
  (forall out, (parseSensors out).2 = omap thermalReading (Split out "010")) /\
  (forall st line, (sensorStep st line).2 = st.2 ++ option_list (thermalReading line)) /\
  (forall line, isThermalRow line = true <->
     wellFormedRow line = true /\
     hasWord line "TEMP" || hasWord line "AIRFLOW" = true /\
     fanCandidate line = false /\ disconnected line = false) /\
  (forall st line,
     hasWord line "TEMP" || hasWord line "AIRFLOW" = true ->
     fanCandidate line = true \/ disconnected line = true ->
     (sensorStep st line).2 = st.2) /\
  (forall st line,
     wellFormedRow line = true -> fanCandidate line = true -> rowValue line <> "na" ->
     sensorStep st line = (<[rowName line := rowValue line +:+ " RPM"]> st.1, st.2)) /\
  (forall val valFloat, ParseFloat val = Some valFloat -> normalValue val = fmt_f0 valFloat) /\
  (forall val, ParseFloat val = None -> normalValue val = val) /\
  normalUnit "degrees C" = degC /\
  (forall unit, unit <> "degrees C" -> normalUnit unit = unit) /\
  (forall line, isThermalRow line = true ->
     normalValue (rowValue line) = "0" /\ normalUnit (rowUnit line) = degC ->
     thermalReading line = None) /\
  (forall line, isThermalRow line = true ->
     ~ (normalValue (rowValue line) = "0" /\ normalUnit (rowUnit line) = degC) ->
     thermalReading line =
     Some {| TName := rowName line;
             TValue := normalValue (rowValue line) +:+ " " +:+ normalUnit (rowUnit line) |}) /\
  (forall line, isThermalRow line = true ->
     rowValue line = "0.0" -> rowUnit line = "degrees C" ->
     thermalReading line = None) /\
  (forall line, isThermalRow line = true ->
     rowValue line = "0.0" -> rowUnit line = "CFM" ->
     thermalReading line = Some {| TName := rowName line; TValue := "0 CFM" |}).
Proof.
  assert (Hdrop : forall line, isThermalRow line = true ->
            normalValue (rowValue line) = "0" /\ normalUnit (rowUnit line) = degC ->
            thermalReading line = None).
  { intros line Hrow [Hv Hu]. unfold thermalReading. rewrite Hrow, Hv, Hu. reflexivity. }
  assert (Hkeep : forall line, isThermalRow line = true ->
            ~ (normalValue (rowValue line) = "0" /\ normalUnit (rowUnit line) = degC) ->
            thermalReading line =
            Some {| TName := rowName line;
                    TValue := normalValue (rowValue line) +:+ " "
                              +:+ normalUnit (rowUnit line) |}).
  { intros line Hrow Hnot. unfold thermalReading. rewrite Hrow.
    destruct (bool_decide_reflect (normalValue (rowValue line) = "0")) as [Hv|Hv];
      destruct (bool_decide_reflect (normalUnit (rowUnit line) = degC)) as [Hu|Hu];
      cbn [andb]; try reflexivity.
    exfalso. apply Hnot. split; assumption. }
  assert (Hrows : forall line, isThermalRow line = true <->
            wellFormedRow line = true /\
            hasWord line "TEMP" || hasWord line "AIRFLOW" = true /\
            fanCandidate line = false /\ disconnected line = false).
  { intros line. unfold isThermalRow, thermalCandidate.
    destruct (wellFormedRow line), (disconnected line), (fanCandidate line),
      (hasWord line "TEMP" || hasWord line "AIRFLOW"); cbn [negb andb];
      split; try discriminate; try (intros (? & ? & ? & ?); discriminate);
      intros _; repeat split. }
  split; [intros out; rewrite parseSensors_eq; reflexivity|].
  split; [intros st line; rewrite sensorStep_eq; reflexivity|].
  split; [exact Hrows|].
  split.
  { intros st line _ Hout. rewrite sensorStep_eq. cbn [snd].
    assert (Hnot : isThermalRow line = false).
    { unfold isThermalRow, thermalCandidate.
      destruct Hout as [-> | ->]; cbn [negb andb]; rewrite ?andb_false_r; reflexivity. }
    unfold thermalReading. rewrite Hnot. apply app_nil_r. }
  split.
  { intros st line Hwf Hfan Hval. rewrite sensorStep_eq.
    assert (Hnot : isThermalRow line = false).
    { unfold isThermalRow, thermalCandidate. rewrite Hfan. cbn [negb andb].
      apply andb_false_r. }
    unfold thermalReading, rpmReading. rewrite Hnot, Hwf, Hfan.
    rewrite (bool_decide_eq_false_2 _ Hval). cbn [negb andb store option_list].
    rewrite app_nil_r. reflexivity. }
  split; [intros val valFloat Hp; unfold normalValue; rewrite Hp; reflexivity|].
  split; [intros val Hp; unfold normalValue; rewrite Hp; reflexivity|].
  split; [reflexivity|].
  split.
  { intros unit Hne. unfold normalUnit. rewrite bool_decide_eq_false_2 by exact Hne.
    reflexivity. }
  split; [exact Hdrop|]. split; [exact Hkeep|]. split.
  - intros line Hrow Hv Hu. apply Hdrop; [exact Hrow|].
    rewrite Hv, Hu. split; [apply normalValue_0_0 | reflexivity].
  - intros line Hrow Hv Hu. rewrite (Hkeep line Hrow).
    + rewrite Hv, Hu, normalValue_0_0. reflexivity.
    + rewrite Hu. intros [_ Habs]. vm_compute in Habs. discriminate.
Qed.

(** C5.  Take a row whose value field is the lowercase ["na"].  If the line
    contains FAN, the row stores nothing in the RPM mapping, and when no
    other row supplies that name the name stays absent from it; the same row
    with any other value and no POWER would have been stored.  If the line
    does not contain FAN, the row is skipped before any classification: the
    step changes nothing, so the row is not in the thermal list.  The skip is
    for rows without FAN only: a row with FAN goes on to classification.  As
    a fan candidate it leaves both results as they are; with POWER and TEMP
    or AIRFLOW it is appended to the thermal list with its value as
    normalised, ["na"] itself when that does not parse as a number. *)
Theorem na_rows (st : gmap string string * list ThermalStatus) (line : string) :
  rowValue line = "na" ->
  (hasWord line "FAN" = true ->
     rpmReading line = None /\ (sensorStep st line).1 = st.1) /\
  (forall out name,
     (forall l, l ∈ Split out "010" -> rowName l = name -> rowValue l = "na") ->
     (parseSensors out).1 !! name = None) /\
  (forall l,
     wellFormedRow l = true -> fanCandidate l = true -> rowValue l <> "na" ->
     (sensorStep st l).1 = <[rowName l := rowValue l +:+ " RPM"]> st.1) /\
  (hasWord line "FAN" = false ->
     disconnected line = true /\ sensorStep st line = st /\ thermalReading line = None) /\
  (fanCandidate line = true -> sensorStep st line = st) /\
  (hasWord line "FAN" = true -> wellFormedRow line = true ->
   hasWord line "POWER" = true -> hasWord line "TEMP" || hasWord line "AIRFLOW" = true ->
     disconnected line = false /\ isThermalRow line = true /\
     sensorStep st line
     = (st.1,
        st.2 ++ (if bool_decide (normalValue "na" = "0")
                    && bool_decide (normalUnit (rowUnit line) = degC)
                 then []
                 else [ {| TName := rowName line;
                           TValue := normalValue "na" +:+ " "
                                     +:+ normalUnit (rowUnit line) |} ])) /\
     (ParseFloat "na" = None ->
      sensorStep st line
      = (st.1, st.2 ++ [ {| TName := rowName line;
                            TValue := "na " +:+ normalUnit (rowUnit line) |} ]))).
Proof.
  intros Hna.
  assert (Hrpm : rpmReading line = None).
  { unfold rpmReading. rewrite Hna. cbn [bool_decide negb]. rewrite andb_false_r. reflexivity. }
  split; [|split; [|split; [|split; [|split]]]].
  - intros _. split; [exact Hrpm|]. rewrite sensorStep_eq, Hrpm. reflexivity.
  - intros out name Hall. rewrite parseSensors_eq. cbn [fst].
    rewrite foldl_store_absent; [apply lookup_empty|].
    intros v Hin. apply list_elem_of_fmap in Hin as (l & Heq & Hl).
    unfold rpmReading in Heq.
    destruct (wellFormedRow l && fanCandidate l) eqn:Hwl; cbn [andb] in Heq; [|discriminate].
    destruct (bool_decide_reflect (rowValue l = "na")) as [Hv|Hv]; cbn [negb] in Heq;
      [discriminate|].
    injection Heq as Hname _. apply Hv, (Hall l Hl). symmetry. exact Hname.
  - intros l Hwf Hfan Hval. rewrite sensorStep_eq. cbn [fst].
    unfold rpmReading. rewrite Hwf, Hfan, (bool_decide_eq_false_2 _ Hval). reflexivity.
  - intros Hfan.
    assert (Hdis : disconnected line = true)
      by (unfold disconnected; rewrite Hna, Hfan; reflexivity).
    assert (Hth : thermalReading line = None).
    { unfold thermalReading, isThermalRow. rewrite Hdis. cbn [negb].
      rewrite andb_false_r. reflexivity. }
    split; [exact Hdis|]. split; [|exact Hth].
    rewrite sensorStep_eq, Hrpm, Hth. cbn [store option_list].
    rewrite app_nil_r. destruct st; reflexivity.
  - intros Hfan. rewrite sensorStep_eq, Hrpm.
    unfold thermalReading, isThermalRow, thermalCandidate. rewrite Hfan.
    cbn [negb andb]. rewrite andb_false_r. cbn [store option_list].
    rewrite app_nil_r. destruct st; reflexivity.
  - intros Hfan Hwf Hpower Hthermal.
    assert (Hdis : disconnected line = false)
      by (unfold disconnected; rewrite Hfan; apply andb_false_r).
    assert (Hrow : isThermalRow line = true).
    { unfold isThermalRow, thermalCandidate, fanCandidate.
      rewrite Hwf, Hdis, Hfan, Hpower, Hthermal. reflexivity. }
    assert (Hstep : sensorStep st line
              = (st.1,
                 st.2 ++ (if bool_decide (normalValue "na" = "0")
                             && bool_decide (normalUnit (rowUnit line) = degC)
                          then []
                          else [ {| TName := rowName line;
                                    TValue := normalValue "na" +:+ " "
                                              +:+ normalUnit (rowUnit line) |} ]))).
    { rewrite sensorStep_eq, Hrpm. unfold thermalReading. rewrite Hrow, Hna.
      cbn [store].
      destruct (bool_decide (normalValue "na" = "0")
                && bool_decide (normalUnit (rowUnit line) = degC)); reflexivity. }
    split; [exact Hdis|]. split; [exact Hrow|]. split; [exact Hstep|].
    intros Hparse. rewrite Hstep. unfold normalValue. rewrite Hparse.
    rewrite (bool_decide_eq_false_2 ("na" = "0")) by discriminate. reflexivity.
Qed.

End Sensors.

Lemma thermal_rows_normalised_witness :
  let line := "Airflow rate     | 0.0        | CFM        | ok" in
  isThermalRow (H := referenceLib) line = true /\
  rowValue (H := referenceLib) line = "0.0" /\
  rowUnit (H := referenceLib) line = "CFM" /\
  thermalReading (H := referenceLib) line
  = Some {| TName := "Airflow rate"; TValue := "0 CFM" |}.
Proof.
  cbv zeta. split; [reflexivity|]. split; [reflexivity|]. split; [reflexivity|].
  pose proof (thermal_rows_normalised (H := referenceLib))
    as (_ & _ & _ & _ & _ & _ & _ & _ & _ & _ & _ & _ & Hcfm).
  apply (Hcfm "Airflow rate     | 0.0        | CFM        | ok"); reflexivity.
Defined.

(** A fan candidate that mentions TEMP and a disconnected temperature row:
    the wording counts both as thermal rows with the readings 41 and na in
    Celsius, while the code stores the first as an RPM reading, skips the
    second, and lists no thermal reading at all. *)
Lemma fan_temp_row_not_listed :
  mentionsThermal (H := referenceLib) "CPU Fan1 Temp    | 41.000     | degrees C  | ok" = true /\
  mentionsThermal (H := referenceLib) "PCH Temp         | na         | degrees C  | na" = true /\
  omap (claimedReading (H := referenceLib))
       (Split ("CPU Fan1 Temp    | 41.000     | degrees C  | ok" +:+ newline
               +:+ "PCH Temp         | na         | degrees C  | na") "010")
  = [ {| TName := "CPU Fan1 Temp"; TValue := "41 " +:+ degC |};
      {| TName := "PCH Temp"; TValue := "na " +:+ degC |} ] /\
  (parseSensors (H := referenceLib)
     ("CPU Fan1 Temp    | 41.000     | degrees C  | ok" +:+ newline
      +:+ "PCH Temp         | na         | degrees C  | na")).1 !! "CPU Fan1 Temp"
  = Some "41.000 RPM" /\
  (parseSensors (H := referenceLib)
     ("CPU Fan1 Temp    | 41.000     | degrees C  | ok" +:+ newline
      +:+ "PCH Temp         | na         | degrees C  | na")).2 = [] /\
  ~ everyThermalRowListed (H := referenceLib)
      ("CPU Fan1 Temp    | 41.000     | degrees C  | ok" +:+ newline
       +:+ "PCH Temp         | na         | degrees C  | na").
Proof.
  split; [reflexivity|]. split; [reflexivity|]. split; [reflexivity|].
  split; [reflexivity|]. split; [reflexivity|].
  unfold everyThermalRowListed. intros Hclaim. vm_compute in Hclaim. discriminate.
Qed.

Lemma na_rows_witness :
  let fanLine := "System Fan2      | na         | RPM        | na" in
  let tempLine := "PCH Temp         | na         | degrees C  | na" in
  let powerLine := "Fan Power Temp2  | na         | degrees C  | na" in
  (rowValue (H := referenceLib) fanLine = "na" /\
   hasWord (H := referenceLib) fanLine "FAN" = true /\
   sensorStep (H := referenceLib) (∅, []) fanLine = (∅, [])) /\
  (rowValue (H := referenceLib) tempLine = "na" /\
   hasWord (H := referenceLib) tempLine "FAN" = false /\
   sensorStep (H := referenceLib) (∅, []) tempLine = (∅, [])) /\
  (rowValue (H := referenceLib) powerLine = "na" /\
   hasWord (H := referenceLib) powerLine "FAN" = true /\
   sensorStep (H := referenceLib) (∅, []) powerLine
   = (∅, [ {| TName := "Fan Power Temp2"; TValue := "na " +:+ degC |} ])).
Proof.
  cbv zeta. split; [|split].
  - split; [reflexivity|]. split; [reflexivity|].
    pose proof (na_rows (H := referenceLib) (∅, [])
                  "System Fan2      | na         | RPM        | na" eq_refl)
      as (_ & _ & _ & _ & Hfan & _).
    apply Hfan. reflexivity.
  - split; [reflexivity|]. split; [reflexivity|].
    pose proof (na_rows (H := referenceLib) (∅, [])
                  "PCH Temp         | na         | degrees C  | na" eq_refl)
      as (_ & _ & _ & Hskip & _).
    apply Hskip. reflexivity.
  - split; [reflexivity|]. split; [reflexivity|].
    pose proof (na_rows (H := referenceLib) (∅, [])
                  "Fan Power Temp2  | na         | degrees C  | na" eq_refl)
      as (_ & _ & _ & _ & _ & Hpower).
    destruct (Hpower eq_refl eq_refl eq_refl eq_refl) as (_ & _ & _ & Hna).
    apply (Hna eq_refl).
Defined.

(** ** The [status] command *)

Section Status.
Context `{GoLib} (E : Env).

Lemma getStatus_eq (asJson : bool) (w : World) :
  let r1 := tool E (history w) readArgv in
  let w1 := logged AtGetPWMs readArgv r1 w in
  let r2 := tool E (history w1) sensorArgv in
  let w2 := logged AtGetStatus sensorArgv r2 w1 in
  getStatus E asJson w =
  (Ret tt,
   match r2 with
   | Failed err _ => printed (sensorError err) w2
   | Done out =>
       printed (report asJson (buildFans (pwmTable r1) (parseSensors out).1)
                              (parseSensors out).2) w2
   end).
Proof.
  cbv zeta. unfold getStatus.
  rewrite (bind_Ret _ _ _ _ _ (getPWMs_eq E w)).
  rewrite (bind_Ret _ _ _ _ _ (run_eq E _ _ _)). fold sensorArgv.
  destruct (tool E _ sensorArgv) as [out|err out]; [|reflexivity].
  destruct (parseSensors out) as [rpmMap thermals]. cbn [fst snd].
  destruct asJson; reflexivity.
Qed.

Lemma pwmTable_noEmpty (r : ToolResult) : noEmptyValue (pwmTable r).
Proof.
  intros k v Hl. unfold pwmTable in Hl.
  destruct r as [out|err out]; [|rewrite lookup_empty in Hl; discriminate].
  destruct (7 <=? length (Fields out))%nat; [|rewrite lookup_empty in Hl; discriminate].
  repeat (apply lookup_insert_Some in Hl as [[_ <-]|[_ Hl]];
          [apply hexToPercent_not_empty|]).
  rewrite lookup_empty in Hl. discriminate.
Qed.

Lemma foldl_store_noEmpty (entries : list (option (string * string))) :
  forall m,
    noEmptyValue m ->
    (forall k v, Some (k, v) ∈ entries -> v <> EmptyString) ->
    noEmptyValue (foldl store m entries).
Proof.
  induction entries as [|entry entries IH]; intros m Hm Hentries; [exact Hm|].
  cbn [foldl]. apply IH.
  - destruct entry as [[k v]|]; cbn [store]; [|exact Hm].
    intros k' v' Hl. apply lookup_insert_Some in Hl as [[_ <-]|[_ Hl]].
    + apply (Hentries k v). left.
    + exact (Hm k' v' Hl).
  - intros k v Hin. apply (Hentries k v). right. exact Hin.
Qed.

Lemma parseSensors_noEmpty (out : string) : noEmptyValue (parseSensors out).1.
Proof.
  rewrite parseSensors_eq. cbn [fst]. apply foldl_store_noEmpty.
  - intros k v Hl. rewrite lookup_empty in Hl. discriminate.
  - intros k v Hin. apply list_elem_of_fmap in Hin as (l & Heq & _).
    unfold rpmReading in Heq.
    destruct (wellFormedRow l && fanCandidate l && negb (bool_decide (rowValue l = "na")));
      [|discriminate].
    injection Heq as _ ->. destruct (rowValue l); discriminate.
Qed.

Lemma orNA_mapGet (m : gmap string string) (k : string) :
  noEmptyValue m -> orNA (mapGet m k) = default "N/A" (m !! k).
Proof.
  intros Hm. unfold orNA, mapGet. destruct (m !! k) as [v|] eqn:Hl; cbn [default].
  - rewrite bool_decide_eq_false_2; [reflexivity|]. exact (Hm k v Hl).
  - reflexivity.
Qed.

Lemma buildFans_eq (pwms rpmMap : gmap string string) :
  noEmptyValue pwms -> noEmptyValue rpmMap ->
  buildFans pwms rpmMap = fanRow pwms rpmMap <$> fanNames.
Proof.
  intros Hp Hr. unfold buildFans, fanNames, fanRow.
  cbn [foldl fmap list_fmap app]. rewrite !orNA_mapGet by assumption. reflexivity.
Qed.

End Status.

(** C1.  Whenever the sensor listing succeeds, [status] emits one report,
    in text or JSON, whose fan sequence is the six fixed names in their fixed
    order, each with the RPM and PWM found for that name and ["N/A"] for a
    value that is missing, whatever the raw PWM read answered.  When that
    read fails, or answers fewer than seven white-space separated tokens, the
    PWM lookup is the empty mapping, nothing is raised, and every fan
    reports the PWM ["N/A"]. *)
Theorem status_lists_six_fans `{GoLib} (E : Env) (asJson : bool) (w : World)
    (out : string) :
  let pwmAnswer := tool E (history w) readArgv in
  let fans := fanRow (pwmTable pwmAnswer) (parseSensors out).1 <$> fanNames in
  tool E (history w ++ [readArgv]) sensorArgv = Done out ->
  (getPWMs E w).1 = Ret (pwmTable pwmAnswer) /\
  (getStatus E asJson w).1 = Ret tt /\
  stdout (getStatus E asJson w).2
  = stdout w ++ [report asJson fans (parseSensors out).2] /\
  Name <$> fans
  = ["System Fan1"; "System Fan2"; "System Fan3"; "System Fan4"; "CPU Fan1"; "CPU Fan2"] /\
  ((exists err o, pwmAnswer = Failed err o)
   \/ (exists o, pwmAnswer = Done o /\ (length (Fields o) < 7)%nat) ->
   pwmTable pwmAnswer = ∅ /\ Forall (fun fan => PWM fan = "N/A") fans).
Proof.
  cbv zeta. intros Hsensors.
  split; [rewrite getPWMs_eq; reflexivity|].
  rewrite getStatus_eq. cbn [fst snd].
  replace (history (logged AtGetPWMs readArgv (tool E (history w) readArgv) w))
    with (history w ++ [readArgv])
    by (unfold history, logged; cbn [trace]; rewrite fmap_app; reflexivity).
  rewrite Hsensors.
  rewrite buildFans_eq by (apply pwmTable_noEmpty || apply parseSensors_noEmpty).
  split; [reflexivity|]. split; [reflexivity|]. split; [reflexivity|].
  intros Hshort.
  assert (Hempty : pwmTable (tool E (history w) readArgv) = ∅).
  { destruct Hshort as [(err & o & ->)|(o & -> & Hlen)]; [reflexivity|].
    unfold pwmTable. destruct (Nat.leb_spec 7 (length (Fields o))); [lia | reflexivity]. }
  split; [exact Hempty|]. rewrite Hempty.
  unfold fanNames, fanRow. cbn [fmap list_fmap].
  repeat (constructor; [cbn [PWM]; rewrite lookup_empty; reflexivity|]). constructor.
Qed.

Lemma status_lists_six_fans_witness :
  let E := bmc (Failed "exit status 1" "Unable to send RAW command")
               (Done "System Fan1      | 1558.000   | RPM        | ok") (Done EmptyString) in
  tool E (history world0 ++ [readArgv]) sensorArgv
  = Done "System Fan1      | 1558.000   | RPM        | ok" /\
  stdout (getStatus (H := referenceLib) E false world0).2
  = [Tables [ {| Name := "System Fan1"; RPM := "1558.000 RPM"; PWM := "N/A" |};
              {| Name := "System Fan2"; RPM := "N/A"; PWM := "N/A" |};
              {| Name := "System Fan3"; RPM := "N/A"; PWM := "N/A" |};
              {| Name := "System Fan4"; RPM := "N/A"; PWM := "N/A" |};
              {| Name := "CPU Fan1"; RPM := "N/A"; PWM := "N/A" |};
              {| Name := "CPU Fan2"; RPM := "N/A"; PWM := "N/A" |} ] []].
Proof.
  cbv zeta. split; [reflexivity|].
  pose proof (status_lists_six_fans (H := referenceLib)
                (bmc (Failed "exit status 1" "Unable to send RAW command")
                     (Done "System Fan1      | 1558.000   | RPM        | ok") (Done EmptyString))
                false world0 "System Fan1      | 1558.000   | RPM        | ok" eq_refl)
    as (_ & _ & Hout & _).
  rewrite Hout. vm_compute. reflexivity.
Defined.

Lemma main_status `{GoLib} (E : Env) (prog : string) (rest : list string) (w : World) :
  lookPath E = true ->
  main E (prog :: "status" :: rest) w = getStatus E (jsonFlag rest) w.
Proof. intros Hpath. unfold main. rewrite Hpath. reflexivity. Qed.

Lemma main_get `{GoLib} (E : Env) (prog idStr : string) (rest : list string) (w : World) :
  lookPath E = true ->
  main E (prog :: "get" :: idStr :: rest) w = getSpeed E idStr w.
Proof. intros Hpath. unfold main. rewrite Hpath. reflexivity. Qed.

Lemma main_set `{GoLib} (E : Env) (prog idStr speedStr : string) (rest : list string)
    (w : World) :
  lookPath E = true ->
  main E (prog :: "set" :: idStr :: speedStr :: rest) w = setSpeed E idStr speedStr w.
Proof. intros Hpath. unfold main. rewrite Hpath. reflexivity. Qed.

(** C10.  When the sensor listing fails, [status] has already run the raw
    PWM read; it prints the error and returns.  What it wrote is that one
    line, no table and no JSON document, in either output mode, and the
    process ends with code 0. *)
Theorem status_sensor_failure `{GoLib} (E : Env) (asJson : bool) (w : World)
    (err out : string) :
  tool E (history w ++ [readArgv]) sensorArgv = Failed err out ->
  (getStatus E asJson w).1 = Ret tt /\
  stdout (getStatus E asJson w).2 = stdout w ++ [sensorError err] /\
  isReport (sensorError err) = false /\
  argv <$> trace (getStatus E asJson w).2 = history w ++ [readArgv; sensorArgv] /\
  (lookPath E = true ->
   forall prog rest,
     exitCode (main E (prog :: "status" :: rest) w) = 0 /\
     stdout (main E (prog :: "status" :: rest) w).2 = stdout w ++ [sensorError err]).
Proof.
  intros Hfail.
  assert (Heq : forall flag, getStatus E flag w
            = (Ret tt, printed (sensorError err)
                         (logged AtGetStatus sensorArgv (Failed err out)
                            (logged AtGetPWMs readArgv (tool E (history w) readArgv) w)))).
  { intros flag. rewrite getStatus_eq.
    replace (history (logged AtGetPWMs readArgv (tool E (history w) readArgv) w))
      with (history w ++ [readArgv])
      by (unfold history, logged; cbn [trace]; rewrite fmap_app; reflexivity).
    rewrite Hfail. reflexivity. }
  rewrite Heq. cbn [fst snd printed logged trace stdout].
  split; [reflexivity|]. split; [reflexivity|]. split; [reflexivity|]. split.
  - unfold history. rewrite !fmap_app, <- app_assoc. reflexivity.
  - intros Hpath prog rest. rewrite main_status by exact Hpath. rewrite Heq.
    split; reflexivity.
Qed.

Lemma status_sensor_failure_witness :
  let E := bmc (Done " 00 32 46 50 3c 64 0a") (Failed "exit status 1" EmptyString) (Done EmptyString) in
  tool E (history world0 ++ [readArgv]) sensorArgv = Failed "exit status 1" EmptyString /\
  main (H := referenceLib) E ["fan"; "status"; "--json"] world0
  = (Ret tt,
     {| trace := [ {| site := AtGetPWMs; argv := readArgv;
                      result := Done " 00 32 46 50 3c 64 0a" |};
                   {| site := AtGetStatus; argv := sensorArgv;
                      result := Failed "exit status 1" EmptyString |} ];
        stdout := [sensorError "exit status 1"] |}) /\
  exitCode (main (H := referenceLib) E ["fan"; "status"; "--json"] world0) = 0.
Proof.
  cbv zeta. split; [reflexivity|]. split; [reflexivity|].
  apply (status_sensor_failure (H := referenceLib)
           (bmc (Done " 00 32 46 50 3c 64 0a") (Failed "exit status 1" EmptyString) (Done EmptyString))
           true world0 "exit status 1" EmptyString eq_refl); reflexivity.
Defined.

(** ** Exit codes *)

Lemma Orderly_ret {A} (a : A) : Orderly (mret a).
Proof. intros w. exists []. split; [symmetry; apply app_nil_r | constructor]. Qed.

Lemma Orderly_emit (o : Output) : Orderly (emit o).
Proof. intros w. exists []. split; [symmetry; apply app_nil_r | constructor]. Qed.

Lemma Orderly_Println (s : string) : Orderly (Println s).
Proof. apply Orderly_emit. Qed.

Lemma Orderly_Printf (s : string) : Orderly (Printf s).
Proof. apply Orderly_emit. Qed.

Lemma Orderly_bind {A B} (m : Prog A) (k : A -> Prog B) :
  Orderly m -> (forall a, Orderly (k a)) -> Orderly (m ≫= k).
Proof.
  intros Hm Hk w. rewrite bind_eq.
  destruct (Hm w) as (evs1 & Ht1 & Ho1). destruct (m w) as [[a|c] w1]; cbn [fst snd] in *.
  - destruct (Hk a w1) as (evs2 & Ht2 & Ho2). exists (evs1 ++ evs2). split.
    + rewrite Ht2, Ht1, app_assoc. reflexivity.
    + destruct ((k a w1).1) as [b|c].
      * apply Forall_app. split; assumption.
      * destruct Ho2 as [Hc Hex]. split; [exact Hc|]. apply Exists_app. right. exact Hex.
  - exists evs1. split; assumption.
Qed.

Lemma Orderly_forEach {A} (l : list A) (body : A -> Prog unit) :
  (forall x, Orderly (body x)) -> Orderly (forEach l body).
Proof.
  intros Hbody. induction l as [|x l IH]; cbn [forEach].
  - apply (Orderly_ret tt).
  - apply Orderly_bind; [apply Hbody | intros _; exact IH].
Qed.

Section ExitCodes.
Context `{GoLib} (E : Env).

Lemma Orderly_getPWMs : Orderly (getPWMs E).
Proof.
  intros w. rewrite getPWMs_eq. cbn [fst snd logged trace].
  eexists. split; [reflexivity|]. repeat constructor.
Qed.

Lemma Orderly_getStatus (asJson : bool) : Orderly (getStatus E asJson).
Proof.
  intros w. rewrite getStatus_eq. cbn [fst snd].
  exists [ {| site := AtGetPWMs; argv := readArgv; result := tool E (history w) readArgv |};
           {| site := AtGetStatus; argv := sensorArgv;
              result := tool E (history (logged AtGetPWMs readArgv
                                           (tool E (history w) readArgv) w)) sensorArgv |} ].
  split.
  - destruct (tool E _ sensorArgv); cbn [printed logged trace]; rewrite <- app_assoc;
      reflexivity.
  - repeat constructor.
Qed.

Lemma Orderly_setSpeed (idStr speedStr : string) : Orderly (setSpeed E idStr speedStr).
Proof.
  intros w.
  destruct (setSpeed_cases E idStr speedStr w)
    as [[-> _]|(v & _ & _ & [(out & Ht & ->)|(err & out & Ht & ->)])]; cbn [fst snd].
  - exists []. split; [symmetry; apply app_nil_r | constructor].
  - eexists. split; [reflexivity|]. repeat constructor.
  - eexists. split; [reflexivity|]. split; [reflexivity|]. left. reflexivity.
Qed.

Lemma Orderly_getSpeed (idStr : string) : Orderly (getSpeed E idStr).
Proof.
  intros w.
  destruct (getSpeed_cases E idStr w)
    as [[o ->]|(id & _ & _ & _ & [(out & Ht & ->)|(err & out & Ht & ->)])]; cbn [fst snd].
  - exists []. split; [symmetry; apply app_nil_r | constructor].
  - eexists. split; [reflexivity|]. repeat constructor.
  - eexists. split; [reflexivity|]. split; [reflexivity|]. left. reflexivity.
Qed.

Lemma Orderly_testrun : Orderly (testrun E).
Proof.
  unfold testrun.
  repeat (apply Orderly_bind; [apply Orderly_Println | intros _]).
  apply Orderly_bind; [apply Orderly_getPWMs | intros originalPWMs].
  destruct (saveSpeeds E originalPWMs) as [savedSpeeds backedUp].
  apply Orderly_bind; [apply Orderly_forEach, Orderly_emit | intros _].
  apply Orderly_bind; [apply Orderly_Println | intros _].
  apply Orderly_bind; [apply Orderly_setSpeed | intros _].
  apply Orderly_bind; [apply Orderly_Println | intros _].
  apply Orderly_bind; [apply Orderly_getSpeed | intros _].
  apply Orderly_bind; [apply Orderly_Println | intros _].
  apply Orderly_bind; [apply Orderly_getStatus | intros _].
  apply Orderly_bind; [apply Orderly_Println | intros _].
  apply Orderly_bind; [apply Orderly_forEach; intros x; apply Orderly_setSpeed | intros _].
  apply Orderly_Println.
Qed.

Lemma Orderly_usage : Orderly usage.
Proof.
  unfold usage. repeat (apply Orderly_bind; [apply Orderly_Println | intros _]).
  apply Orderly_Println.
Qed.

Lemma main_not_found (args : list string) (w : World) :
  lookPath E = false -> main E args w = (Exited 1, printed notFound w).
Proof. intros Hpath. unfold main. rewrite Hpath. reflexivity. Qed.

Lemma Orderly_main (args : list string) : lookPath E = true -> Orderly (main E args).
Proof.
  intros Hpath. unfold main. rewrite Hpath. cbn [negb].
  destruct args as [|prog [|cmd rest]]; try apply Orderly_usage.
  destruct (bool_decide (cmd = "status")); [apply Orderly_getStatus|].
  destruct (bool_decide (cmd = "get")).
  { destruct rest; [apply Orderly_Println | apply Orderly_getSpeed]. }
  destruct (bool_decide (cmd = "set")).
  { destruct rest as [|idStr [|speedStr rest]];
      [apply Orderly_Println | apply Orderly_Println | apply Orderly_setSpeed]. }
  destruct (bool_decide (cmd = "testrun")); [apply Orderly_testrun | apply Orderly_Printf].
Qed.

End ExitCodes.

(** C9.  The process ends with code 0 or 1.  It ends with 0 exactly when
    [main] returns, which includes every handled user error: a speed
    outside [0,100], an id that [get] rejects, missing arguments, an unknown
    command, no command.  It ends with 1 exactly when [ipmitool] is not on
    the search path at startup, or a tool invocation made by [getSpeed] or
    [setSpeed] failed. *)
Theorem exit_codes `{GoLib} (E : Env) (args : list string) (w : World) :
  (exists evs,
     trace (main E args w).2 = trace w ++ evs /\
     (exitCode (main E args w) = 0 \/ exitCode (main E args w) = 1) /\
     (exitCode (main E args w) = 0 <-> (main E args w).1 = Ret tt) /\
     (exitCode (main E args w) = 1 <->
      lookPath E = false \/ Exists (fun e => fatal e = true) evs)) /\
  (lookPath E = true ->
   (forall prog idStr speedStr rest,
      ~ integerIn 0 100 speedStr ->
      main E (prog :: "set" :: idStr :: speedStr :: rest) w = (Ret tt, printed speedError w)) /\
   (forall prog idStr rest,
      isAll idStr = true \/ ~ integerIn 1 6 idStr ->
      exists o, main E (prog :: "get" :: idStr :: rest) w = (Ret tt, printed (Text o) w)) /\
   (forall prog cmd rest,
      cmd <> "status" -> cmd <> "testrun" ->
      (cmd = "get" -> rest = []) ->
      (cmd = "set" -> (length rest < 2)%nat) ->
      exists o, main E (prog :: cmd :: rest) w = (Ret tt, printed (Text o) w)) /\
   ((length args < 2)%nat -> (main E args w).1 = Ret tt)).
Proof.
  split.
  - destruct (lookPath E) eqn:Hpath.
    + destruct (Orderly_main E args Hpath w) as (evs & Ht & Ho).
      exists evs. split; [exact Ht|]. unfold exitCode.
      destruct ((main E args w).1) as [[]|c].
      * split; [left; reflexivity|]. split; [split; reflexivity|].
        split; [discriminate|]. intros [Habs|Hex]; [discriminate|].
        exfalso. apply Exists_exists in Hex as (e & Hin & He).
        rewrite Forall_forall in Ho. rewrite (Ho e Hin) in He. discriminate.
      * destruct Ho as [-> Hex]. split; [right; reflexivity|].
        split; [split; discriminate|]. split; [intros _; right; exact Hex | reflexivity].
    + rewrite (main_not_found E args w Hpath). exists []. cbn [fst snd printed trace].
      split; [symmetry; apply app_nil_r|]. unfold exitCode. cbn [fst].
      split; [right; reflexivity|]. split; [split; discriminate|].
      split; [intros _; left; reflexivity | reflexivity].
  - intros Hpath. repeat split.
    + intros prog idStr speedStr rest Hbad. rewrite main_set by exact Hpath.
      apply setSpeed_invalid, not_integerIn, Hbad.
    + intros prog idStr rest Hrej. rewrite main_get by exact Hpath.
      destruct (isAll idStr) eqn:Hall.
      * eexists. apply getSpeed_broadcast, Hall.
      * destruct Hrej as [Habs|Hbad]; [discriminate|]. eexists.
        apply getSpeed_invalid; [exact Hall | apply not_integerIn, Hbad].
    + intros prog cmd rest Hns Hnt Hget Hset. unfold main. rewrite Hpath. cbn [negb].
      rewrite (bool_decide_eq_false_2 _ Hns).
      destruct (bool_decide_reflect (cmd = "get")) as [Hg|Hg].
      { rewrite (Hget Hg). eexists. reflexivity. }
      destruct (bool_decide_reflect (cmd = "set")) as [Hs|Hs].
      { specialize (Hset Hs). destruct rest as [|a [|b rest]]; cbn in Hset; try lia;
          eexists; reflexivity. }
      rewrite (bool_decide_eq_false_2 _ Hnt). eexists. reflexivity.
    + intros Hlen. unfold main. rewrite Hpath. cbn [negb].
      destruct args as [|prog [|cmd rest]]; cbn in Hlen; try lia; reflexivity.
Qed.

Lemma exit_codes_witness :
  let broken := bmc (Done EmptyString) (Done EmptyString) (Failed "exit status 1" EmptyString) in
  exitCode (main (H := referenceLib) broken ["fan"; "set"; "all"; "50"] world0) = 1 /\
  exitCode (main (H := referenceLib) broken ["fan"; "set"; "all"; "150"] world0) = 0 /\
  exitCode (main (H := referenceLib) broken ["fan"; "get"; "07"] world0) = 0.
Proof.
  cbv zeta.
  set (broken := bmc (Done EmptyString) (Done EmptyString) (Failed "exit status 1" EmptyString)).
  split; [|split].
  - destruct (exit_codes (H := referenceLib) broken ["fan"; "set"; "all"; "50"] world0)
      as [(evs & Ht & _ & _ & Hone) _].
    apply Hone. right. vm_compute in Ht. rewrite <- Ht. left. reflexivity.
  - destruct (exit_codes (H := referenceLib) broken ["fan"; "set"; "all"; "150"] world0)
      as [(evs & _ & _ & Hzero & _) _].
    apply Hzero. reflexivity.
  - destruct (exit_codes (H := referenceLib) broken ["fan"; "get"; "07"] world0)
      as [(evs & _ & _ & Hzero & _) _].
    apply Hzero. reflexivity.
Defined.

(** ** The [testrun] sequence *)

Lemma Quiet_emit (o : Output) : Quiet (emit o).
Proof. intros w. exists (printed o w). split; reflexivity. Qed.

Lemma Quiet_Println (s : string) : Quiet (Println s).
Proof. apply Quiet_emit. Qed.

Lemma Quiet_forEach_emit (outs : list Output) : Quiet (forEach outs emit).
Proof.
  induction outs as [|o outs IH]; intros w; cbn [forEach].
  - exists w. split; reflexivity.
  - rewrite (bind_Ret _ _ _ _ _ (emit_eq o w)).
    destruct (IH (printed o w)) as (w1 & Heq & Htr). exists w1. split; assumption.
Qed.

Lemma omap_id_fmap {A B} (f : A -> option B) (l : list A) : omap id (f <$> l) = omap f l.
Proof.
  induction l as [|x l IH]; [reflexivity|]. cbn [fmap list_fmap omap list_omap id].
  rewrite IH. reflexivity.
Qed.

Lemma omap_omap {A B C} (f : B -> option C) (g : A -> option B) (l : list A) :
  omap f (omap g l) = omap (fun x => g x ≫= f) l.
Proof.
  induction l as [|x l IH]; [reflexivity|]. cbn [omap list_omap].
  destruct (g x) as [y|]; cbn [omap list_omap mbind option_bind]; rewrite IH; reflexivity.
Qed.

Lemma slots_functional (k k' : nat) (id : string) :
  (k, id) ∈ slots -> (k', id) ∈ slots -> k = k'.
Proof.
  unfold slots. intros Hk Hk'.
  repeat (apply elem_of_cons in Hk as [Hk|Hk]);
    [injection Hk as -> ->.. | apply elem_of_nil in Hk; contradiction];
    (repeat (apply elem_of_cons in Hk' as [Hk'|Hk']);
     [congruence.. | apply elem_of_nil in Hk'; contradiction]).
Qed.

Lemma writeArgv_inj (id id' : string) (v v' : Z) :
  writeArgv id v = writeArgv id' v' -> id = id'.
Proof. unfold writeArgv. intros [= ->]. reflexivity. Qed.

Section Testrun.
Context `{GoLib} (E : Env).

Lemma saveStep_eq (pwms : gmap string string) (st : gmap string string * list Output)
    (entry : string * string) :
  (saveStep pwms st entry).1 = store st.1 (saveOf pwms entry).
Proof.
  destruct entry as [name id]. unfold saveStep, saveOf. cbn [fst snd].
  destruct (negb (bool_decide (mapGet pwms name = "N/A"))
            && negb (bool_decide (mapGet pwms name = EmptyString))); reflexivity.
Qed.

Lemma foldl_saveStep (pwms : gmap string string) (entries : list (string * string)) :
  forall st,
    (foldl (saveStep pwms) st entries).1 = foldl store st.1 (saveOf pwms <$> entries).
Proof.
  induction entries as [|entry entries IH]; intros st; [reflexivity|].
  cbn [foldl fmap list_fmap]. rewrite IH, saveStep_eq. reflexivity.
Qed.

Lemma map_to_list_foldl_store (entries : list (option (string * string))) :
  forall m : gmap string string,
    NoDup (omap id entries).*1 ->
    (forall k, k ∈ (omap id entries).*1 -> m !! k = None) ->
    map_to_list (foldl store m entries) ≡ₚ omap id entries ++ map_to_list m.
Proof.
  induction entries as [|[[k v]|] entries IH]; intros m Hnd Hfresh; cbn [foldl store omap list_omap].
  - reflexivity.
  - cbn [omap list_omap id fmap list_fmap fst] in Hnd, Hfresh.
    apply NoDup_cons in Hnd as [Hk Hnd].
    rewrite IH.
    + rewrite map_to_list_insert by (apply Hfresh; left).
      cbn [id]. symmetry. apply Permutation_middle.
    + exact Hnd.
    + intros k' Hk'. rewrite lookup_insert_ne by (intros ->; contradiction).
      apply Hfresh. right. exact Hk'.
  - apply IH; assumption.
Qed.

Lemma saveOf_keys (pwms : gmap string string) (entries : list (string * string)) (k : string) :
  k ∈ (omap (saveOf pwms) entries).*1 -> k ∈ entries.*2.
Proof.
  induction entries as [|entry entries IH]; cbn [omap list_omap fmap list_fmap].
  - intros Hin. exact Hin.
  - unfold saveOf at 1.
    destruct (negb (bool_decide (mapGet pwms entry.1 = "N/A"))
              && negb (bool_decide (mapGet pwms entry.1 = EmptyString))); cbn [fmap list_fmap fst].
    + intros [->|Hin]%elem_of_cons; [left | right; apply IH, Hin].
    + intros Hin. right. apply IH, Hin.
Qed.

Lemma saveOf_NoDup (pwms : gmap string string) (entries : list (string * string)) :
  NoDup entries.*2 -> NoDup (omap (saveOf pwms) entries).*1.
Proof.
  induction entries as [|entry entries IH]; cbn [omap list_omap fmap list_fmap].
  - intros _. constructor.
  - intros [Hk Hnd]%NoDup_cons. unfold saveOf at 1.
    destruct (negb (bool_decide (mapGet pwms entry.1 = "N/A"))
              && negb (bool_decide (mapGet pwms entry.1 = EmptyString))); cbn [fmap list_fmap fst].
    + apply NoDup_cons. split; [|apply IH, Hnd].
      intros Hin. apply Hk, (saveOf_keys pwms), Hin.
    + apply IH, Hnd.
Qed.

Lemma fanIDs_table : map_to_list fanIDs ≡ₚ fanTable.
Proof.
  change fanIDs with (list_to_map fanTable : gmap string string).
  apply map_to_list_to_map. apply (bool_decide_unpack _). vm_compute. exact I.
Qed.

(** Whatever order the two loops take, the entries the restoring loop visits
    are those the saving loop records for the six fans. *)
Lemma saved_entries (pwms : gmap string string) :
  (forall k entries, mapOrder E k entries ≡ₚ entries) ->
  mapOrder E 1 (map_to_list (saveSpeeds E pwms).1) ≡ₚ omap (saveOf pwms) fanTable.
Proof.
  intros Horder. rewrite Horder. unfold saveSpeeds.
  rewrite foldl_saveStep. cbn [fst].
  assert (Hl : mapOrder E 0 (map_to_list fanIDs) ≡ₚ fanTable)
    by (rewrite Horder; apply fanIDs_table).
  rewrite map_to_list_foldl_store.
  - rewrite map_to_list_empty, app_nil_r, omap_id_fmap. rewrite Hl. reflexivity.
  - rewrite omap_id_fmap. apply saveOf_NoDup. rewrite Hl.
    apply (bool_decide_unpack _). vm_compute. exact I.
  - intros k _. apply lookup_empty.
Qed.

Lemma pwmTable_lookup (r : ToolResult) (k : nat) (name : string) :
  (k, name) ∈ [(6%nat, "CPU Fan2"); (5%nat, "CPU Fan1"); (4%nat, "System Fan4");
               (3%nat, "System Fan3"); (2%nat, "System Fan2"); (1%nat, "System Fan1")] ->
  pwmTable r !! name = pwmText r k.
Proof.
  intros Hin. unfold pwmTable, pwmText.
  destruct r as [out|err out]; [|apply lookup_empty].
  destruct (7 <=? length (Fields out))%nat; [|apply lookup_empty].
  repeat (apply elem_of_cons in Hin as [[= -> ->]|Hin];
          [repeat (rewrite lookup_insert_ne by discriminate); apply lookup_insert_eq|]).
  apply elem_of_nil in Hin. contradiction.
Qed.

Lemma restore_of_saved (r : ToolResult) (k : nat) (name id : string) :
  pwmTable r !! name = pwmText r k -> formatID id = id ->
  saveOf (pwmTable r) (name, id) ≫= restoreOf = expectedRestore r (k, id).
Proof.
  intros Hlook Hid. unfold saveOf, mapGet, expectedRestore, reading. cbn [fst snd].
  rewrite Hlook. unfold pwmText.
  destruct r as [out|err out]; [|reflexivity].
  destruct (7 <=? length (Fields out))%nat; [|reflexivity].
  cbn [default from_option Datatypes.id].
  destruct (ParseInt (index (Fields out) k) 16) as [v|e] eqn:Hp.
  - rewrite (hexToPercent_Num _ _ Hp).
    rewrite (bool_decide_eq_false_2 _ (append_percent_not_NA _)).
    rewrite (bool_decide_eq_false_2 _ (append_percent_not_empty _)).
    cbn [negb andb mbind option_bind]. rewrite TrimSuffix_percent.
    unfold restoreOf. cbn [fst snd].
    rewrite (Atoi_fmt_d v (ParseInt_int64 _ _ Hp)), Hid. reflexivity.
  - rewrite (hexToPercent_Bad _ _ Hp). reflexivity.
Qed.

Lemma formatID_fan (id : string) :
  id ∈ ["06"; "05"; "04"; "03"; "02"; "01"] -> formatID id = id.
Proof.
  intros Hin. unfold formatID.
  repeat (apply elem_of_cons in Hin as [->|Hin];
          [rewrite isAll_ascii by reflexivity; reflexivity|]).
  apply elem_of_nil in Hin. contradiction.
Qed.

Lemma restores_of_saved (r : ToolResult) :
  omap restoreOf (omap (saveOf (pwmTable r)) fanTable) = expectedRestores r.
Proof.
  rewrite omap_omap. unfold fanTable, expectedRestores, slots. cbn [omap list_omap].
  rewrite (restore_of_saved r 6 "CPU Fan2" "06"),
          (restore_of_saved r 5 "CPU Fan1" "05"),
          (restore_of_saved r 4 "System Fan4" "04"),
          (restore_of_saved r 3 "System Fan3" "03"),
          (restore_of_saved r 2 "System Fan2" "02"),
          (restore_of_saved r 1 "System Fan1" "01");
    first [ reflexivity
          | apply pwmTable_lookup; set_solver
          | apply formatID_fan; set_solver ].
Qed.

Lemma restoreOf_None (entry : string * string) :
  ~ integerIn 0 100 entry.2 -> restoreOf entry = None.
Proof.
  intros Hbad. unfold restoreOf, inRange. destruct (Atoi entry.2) as [v|e] eqn:Hv; [|reflexivity].
  destruct (Z.leb_spec 0 v); destruct (Z.leb_spec v 100); cbn [andb]; try reflexivity.
  exfalso. apply Hbad. exists v. split; [exact Hv | lia].
Qed.

Lemma restoreOf_Some (entry : string * string) (v : Z) :
  Atoi entry.2 = Num v -> 0 <= v <= 100 ->
  restoreOf entry = Some (writeArgv (formatID entry.1) v).
Proof.
  intros Hv Hr. unfold restoreOf, inRange. rewrite Hv.
  replace (0 <=? v) with true by (symmetry; apply Z.leb_le; lia).
  replace (v <=? 100) with true by (symmetry; apply Z.leb_le; lia).
  reflexivity.
Qed.

(** The restoring loop, when it runs to its end: one successful write per
    entry that [setSpeed] accepts, in the order of the entries. *)
Lemma restore_loop (entries : list (string * string)) :
  forall w w',
    forEach entries (fun entry => setSpeed E entry.1 entry.2) w = (Ret tt, w') ->
    exists evs,
      trace w' = trace w ++ evs /\
      argv <$> evs = omap restoreOf entries /\
      Forall succeeded evs.
Proof.
  induction entries as [|entry entries IH]; intros w w' Hrun; cbn [forEach] in Hrun.
  - injection Hrun as <-. exists []. split; [symmetry; apply app_nil_r|]. split; constructor.
  - apply bind_Ret_inv in Hrun as ([] & w1 & Hset & Hrest).
    destruct (IH w1 w' Hrest) as (evs & Htr & Hargs & Hok).
    destruct (setSpeed_cases E entry.1 entry.2 w)
      as [[Heq Hbad]|(v & Hv & Hr & [(out & Ht & Heq)|(err & out & Ht & Heq)])];
      rewrite Heq in Hset; [| |discriminate]; injection Hset as <-.
    + exists evs. split; [exact Htr|]. split; [|exact Hok].
      cbn [omap list_omap]. rewrite (restoreOf_None entry Hbad). exact Hargs.
    + eexists (_ :: evs). split; [|split].
      * rewrite Htr. cbn [printed logged trace]. rewrite <- app_assoc. reflexivity.
      * cbn [omap list_omap fmap list_fmap argv]. rewrite (restoreOf_Some entry v Hv Hr), Hargs.
        reflexivity.
      * constructor; [|exact Hok]. split; [reflexivity | exists out; reflexivity].
Qed.

End Testrun.

(** C2, as the code has it.  Let [testrun] run to its end, that is, let no
    tool failure inside [set] or [get] end the process.  After the raw read
    that saves the speeds, the broadcast [set all 40], the [get 01] read and
    the two invocations of [status], the remaining invocations are the
    restore calls: whatever order the maps are visited in, they are one
    successful write per fan whose saved reading is a percentage in [0,100],
    carrying that fan's id and exactly that percentage.  No restore call is
    issued for a fan whose reading was ["N/A"] or absent, nor for one whose
    reading lies outside [0,100], which the range check of [set] turns
    down. *)
Theorem testrun_restores `{GoLib} (E : Env) (w w' : World) :
  (forall k entries, mapOrder E k entries ≡ₚ entries) ->
  testrun E w = (Ret tt, w') ->
  let first := tool E (history w) readArgv in
  exists before restores,
    trace w' = trace w ++ before ++ restores /\
    argv <$> before = [readArgv; writeArgv "00" 40; readArgv; readArgv; sensorArgv] /\
    argv <$> restores ≡ₚ expectedRestores first /\
    Forall succeeded restores /\
    (forall k id v,
       (k, id) ∈ slots -> reading first k = Some v -> 0 <= v <= 100 ->
       writeArgv id v ∈ argv <$> restores) /\
    (forall k id,
       (k, id) ∈ slots ->
       reading first k = None \/ (exists v, reading first k = Some v /\ ~ 0 <= v <= 100) ->
       forall v', writeArgv id v' ∉ argv <$> restores).
Proof.
  intros Horder Hrun first. unfold testrun in Hrun.
  destruct (Quiet_Println "--- STARTING AUTOMATED TEST SEQUENCE ---" w) as (wa & Ha & Hta).
  rewrite (bind_Ret _ _ _ _ _ Ha) in Hrun.
  destruct (Quiet_Println "[STEP 0] Saving current fan speeds..." wa) as (wb & Hb & Htb).
  rewrite (bind_Ret _ _ _ _ _ Hb) in Hrun.
  rewrite (bind_Ret _ _ _ _ _ (getPWMs_eq E wb)) in Hrun.
  assert (Hhist : history wb = history w) by (unfold history; rewrite Htb, Hta; reflexivity).
  rewrite Hhist in Hrun. fold first in Hrun.
  set (w1 := logged AtGetPWMs readArgv first wb) in Hrun.
  pose proof (saved_entries E (pwmTable first) Horder) as Hsaved.
  destruct (saveSpeeds E (pwmTable first)) as [saved backedUp]. cbn [fst] in Hsaved.
  destruct (Quiet_forEach_emit backedUp w1) as (wc & Hc & Htc).
  rewrite (bind_Ret _ _ _ _ _ Hc) in Hrun.
  destruct (Quiet_Println (newline +:+ "[STEP 1] Testing 'set all' command (setting to 40%)...") wc)
    as (wd & Hd & Htd).
  rewrite (bind_Ret _ _ _ _ _ Hd) in Hrun.
  apply bind_Ret_inv in Hrun as ([] & w2 & Hset & Hrun).
  rewrite (setSpeed_valid E "all" "40" 40 wd eq_refl ltac:(lia)) in Hset.
  cbv zeta in Hset. rewrite (formatID_broadcast "all" (or_introl eq_refl)) in Hset.
  destruct (tool E (history wd) (writeArgv "00" 40)) as [out2|err2 out2] eqn:Ht2;
    [|discriminate]. injection Hset as <-.
  destruct (Quiet_Println (newline +:+ "[STEP 2] Testing 'get' command for Fan 01...") 
              (printed (setConfirmation "all" 40)
                 (logged AtSetSpeed (writeArgv "00" 40) (Done out2) wd)))
    as (we & He & Hte).
  rewrite (bind_Ret _ _ _ _ _ He) in Hrun.
  apply bind_Ret_inv in Hrun as ([] & w3 & Hget & Hrun).
  rewrite (getSpeed_valid E "01" 1 we ltac:(rewrite isAll_ascii; reflexivity)
             eq_refl ltac:(lia)) in Hget.
  destruct (tool E (history we) readArgv) as [out3|err3 out3] eqn:Ht3; [|discriminate].
  injection Hget as <-.
  destruct (Quiet_Println (newline +:+ "[STEP 3] Displaying full status dashboard...")
              (printed (getAnswer 1 out3) (logged AtGetSpeed readArgv (Done out3) we)))
    as (wf & Hf & Htf).
  rewrite (bind_Ret _ _ _ _ _ Hf) in Hrun.
  rewrite (bind_Ret _ _ _ _ _ (getStatus_eq E false wf)) in Hrun.
  set (r4 := tool E (history wf) readArgv) in Hrun.
  set (r5 := tool E (history (logged AtGetPWMs readArgv r4 wf)) sensorArgv) in Hrun.
  match type of Hrun with
  | (_ ≫= _) ?world = _ => set (wg := world) in Hrun
  end.
  assert (Htg : trace wg = trace wf
                          ++ [ {| site := AtGetPWMs; argv := readArgv; result := r4 |};
                               {| site := AtGetStatus; argv := sensorArgv; result := r5 |} ]).
  { unfold wg. destruct r5; cbn [printed logged trace]; rewrite <- app_assoc; reflexivity. }
  clearbody wg.
  destruct (Quiet_Println (newline +:+ "[STEP 4] Restoring original fan speeds...") wg)
    as (wh & Hh & Hth).
  rewrite (bind_Ret _ _ _ _ _ Hh) in Hrun.
  apply bind_Ret_inv in Hrun as ([] & w4 & Hloop & Hlast).
  destruct (restore_loop E _ _ _ Hloop) as (restores & Htr & Hargs & Hok).
  rewrite Println_eq in Hlast. injection Hlast as <-.
  assert (Hperm : argv <$> restores ≡ₚ expectedRestores first).
  { rewrite Hargs, Hsaved, restores_of_saved. reflexivity. }
  exists [ {| site := AtGetPWMs; argv := readArgv; result := first |};
           {| site := AtSetSpeed; argv := writeArgv "00" 40; result := Done out2 |};
           {| site := AtGetSpeed; argv := readArgv; result := Done out3 |};
           {| site := AtGetPWMs; argv := readArgv; result := r4 |};
           {| site := AtGetStatus; argv := sensorArgv; result := r5 |} ], restores.
  split; [|split; [|split; [exact Hperm|split; [exact Hok|split]]]].
  - cbn [printed trace]. rewrite Htr, Hth, Htg, Htf. cbn [printed logged trace].
    rewrite Hte. cbn [printed logged trace]. rewrite Htd, Htc. unfold w1.
    cbn [logged trace]. rewrite Htb, Hta. rewrite <- !app_assoc. reflexivity.
  - reflexivity.
  - intros k id v Hslot Hread Hrange. rewrite Hperm. unfold expectedRestores.
    apply list_elem_of_omap. exists (k, id). split; [exact Hslot|].
    unfold expectedRestore, inRange. cbn [fst snd]. rewrite Hread.
    replace (0 <=? v) with true by (symmetry; apply Z.leb_le; lia).
    replace (v <=? 100) with true by (symmetry; apply Z.leb_le; lia).
    reflexivity.
  - intros k id Hslot Hread v' Hin. rewrite Hperm in Hin. unfold expectedRestores in Hin.
    apply list_elem_of_omap in Hin as ([k' id'] & Hslot' & Hexp).
    unfold expectedRestore, inRange in Hexp. cbn [fst snd] in Hexp.
    destruct (reading first k') as [v''|] eqn:Hread'; [|discriminate].
    destruct (Z.leb_spec 0 v''); destruct (Z.leb_spec v'' 100); cbn [andb] in Hexp;
      try discriminate.
    apply (inj Some) in Hexp. apply writeArgv_inj in Hexp as ->.
    rewrite (slots_functional k k' id Hslot Hslot') in Hread.
    rewrite Hread' in Hread. destruct Hread as [Hnone|(v & [= ->] & Hout)];
      [discriminate | lia].
Qed.

Lemma testrun_restores_witness :
  (forall k entries, mapOrder quietBmc k entries ≡ₚ entries) /\
  testrun (H := referenceLib) quietBmc world0
  = (Ret tt, (testrun (H := referenceLib) quietBmc world0).2) /\
  reading (H := referenceLib) (tool quietBmc (history world0) readArgv) 1 = Some 50 /\
  writeArgv "01" 50 ∈ argv <$> trace (testrun (H := referenceLib) quietBmc world0).2.
Proof.
  assert (Horder : forall k entries, mapOrder quietBmc k entries ≡ₚ entries)
    by (intros k entries; reflexivity).
  assert (Hrun : testrun (H := referenceLib) quietBmc world0
                 = (Ret tt, (testrun (H := referenceLib) quietBmc world0).2))
    by (vm_compute; reflexivity).
  split; [exact Horder|]. split; [exact Hrun|]. split; [reflexivity|].
  destruct (testrun_restores (H := referenceLib) quietBmc world0 _ Horder Hrun)
    as (before & restores & Htr & _ & _ & _ & Hdone & _).
  rewrite Htr, !fmap_app. apply elem_of_app. right. apply elem_of_app. right.
  apply (Hdone 1%nat "01" 50).
  - unfold slots. do 5 right. left.
  - reflexivity.
  - lia.
Defined.

(** The run completes, the first fan had the valid reading 255%, and no
    write call for it is ever made, with that percentage or any other. *)
Lemma testrun_skips_reading_above_100 :
  (testrun (H := referenceLib) hotBmc world0).1 = Ret tt /\
  mapGet (pwmTable (H := referenceLib) (tool hotBmc (history world0) readArgv))
         "System Fan1" = "255%" /\
  (forall v, writeArgv "01" v
             ∉ argv <$> trace (testrun (H := referenceLib) hotBmc world0).2) /\
  ~ restoresEveryValidReading (H := referenceLib) hotBmc world0.
Proof.
  assert (Hnone : forall v, writeArgv "01" v
                    ∉ argv <$> trace (testrun (H := referenceLib) hotBmc world0).2).
  { intros v Hin.
    assert (Htrace : argv <$> trace (testrun (H := referenceLib) hotBmc world0).2
                     = [ readArgv; writeArgv "00" 40; readArgv; readArgv; sensorArgv;
                         writeArgv "03" 80; writeArgv "05" 100; writeArgv "06" 10;
                         writeArgv "02" 70; writeArgv "04" 60 ])
      by (vm_compute; reflexivity).
    rewrite Htrace in Hin. unfold writeArgv, readArgv, sensorArgv in Hin.
    repeat (apply elem_of_cons in Hin as [Hin|Hin]; [discriminate Hin|]).
    apply elem_of_nil in Hin. exact Hin. }
  split; [vm_compute; reflexivity|]. split; [vm_compute; reflexivity|].
  split; [exact Hnone|].
  intros Hclaim.
  assert (Hslot : (1%nat, "01") ∈ slots) by (unfold slots; do 5 right; left).
  exact (Hnone 255 (Hclaim 1%nat "01" 255 Hslot eq_refl)).
Qed.

(** * Further properties of the code *)

(** ** Speeds written and read back *)

Lemma ParseInt_fmtUint (base v : Z) :
  2 <= base <= 16 -> 0 <= v < 2 ^ 63 -> ParseInt (fmtUint base v) base = Num v.
Proof.
  intros Hb Hv.
  destruct (fmtUint_head base v Hb ltac:(lia)) as (d & s & Hd & Hs).
  pose proof (ParseUint_fmtUint base v Hb ltac:(unfold maxUint64; lia)) as Hp.
  rewrite Hs in *. destruct (digitChar_not_sign d ltac:(lia)) as [Hplus Hminus].
  cbn [ParseInt]. rewrite Hplus, Hminus. cbn [orb negb andb]. rewrite Hp.
  replace (2 ^ 63 <=? v) with false by (symmetry; apply Z.leb_gt; lia).
  reflexivity.
Qed.

(** X1.  The hexadecimal digits [setSpeed] writes after ["0x"] for a speed
    are read back by [hexToPercent] as that same percentage; the argument as
    sent, with its ["0x"] prefix, is not a token [hexToPercent] accepts. *)
Theorem speed_byte_round_trip (v : Z) :
  0 <= v < 2 ^ 63 ->
  hexToPercent (fmt_x v) = fmt_d v +:+ "%" /\
  hexToPercent ("0x" +:+ fmt_x v) = "N/A".
Proof.
  intros Hv. unfold fmt_x.
  replace (v <? 0) with false by (symmetry; apply Z.ltb_ge; lia).
  split.
  - apply hexToPercent_Num, ParseInt_fmtUint; lia.
  - reflexivity.
Qed.

Lemma speed_byte_round_trip_witness :
  0 <= 100 < 2 ^ 63 /\ hexToPercent (fmt_x 100) = "100%".
Proof.
  split; [lia|]. apply (speed_byte_round_trip 100). lia.
Defined.

(** ** The PWM lookup and the fan report *)

Lemma pwmTable_value `{GoLib} (r : ToolResult) (name p : string) :
  pwmTable r !! name = Some p ->
  p = "N/A" \/ exists v, - 2 ^ 63 <= v < 2 ^ 63 /\ p = fmt_d v +:+ "%".
Proof.
  intros Hl. unfold pwmTable in Hl.
  destruct r as [out|err out]; [|rewrite lookup_empty in Hl; discriminate].
  destruct (7 <=? length (Fields out))%nat; [|rewrite lookup_empty in Hl; discriminate].
  assert (Hshape : forall tok, hexToPercent tok = "N/A"
            \/ exists v, - 2 ^ 63 <= v < 2 ^ 63 /\ hexToPercent tok = fmt_d v +:+ "%").
  { intros tok. destruct (ParseInt tok 16) as [v|e] eqn:Hp.
    - right. exists v. split; [exact (ParseInt_int64 _ _ Hp) | exact (hexToPercent_Num _ _ Hp)].
    - left. exact (hexToPercent_Bad _ _ Hp). }
  repeat (apply lookup_insert_Some in Hl as [[_ <-]|[_ Hl]]; [apply Hshape|]).
  rewrite lookup_empty in Hl. discriminate.
Qed.

(** X2.  The PWM lookup [getPWMs] returns is all or nothing: it holds the
    six fan names, each with a text, when the raw read answers at least seven
    tokens, and it is empty otherwise.  It never holds any other name, and
    the read is the one invocation made. *)
Theorem pwm_lookup_all_or_nothing `{GoLib} (E : Env) (w : World) :
  exists pwms,
    getPWMs E w = (Ret pwms, logged AtGetPWMs readArgv (tool E (history w) readArgv) w) /\
    ((exists out, tool E (history w) readArgv = Done out
                  /\ (7 <= length (Fields out))%nat) ->
     dom pwms = sixFans) /\
    (~ (exists out, tool E (history w) readArgv = Done out
                    /\ (7 <= length (Fields out))%nat) ->
     pwms = ∅) /\
    (dom pwms = ∅ \/ dom pwms = sixFans).
Proof.
  exists (pwmTable (tool E (history w) readArgv)).
  split; [apply getPWMs_eq|].
  assert (Hfull : forall out, (7 <= length (Fields out))%nat ->
                    dom (pwmTable (Done out)) = sixFans).
  { intros out Hlen. unfold pwmTable.
    destruct (Nat.leb_spec 7 (length (Fields out))); [|lia].
    rewrite !dom_insert_L, dom_empty_L. unfold sixFans, fanNames.
    cbn [list_to_set foldr]. set_solver. }
  assert (Hnone : ~ (exists out, tool E (history w) readArgv = Done out
                                 /\ (7 <= length (Fields out))%nat) ->
                  pwmTable (tool E (history w) readArgv) = ∅).
  { intros Hnot. destruct (tool E (history w) readArgv) as [out|err out]; [|reflexivity].
    unfold pwmTable. destruct (Nat.leb_spec 7 (length (Fields out))); [|reflexivity].
    exfalso. apply Hnot. exists out. split; [reflexivity | assumption]. }
  split; [|split; [exact Hnone|]].
  - intros (out & -> & Hlen). apply Hfull, Hlen.
  - destruct (tool E (history w) readArgv) as [out|err out] eqn:Ht.
    + destruct (Nat.leb_spec 7 (length (Fields out))) as [Hlen|Hlen].
      * right. apply Hfull, Hlen.
      * left. rewrite Hnone; [apply dom_empty_L|].
        intros (out' & [= <-] & Hlen'). lia.
    + left. rewrite Hnone; [apply dom_empty_L|]. intros (out' & Habs & _). discriminate.
Qed.

Lemma foldl_store_values (P : string -> Prop) (entries : list (option (string * string))) :
  forall m : gmap string string,
    (forall k v, m !! k = Some v -> P v) ->
    (forall k v, Some (k, v) ∈ entries -> P v) ->
    forall k v, foldl store m entries !! k = Some v -> P v.
Proof.
  induction entries as [|entry entries IH]; intros m Hm Hentries; [exact Hm|].
  cbn [foldl]. apply IH.
  - destruct entry as [[k v]|]; cbn [store]; [|exact Hm].
    intros k' v' Hl. apply lookup_insert_Some in Hl as [[_ <-]|[_ Hl]].
    + apply (Hentries k v). left.
    + exact (Hm k' v' Hl).
  - intros k v Hin. apply (Hentries k v). right. exact Hin.
Qed.

Lemma rpm_value `{GoLib} (out name x : string) :
  (parseSensors out).1 !! name = Some x -> exists val, x = val +:+ " RPM".
Proof.
  rewrite parseSensors_eq. cbn [fst].
  apply (foldl_store_values (fun x => exists val, x = val +:+ " RPM")).
  - intros k v Hl. rewrite lookup_empty in Hl. discriminate.
  - intros k v Hin. apply list_elem_of_fmap in Hin as (l & Heq & _).
    unfold rpmReading in Heq.
    destruct (wellFormedRow l && fanCandidate l && negb (bool_decide (rowValue l = "na")));
      [|discriminate].
    injection Heq as _ ->. exists (rowValue l). reflexivity.
Qed.

(** X3.  Every fan of a report carries one of the six names; its PWM is
    ["N/A"] or the decimal rendering of a 64-bit integer followed by a
    percent sign, and its RPM is ["N/A"] or a sensor value followed by
    [" RPM"]. *)
Theorem fan_report_format `{GoLib} (r : ToolResult) (out : string) (fan : FanStatus) :
  fan ∈ buildFans (pwmTable r) (parseSensors out).1 ->
  Name fan ∈ fanNames /\
  (PWM fan = "N/A" \/ exists v, - 2 ^ 63 <= v < 2 ^ 63 /\ PWM fan = fmt_d v +:+ "%") /\
  (RPM fan = "N/A" \/ exists val, RPM fan = val +:+ " RPM").
Proof.
  rewrite buildFans_eq by (apply pwmTable_noEmpty || apply parseSensors_noEmpty).
  intros Hin. apply list_elem_of_fmap in Hin as (name & -> & Hname).
  unfold fanRow. cbn [Name PWM RPM]. split; [exact Hname|]. split.
  - destruct (pwmTable r !! name) as [p|] eqn:Hp; cbn; [|left; reflexivity].
    exact (pwmTable_value r name p Hp).
  - destruct ((parseSensors out).1 !! name) as [x|] eqn:Hx; cbn; [|left; reflexivity].
    right. exact (rpm_value out name x Hx).
Qed.

Lemma fan_report_format_witness :
  let fan := {| Name := "System Fan3"; RPM := "N/A"; PWM := "255%" |} in
  fan ∈ buildFans (pwmTable (H := referenceLib) (Done " 00 32 46 ff zz 64 0a"))
                  (parseSensors (H := referenceLib) sampleSensors).1 /\
  (PWM fan = "N/A" \/ exists v, - 2 ^ 63 <= v < 2 ^ 63 /\ PWM fan = fmt_d v +:+ "%").
Proof.
  cbv zeta.
  assert (Hin : {| Name := "System Fan3"; RPM := "N/A"; PWM := "255%" |}
                ∈ buildFans
                    (pwmTable (H := referenceLib) (Done " 00 32 46 ff zz 64 0a"))
                    (parseSensors (H := referenceLib) sampleSensors).1).
  { vm_compute. do 2 right. left. }
  split; [exact Hin|].
  apply (fan_report_format (H := referenceLib) _ _ _ Hin).
Defined.

(** ** [get] against the raw answer *)

(** X4.  When the raw read answers at least seven tokens, [get k] prints
    for fan [k] exactly the PWM text that [status] shows for the [k]-th fan
    name: both decode token [k] of the answer. *)
Theorem get_agrees_with_status `{GoLib} (E : Env) (idStr : string) (k : nat)
    (name out : string) (w : World) :
  (k, name) ∈ positions ->
  isAll idStr = false -> Atoi idStr = Num (Z.of_nat k) ->
  tool E (history w) readArgv = Done out ->
  (7 <= length (Fields out))%nat ->
  exists pwm,
    pwmTable (Done out) !! name = Some pwm /\
    getSpeed E idStr w
    = (Ret tt, printed (pwmLine (Z.of_nat k) pwm) (logged AtGetSpeed readArgv (Done out) w)).
Proof.
  intros Hpos Hall Hid Htool Hlen.
  assert (Hk : (1 <= k <= 6)%nat).
  { unfold positions in Hpos.
    repeat (apply elem_of_cons in Hpos as [[= -> _]|Hpos]; [lia|]).
    apply elem_of_nil in Hpos. contradiction. }
  exists (hexToPercent (index (Fields out) k)). split.
  - rewrite (pwmTable_lookup (Done out) k name Hpos). unfold pwmText.
    destruct (Nat.leb_spec 7 (length (Fields out))); [reflexivity | lia].
  - rewrite (getSpeed_valid E idStr (Z.of_nat k) w Hall Hid ltac:(lia)), Htool.
    unfold getAnswer, pwmLine. cbv zeta.
    replace (Z.of_nat k <? Z.of_nat (length (Fields out))) with true
      by (symmetry; apply Z.ltb_lt; lia).
    rewrite Nat2Z.id. reflexivity.
Qed.

Lemma get_agrees_with_status_witness :
  (2%nat, "System Fan2") ∈ positions /\
  getSpeed (H := referenceLib) sampleBmc "02" world0
  = (Ret tt, printed (pwmLine 2 "70%")
               (logged AtGetSpeed readArgv (Done " 00 32 46 ff zz 64 0a") world0)).
Proof.
  assert (Hpos : (2%nat, "System Fan2") ∈ positions) by (unfold positions; do 4 right; left).
  split; [exact Hpos|].
  destruct (get_agrees_with_status (H := referenceLib) sampleBmc "02" 2 "System Fan2"
              " 00 32 46 ff zz 64 0a" world0 Hpos eq_refl eq_refl eq_refl)
    as (pwm & Hlook & Heq).
  - vm_compute. lia.
  - rewrite Heq. vm_compute in Hlook. injection Hlook as <-. reflexivity.
Defined.

(** X5.  When the raw read succeeds but answers no more than [id] tokens,
    [get] prints the format error and returns normally, so the process ends
    with code 0.  With more than [id] and fewer than seven tokens [get] still
    prints a percentage, although the PWM lookup of [status] is empty for
    that same answer. *)
Theorem get_on_short_answer `{GoLib} (E : Env) (idStr out : string) (id : Z) (w : World) :
  isAll idStr = false -> Atoi idStr = Num id -> 1 <= id <= 6 ->
  tool E (history w) readArgv = Done out ->
  ((Z.of_nat (length (Fields out)) <= id ->
    getSpeed E idStr w = (Ret tt, printed formatError (logged AtGetSpeed readArgv (Done out) w)))
   /\
   (id < Z.of_nat (length (Fields out)) < 7 ->
    getSpeed E idStr w
    = (Ret tt, printed (pwmLine id (hexToPercent (index (Fields out) (Z.to_nat id))))
                 (logged AtGetSpeed readArgv (Done out) w))
    /\ pwmTable (Done out) = ∅)).
Proof.
  intros Hall Hid Hrange Htool.
  rewrite (getSpeed_valid E idStr id w Hall Hid Hrange), Htool.
  unfold getAnswer, formatError, pwmLine. cbv zeta. split.
  - intros Hshort.
    replace (id <? Z.of_nat (length (Fields out))) with false
      by (symmetry; apply Z.ltb_ge; lia).
    reflexivity.
  - intros Hmid.
    replace (id <? Z.of_nat (length (Fields out))) with true
      by (symmetry; apply Z.ltb_lt; lia).
    split; [reflexivity|]. unfold pwmTable.
    destruct (Nat.leb_spec 7 (length (Fields out))); [lia | reflexivity].
Qed.

Lemma get_on_short_answer_witness :
  let E := bmc (Done " 00 32") (Done EmptyString) (Done EmptyString) in
  getSpeed (H := referenceLib) E "05" world0
  = (Ret tt, printed formatError (logged AtGetSpeed readArgv (Done " 00 32") world0))
  /\ getSpeed (H := referenceLib) E "01" world0
     = (Ret tt, printed (pwmLine 1 "50%") (logged AtGetSpeed readArgv (Done " 00 32") world0)).
Proof.
  cbv zeta. split.
  - apply (get_on_short_answer (H := referenceLib) (bmc (Done " 00 32") (Done EmptyString) (Done EmptyString))
             "05" " 00 32" 5 world0 eq_refl eq_refl ltac:(lia) eq_refl).
    vm_compute. discriminate.
  - apply (get_on_short_answer (H := referenceLib) (bmc (Done " 00 32") (Done EmptyString) (Done EmptyString))
             "01" " 00 32" 1 world0 eq_refl eq_refl ltac:(lia) eq_refl).
    vm_compute. split; reflexivity.
Defined.

(** ** Tool failures in [get] and [set] *)

(** X6.  When the invocation of an accepted [get] or [set] fails, the
    process prints one line, ["IPMI Error: "] followed by the error, a colon
    and the combined output of the tool, makes no further invocation, and
    ends with code 1. *)
Theorem tool_failure_is_reported `{GoLib} (E : Env) (prog : string) (rest : list string)
    (w : World) (err out : string) :
  lookPath E = true ->
  (forall idStr speedStr v,
     Atoi speedStr = Num v -> 0 <= v <= 100 ->
     tool E (history w) (writeArgv (formatID idStr) v) = Failed err out ->
     let r := main E (prog :: "set" :: idStr :: speedStr :: rest) w in
     exitCode r = 1 /\
     stdout r.2 = stdout w ++ [Text ("IPMI Error: " +:+ err +:+ ": " +:+ out +:+ newline)] /\
     argv <$> trace r.2 = history w ++ [writeArgv (formatID idStr) v]) /\
  (forall idStr id,
     isAll idStr = false -> Atoi idStr = Num id -> 1 <= id <= 6 ->
     tool E (history w) readArgv = Failed err out ->
     let r := main E (prog :: "get" :: idStr :: rest) w in
     exitCode r = 1 /\
     stdout r.2 = stdout w ++ [Text ("IPMI Error: " +:+ err +:+ ": " +:+ out +:+ newline)] /\
     argv <$> trace r.2 = history w ++ [readArgv]).
Proof.
  intros Hpath. split.
  - intros idStr speedStr v Hv Hrange Hfail. cbv zeta.
    rewrite main_set by exact Hpath.
    rewrite (setSpeed_valid E idStr speedStr v w Hv Hrange), Hfail.
    unfold exitCode, ipmiError. cbn [fst snd printed logged trace stdout].
    split; [reflexivity|]. split.
    + rewrite !append_assoc. reflexivity.
    + unfold history. rewrite fmap_app. reflexivity.
  - intros idStr id Hall Hid Hrange Hfail. cbv zeta.
    rewrite main_get by exact Hpath.
    rewrite (getSpeed_valid E idStr id w Hall Hid Hrange), Hfail.
    unfold exitCode, ipmiError. cbn [fst snd printed logged trace stdout].
    split; [reflexivity|]. split.
    + rewrite !append_assoc. reflexivity.
    + unfold history. rewrite fmap_app. reflexivity.
Qed.

Lemma tool_failure_is_reported_witness :
  let E := bmc (Failed "exit status 1" "Unable to send RAW command") (Done EmptyString) (Done EmptyString) in
  lookPath E = true /\
  stdout (main (H := referenceLib) E ["fan"; "get"; "3"] world0).2
  = [Text ("IPMI Error: exit status 1: Unable to send RAW command" +:+ newline)] /\
  exitCode (main (H := referenceLib) E ["fan"; "get"; "3"] world0) = 1.
Proof.
  cbv zeta. split; [reflexivity|].
  destruct (tool_failure_is_reported (H := referenceLib)
              (bmc (Failed "exit status 1" "Unable to send RAW command") (Done EmptyString) (Done EmptyString))
              "fan" [] world0 "exit status 1" "Unable to send RAW command" eq_refl)
    as [_ Hget].
  destruct (Hget "3" 3 eq_refl eq_refl ltac:(lia) eq_refl) as (Hcode & Hout & _).
  split; [exact Hout | exact Hcode].
Defined.

(** ** The sensor listing, line by line *)

Lemma Split_nonempty (s : string) (sep : ascii) : Split s sep <> [].
Proof.
  destruct s as [|c s]; cbn [Split]; [discriminate|].
  destruct (Ascii.eqb c sep); [discriminate|].
  destruct (Split s sep); discriminate.
Qed.

Lemma Split_append (sep : ascii) (b : string) : forall a,
  Split (a +:+ String sep b) sep = Split a sep ++ Split b sep.
Proof.
  induction a as [|c a IH]; cbn [String.append Split].
  - rewrite Ascii.eqb_refl. reflexivity.
  - destruct (Ascii.eqb c sep); [rewrite IH; reflexivity|].
    rewrite IH. pose proof (Split_nonempty a sep) as Hne.
    destruct (Split a sep) as [|piece pieces]; [contradiction | reflexivity].
Qed.

Lemma foldl_store_union (entries : list (option (string * string))) :
  forall m : gmap string string, foldl store m entries = foldl store ∅ entries ∪ m.
Proof.
  induction entries as [|entry entries IH]; intros m; cbn [foldl].
  - symmetry. apply (left_id_L ∅ (∪)).
  - rewrite IH, (IH (store ∅ entry)). destruct entry as [[k v]|]; cbn [store].
    + rewrite <- (assoc_L (∪)). f_equal.
      rewrite insert_empty. apply insert_union_singleton_l.
    + rewrite (right_id_L ∅ (∪)). reflexivity.
Qed.

Section SensorLines.
Context `{GoLib}.

Lemma parseSensors_append (a b : string) :
  parseSensors (a +:+ String "010" b)
  = ((parseSensors b).1 ∪ (parseSensors a).1, (parseSensors a).2 ++ (parseSensors b).2).
Proof.
  unfold parseSensors at 1. rewrite Split_append, foldl_app.
  fold (parseSensors a). rewrite foldl_sensorStep, foldl_store_union.
  rewrite (parseSensors_eq b). reflexivity.
Qed.

Lemma TrimSpace_allSpace (s : string) : allSpace s = true -> TrimSpace s = EmptyString.
Proof.
  intros Hs.
  assert (Hascii : isASCII s = true).
  { induction s as [|c s IH]; [reflexivity|]. cbn [allSpace] in Hs.
    apply andb_true_iff in Hs as [Hc Hs]. cbn [isASCII]. rewrite (IH Hs), andb_true_r.
    unfold asciiSpace in Hc. unfold isASCIIByte. apply Z.ltb_lt.
    apply orb_true_iff in Hc as [Hc|Hc].
    - apply andb_true_iff in Hc as [_ Hc]. apply Z.leb_le in Hc. lia.
    - apply Z.eqb_eq in Hc. lia. }
  rewrite TrimSpace_ascii by exact Hascii. unfold asciiTrimSpace.
  assert (Hleft : trimLeft s = EmptyString).
  { induction s as [|c s IH]; [reflexivity|]. cbn [allSpace isASCII] in Hs, Hascii.
    apply andb_true_iff in Hs as [Hc Hs]. apply andb_true_iff in Hascii as [_ Hascii].
    cbn [trimLeft]. rewrite Hc. exact (IH Hs Hascii). }
  rewrite Hleft. reflexivity.
Qed.

Lemma sensorStep_blank (st : gmap string string * list ThermalStatus) (line : string) :
  allSpace line = true -> sensorStep st line = st.
Proof.
  intros Hs. unfold sensorStep. rewrite (TrimSpace_allSpace line Hs). reflexivity.
Qed.

Lemma parseSensors_empty : parseSensors EmptyString = (∅, []).
Proof. unfold parseSensors. cbn [Split foldl]. apply sensorStep_blank. reflexivity. Qed.

(** X7.  One line of the listing changes at most one of the two results: a
    line with FAN and without POWER never adds a thermal reading, even when
    it mentions TEMP or AIRFLOW, and any other line never touches the RPM
    mapping. *)
Theorem sensor_step_exclusive (st : gmap string string * list ThermalStatus) (line : string) :
  (hasWord line "FAN" = true -> hasWord line "POWER" = false ->
   (sensorStep st line).2 = st.2) /\
  (hasWord line "FAN" = false \/ hasWord line "POWER" = true ->
   (sensorStep st line).1 = st.1) /\
  ((sensorStep st line).1 = st.1 \/ (sensorStep st line).2 = st.2).
Proof.
  rewrite sensorStep_eq. cbn [fst snd].
  assert (Hfan : fanCandidate line = true -> thermalReading line = None).
  { intros Hf. unfold thermalReading, isThermalRow, thermalCandidate. rewrite Hf.
    cbn [negb andb]. rewrite andb_false_r. reflexivity. }
  assert (Hother : fanCandidate line = false -> rpmReading line = None).
  { intros Hf. unfold rpmReading. rewrite Hf, andb_false_r. reflexivity. }
  split; [|split].
  - intros Hf Hp. rewrite Hfan; [apply app_nil_r|].
    unfold fanCandidate. rewrite Hf, Hp. reflexivity.
  - intros Hnot. rewrite Hother; [reflexivity|].
    unfold fanCandidate. destruct Hnot as [-> | ->]; [reflexivity | apply andb_false_r].
  - destruct (fanCandidate line) eqn:Hf.
    + right. rewrite (Hfan eq_refl). apply app_nil_r.
    + left. rewrite (Hother eq_refl). reflexivity.
Qed.

(** X8.  Parsing is compositional over lines.  For a listing [a], a line
    feed and a listing [b], the thermal list is the thermal list of [a]
    followed by that of [b], and the RPM mapping is that of [b] completed by
    that of [a], so that a name read in both keeps the reading of [b]. *)
Theorem sensor_listing_composes (a b : string) :
  (parseSensors (a +:+ newline +:+ b)).2 = (parseSensors a).2 ++ (parseSensors b).2 /\
  (parseSensors (a +:+ newline +:+ b)).1 = (parseSensors b).1 ∪ (parseSensors a).1 /\
  (forall name,
     (parseSensors (a +:+ newline +:+ b)).1 !! name
     = match (parseSensors b).1 !! name with
       | Some rpm => Some rpm
       | None => (parseSensors a).1 !! name
       end).
Proof.
  change (a +:+ newline +:+ b) with (a +:+ String "010" b).
  rewrite parseSensors_append. cbn [fst snd].
  split; [reflexivity|]. split; [reflexivity|].
  intros name. rewrite lookup_union.
  destruct ((parseSensors b).1 !! name), ((parseSensors a).1 !! name); reflexivity.
Qed.

(** X9.  Lines of ASCII white space and lines with fewer than three fields
    leave both results as they are; so the line feed that ends a listing, or
    an empty line inside it, changes nothing, and the empty listing gives the
    empty mapping and no thermal reading. *)
Theorem blank_and_short_lines_ignored :
  (forall st line, allSpace line = true -> sensorStep st line = st) /\
  (forall st line, (length (Split line "|") < 3)%nat -> sensorStep st line = st) /\
  parseSensors EmptyString = (∅, []) /\
  (forall out, parseSensors (out +:+ newline) = parseSensors out) /\
  (forall a b, parseSensors (a +:+ newline +:+ newline +:+ b)
               = parseSensors (a +:+ newline +:+ b)).
Proof.
  split; [exact sensorStep_blank|]. split; [|split; [exact parseSensors_empty|split]].
  - intros st line Hshort. unfold sensorStep.
    destruct (bool_decide (TrimSpace line = EmptyString)); [reflexivity|].
    destruct (Nat.ltb_spec (length (Split line "|")) 3); [reflexivity | lia].
  - intros out. change (out +:+ newline) with (out +:+ String "010" EmptyString).
    rewrite parseSensors_append, parseSensors_empty. cbn [fst snd].
    rewrite (left_id_L ∅ (∪)), app_nil_r. destruct (parseSensors out); reflexivity.
  - intros a b.
    change (a +:+ newline +:+ newline +:+ b)
      with (a +:+ String "010" (EmptyString +:+ String "010" b)).
    change (a +:+ newline +:+ b) with (a +:+ String "010" b).
    rewrite !parseSensors_append, parseSensors_empty. cbn [fst snd app].
    rewrite (right_id_L ∅ (∪)). reflexivity.
Qed.

(** X10.  Among the RPM rows of one name the last one wins: after a row
    that reads [rpm] for [name], if no later line is an RPM row of that name,
    the mapping holds [rpm] for it whatever came before. *)
Theorem rpm_last_wins (a line b name rpm : string) :
  Split line "010" = [line] ->
  rpmReading line = Some (name, rpm) ->
  (forall l rpm', l ∈ Split b "010" -> rpmReading l <> Some (name, rpm')) ->
  (parseSensors (a +:+ newline +:+ line +:+ newline +:+ b)).1 !! name = Some rpm.
Proof.
  intros Hline Hread Hlater.
  change (a +:+ newline +:+ line +:+ newline +:+ b)
    with (a +:+ String "010" (line +:+ String "010" b)).
  rewrite !parseSensors_append. cbn [fst].
  assert (Hb : (parseSensors b).1 !! name = None).
  { rewrite parseSensors_eq. cbn [fst].
    rewrite foldl_store_absent; [apply lookup_empty|].
    intros v Hin. apply list_elem_of_fmap in Hin as (l & Heq & Hl).
    exact (Hlater l v Hl (eq_sym Heq)). }
  assert (Hl : (parseSensors line).1 !! name = Some rpm).
  { rewrite parseSensors_eq, Hline. cbn [fst fmap list_fmap foldl].
    rewrite Hread. cbn [store]. apply lookup_insert_eq. }
  rewrite !lookup_union, Hb, Hl.
  destruct ((parseSensors a).1 !! name); reflexivity.
Qed.

End SensorLines.

Lemma rpm_last_wins_witness :
  let a := "System Fan1      | 1200.000   | RPM        | ok" in
  let line := "System Fan1      | 1558.000   | RPM        | ok" in
  let b := "CPU1 Temp        | 35.000     | degrees C  | ok" in
  Split line "010" = [line] /\
  rpmReading (H := referenceLib) line = Some ("System Fan1", "1558.000 RPM") /\
  (parseSensors (H := referenceLib) (a +:+ newline +:+ line +:+ newline +:+ b)).1
    !! "System Fan1" = Some "1558.000 RPM".
Proof.
  cbv zeta. split; [reflexivity|]. split; [reflexivity|].
  apply (rpm_last_wins (H := referenceLib)
           "System Fan1      | 1200.000   | RPM        | ok"
           "System Fan1      | 1558.000   | RPM        | ok"
           "CPU1 Temp        | 35.000     | degrees C  | ok"
           "System Fan1" "1558.000 RPM"); [reflexivity | reflexivity |].
  intros l rpm' Hl.
  change (Split "CPU1 Temp        | 35.000     | degrees C  | ok" "010")
    with ["CPU1 Temp        | 35.000     | degrees C  | ok"] in Hl.
  apply elem_of_cons in Hl as [->|Hl]; [vm_compute; discriminate|].
  apply elem_of_nil in Hl. contradiction.
Defined.

Lemma append_space_zeroCelsius (a b : string) :
  a +:+ " " +:+ b = zeroCelsius -> a = "0" /\ b = degC.
Proof.
  unfold zeroCelsius, degC. intros Heq.
  destruct a as [|c0 a]; cbn in Heq; [discriminate|].
  injection Heq as -> Heq.
  destruct a as [|c1 a]; cbn in Heq; [injection Heq as <-; split; reflexivity|].
  injection Heq as -> Heq.
  destruct a as [|c2 a]; cbn in Heq; [discriminate|].
  injection Heq as -> Heq.
  destruct a as [|c3 a]; cbn in Heq; [discriminate|].
  injection Heq as -> Heq.
  destruct a as [|c4 a]; cbn in Heq; [discriminate|].
  injection Heq as -> Heq.
  destruct a; cbn in Heq; discriminate.
Qed.

(** X11.  No thermal reading of a report has the value [zeroCelsius], a
    zero followed by the normalised Celsius unit: the sensor loop drops such
    a row, so [status] never shows that text as a reading. *)
Theorem no_zero_celsius `{GoLib} (out : string) (t : ThermalStatus) :
  t ∈ (parseSensors out).2 -> TValue t <> zeroCelsius.
Proof.
  rewrite parseSensors_eq. cbn [snd]. intros Hin Hzero.
  apply list_elem_of_omap in Hin as (line & _ & Hread).
  unfold thermalReading in Hread.
  destruct (isThermalRow line); [|discriminate].
  destruct (bool_decide_reflect (normalValue (rowValue line) = "0")) as [Hv|Hv];
    destruct (bool_decide_reflect (normalUnit (rowUnit line) = degC)) as [Hu|Hu];
    cbn [andb] in Hread; try discriminate;
    injection Hread as <-; cbn [TValue] in Hzero;
    apply append_space_zeroCelsius in Hzero as [Hv' Hu']; contradiction.
Qed.

Lemma no_zero_celsius_witness :
  let t := {| TName := "CPU1 Temp"; TValue := "35 " +:+ degC |} in
  t ∈ (parseSensors (H := referenceLib) sampleSensors).2 /\ TValue t <> zeroCelsius.
Proof.
  cbv zeta.
  assert (Hin : {| TName := "CPU1 Temp"; TValue := "35 " +:+ degC |}
                ∈ (parseSensors (H := referenceLib) sampleSensors).2)
    by (vm_compute; left).
  split; [exact Hin|].
  exact (no_zero_celsius (H := referenceLib) sampleSensors _ Hin).
Defined.

(** ** What [status] invokes *)

(** X12.  [status] always returns, whatever the tool answers, after exactly
    two invocations: the raw read, then the sensor listing.  It writes one
    item, and the two output modes differ in nothing but the rendering: the
    same error line, or the same fans and thermal readings as tables or as
    JSON. *)
Theorem status_invocations `{GoLib} (E : Env) (w : World) :
  (forall asJson,
     (getStatus E asJson w).1 = Ret tt /\
     argv <$> trace (getStatus E asJson w).2 = history w ++ [readArgv; sensorArgv]) /\
  trace (getStatus E true w).2 = trace (getStatus E false w).2 /\
  ((exists err, forall asJson,
      stdout (getStatus E asJson w).2 = stdout w ++ [sensorError err])
   \/ (exists fans thermals, forall asJson,
      stdout (getStatus E asJson w).2 = stdout w ++ [report asJson fans thermals])).
Proof.
  split; [|split].
  - intros asJson. rewrite getStatus_eq. cbn [fst snd]. split; [reflexivity|].
    destruct (tool E _ sensorArgv); cbn [printed logged trace]; unfold history;
      rewrite !fmap_app, <- app_assoc; reflexivity.
  - rewrite !getStatus_eq. cbn [snd].
    destruct (tool E _ sensorArgv); reflexivity.
  - destruct (tool E (history (logged AtGetPWMs readArgv (tool E (history w) readArgv) w))
                sensorArgv) as [out|err out] eqn:Ht.
    + right. eexists _, _. intros asJson. rewrite getStatus_eq, Ht. reflexivity.
    + left. exists err. intros asJson. rewrite getStatus_eq, Ht. reflexivity.
Qed.

(** ** What the program may invoke *)

Lemma Adds_ret (P : Event -> Prop) {A} (a : A) : Adds P (mret a).
Proof. intros w. exists []. split; [symmetry; apply app_nil_r | constructor]. Qed.

Lemma Adds_emit (P : Event -> Prop) (o : Output) : Adds P (emit o).
Proof. intros w. exists []. split; [symmetry; apply app_nil_r | constructor]. Qed.

Lemma Adds_exit (P : Event -> Prop) {A} (c : Z) : Adds P (osExit c : Prog A).
Proof. intros w. exists []. split; [symmetry; apply app_nil_r | constructor]. Qed.

Lemma Adds_bind (P : Event -> Prop) {A B} (m : Prog A) (k : A -> Prog B) :
  Adds P m -> (forall a, Adds P (k a)) -> Adds P (m ≫= k).
Proof.
  intros Hm Hk w. rewrite bind_eq.
  destruct (Hm w) as (evs1 & Ht1 & Ho1). destruct (m w) as [[a|c] w1]; cbn [fst snd] in *.
  - destruct (Hk a w1) as (evs2 & Ht2 & Ho2). exists (evs1 ++ evs2). split.
    + rewrite Ht2, Ht1, app_assoc. reflexivity.
    + apply Forall_app. split; assumption.
  - exists evs1. split; assumption.
Qed.

Lemma Adds_forEach (P : Event -> Prop) {A} (l : list A) (body : A -> Prog unit) :
  (forall x, Adds P (body x)) -> Adds P (forEach l body).
Proof.
  intros Hbody. induction l as [|x l IH]; cbn [forEach].
  - apply (Adds_ret P tt).
  - apply Adds_bind; [apply Hbody | intros _; exact IH].
Qed.

Lemma Adds_weaken (P Q : Event -> Prop) {A} (m : Prog A) :
  (forall e, P e -> Q e) -> Adds P m -> Adds Q m.
Proof.
  intros HPQ Hm w. destruct (Hm w) as (evs & Ht & Hall). exists evs.
  split; [exact Ht|]. eapply Forall_impl; [exact Hall | exact HPQ].
Qed.

Section Invocations.
Context `{GoLib} (E : Env).

Lemma Adds_getPWMs : Adds (fun e => readingArgv (argv e)) (getPWMs E).
Proof.
  intros w. rewrite getPWMs_eq. cbn [fst snd logged trace].
  eexists. split; [reflexivity|]. repeat constructor.
Qed.

Lemma Adds_getStatus (asJson : bool) :
  Adds (fun e => readingArgv (argv e)) (getStatus E asJson).
Proof.
  intros w. rewrite getStatus_eq. cbn [fst snd].
  exists [ {| site := AtGetPWMs; argv := readArgv; result := tool E (history w) readArgv |};
           {| site := AtGetStatus; argv := sensorArgv;
              result := tool E (history (logged AtGetPWMs readArgv
                                           (tool E (history w) readArgv) w)) sensorArgv |} ].
  split.
  - destruct (tool E _ sensorArgv); cbn [printed logged trace]; rewrite <- app_assoc;
      reflexivity.
  - constructor; [left; reflexivity|]. constructor; [right; reflexivity | constructor].
Qed.

Lemma Adds_getSpeed (idStr : string) :
  Adds (fun e => readingArgv (argv e)) (getSpeed E idStr).
Proof.
  intros w.
  destruct (getSpeed_cases E idStr w)
    as [[o ->]|(id & _ & _ & _ & [(out & Ht & ->)|(err & out & Ht & ->)])]; cbn [fst snd].
  - exists []. split; [symmetry; apply app_nil_r | constructor].
  - eexists. split; [reflexivity|]. constructor; [left; reflexivity | constructor].
  - eexists. split; [reflexivity|]. constructor; [left; reflexivity | constructor].
Qed.

Lemma Adds_setSpeed (idStr speedStr : string) :
  Adds (fun e => allowedArgv (argv e)) (setSpeed E idStr speedStr).
Proof.
  intros w.
  destruct (setSpeed_cases E idStr speedStr w)
    as [[-> _]|(v & _ & Hr & [(out & Ht & ->)|(err & out & Ht & ->)])]; cbn [fst snd].
  - exists []. split; [symmetry; apply app_nil_r | constructor].
  - eexists. split; [reflexivity|].
    constructor; [|constructor]. right. right. exists (formatID idStr), v. split; [exact Hr|].
    reflexivity.
  - eexists. split; [reflexivity|].
    constructor; [|constructor]. right. right. exists (formatID idStr), v. split; [exact Hr|].
    reflexivity.
Qed.

Lemma readingArgv_allowed (e : Event) : readingArgv (argv e) -> allowedArgv (argv e).
Proof. intros [Hr|Hs]; [left | right; left]; assumption. Qed.

Lemma Adds_testrun : Adds (fun e => allowedArgv (argv e)) (testrun E).
Proof.
  unfold testrun.
  repeat (apply Adds_bind; [apply Adds_emit | intros _]).
  apply Adds_bind;
    [apply (Adds_weaken _ _ _ readingArgv_allowed), Adds_getPWMs | intros originalPWMs].
  destruct (saveSpeeds E originalPWMs) as [savedSpeeds backedUp].
  apply Adds_bind; [apply Adds_forEach, Adds_emit | intros _].
  apply Adds_bind; [apply Adds_emit | intros _].
  apply Adds_bind; [apply Adds_setSpeed | intros _].
  apply Adds_bind; [apply Adds_emit | intros _].
  apply Adds_bind;
    [apply (Adds_weaken _ _ _ readingArgv_allowed), Adds_getSpeed | intros _].
  apply Adds_bind; [apply Adds_emit | intros _].
  apply Adds_bind;
    [apply (Adds_weaken _ _ _ readingArgv_allowed), Adds_getStatus | intros _].
  apply Adds_bind; [apply Adds_emit | intros _].
  apply Adds_bind; [apply Adds_forEach; intros x; apply Adds_setSpeed | intros _].
  apply Adds_emit.
Qed.

Lemma Adds_usage (P : Event -> Prop) : Adds P usage.
Proof.
  unfold usage. repeat (apply Adds_bind; [apply Adds_emit | intros _]). apply Adds_emit.
Qed.

End Invocations.

(** X13.  Whatever the arguments and whatever the tool answers, every
    invocation a run of [main] makes is the raw read, the sensor listing, or
    a raw write whose speed lies in [0,100]: no other command reaches the
    controller, and no speed outside that range is ever sent. *)
Theorem main_invocations_allowed `{GoLib} (E : Env) (args : list string) (w : World) :
  exists evs,
    trace (main E args w).2 = trace w ++ evs /\
    Forall (fun e => allowedArgv (argv e)) evs.
Proof.
  revert w. change (Adds (fun e => allowedArgv (argv e)) (main E args)).
  unfold main. destruct (lookPath E); cbn [negb].
  2:{ apply Adds_bind; [apply Adds_emit | intros _; apply Adds_exit]. }
  destruct args as [|prog [|cmd rest]]; try apply Adds_usage.
  destruct (bool_decide (cmd = "status")).
  { apply (Adds_weaken _ _ _ readingArgv_allowed), Adds_getStatus. }
  destruct (bool_decide (cmd = "get")).
  { destruct rest; [apply Adds_emit|].
    apply (Adds_weaken _ _ _ readingArgv_allowed), Adds_getSpeed. }
  destruct (bool_decide (cmd = "set")).
  { destruct rest as [|idStr [|speedStr rest]];
      [apply Adds_emit | apply Adds_emit | apply Adds_setSpeed]. }
  destruct (bool_decide (cmd = "testrun")); [apply Adds_testrun | apply Adds_emit].
Qed.

(** X14.  Only [set] and [testrun] can change a fan: a run of [main] whose
    first argument is neither of them, be it [status], [get], an unknown
    command or none, makes no invocation other than the raw read and the
    sensor listing. *)
Theorem read_only_commands `{GoLib} (E : Env) (args : list string) (w : World) :
  args !! 1%nat <> Some "set" -> args !! 1%nat <> Some "testrun" ->
  exists evs,
    trace (main E args w).2 = trace w ++ evs /\
    Forall (fun e => readingArgv (argv e)) evs.
Proof.
  intros Hset Hrun. revert w. change (Adds (fun e => readingArgv (argv e)) (main E args)).
  unfold main. destruct (lookPath E); cbn [negb].
  2:{ apply Adds_bind; [apply Adds_emit | intros _; apply Adds_exit]. }
  destruct args as [|prog [|cmd rest]]; try apply Adds_usage.
  cbn in Hset, Hrun.
  destruct (bool_decide (cmd = "status")); [apply Adds_getStatus|].
  destruct (bool_decide (cmd = "get")).
  { destruct rest; [apply Adds_emit | apply Adds_getSpeed]. }
  destruct (bool_decide_reflect (cmd = "set")) as [->|_]; [contradiction|].
  destruct (bool_decide_reflect (cmd = "testrun")) as [->|_]; [contradiction|].
  apply Adds_emit.
Qed.

Lemma read_only_commands_witness :
  ["fan"; "get"; "02"] !! 1%nat <> Some "set" /\
  argv <$> trace (main (H := referenceLib) sampleBmc ["fan"; "get"; "02"] world0).2
  = [readArgv].
Proof.
  assert (Hset : ["fan"; "get"; "02"] !! 1%nat <> Some "set") by discriminate.
  assert (Hrun : ["fan"; "get"; "02"] !! 1%nat <> Some "testrun") by discriminate.
  split; [exact Hset|].
  destruct (read_only_commands (H := referenceLib) sampleBmc ["fan"; "get"; "02"] world0
              Hset Hrun) as (evs & Htr & _).
  rewrite Htr. vm_compute in Htr. rewrite <- Htr. reflexivity.
Defined.

(** ** The test sequence *)

Lemma hexToPercent_fmt_x (v : Z) :
  0 <= v < 2 ^ 63 -> hexToPercent (fmt_x v) = fmt_d v +:+ "%".
Proof.
  intros Hv. unfold fmt_x.
  replace (v <? 0) with false by (symmetry; apply Z.ltb_ge; lia).
  apply hexToPercent_Num, ParseInt_fmtUint; lia.
Qed.

(** X15.  The speed [testrun] saves for a hexadecimal token, its percentage
    without the [%] sign, parses back to the token's value.  Restoring it
    with [set] therefore makes one write of that value when it lies in
    [0,100], and the byte written reads back as the percentage that was
    saved; a value outside [0,100] is turned down without any invocation. *)
Theorem saved_speed_round_trip `{GoLib} (E : Env) (id tok : string) (v : Z) (w : World) :
  ParseInt tok 16 = Num v ->
  let speed := TrimSuffix (hexToPercent tok) "%" in
  Atoi speed = Num v /\
  (0 <= v <= 100 ->
     argv <$> trace (setSpeed E id speed w).2 = history w ++ [writeArgv (formatID id) v] /\
     hexToPercent (fmt_x v) = hexToPercent tok) /\
  (~ 0 <= v <= 100 -> setSpeed E id speed w = (Ret tt, printed speedError w)).
Proof.
  intros Hp speed. pose proof (ParseInt_int64 tok v Hp) as Hv.
  assert (Hspeed : speed = fmt_d v).
  { unfold speed. rewrite (hexToPercent_Num tok v Hp). apply TrimSuffix_percent. }
  assert (Hatoi : Atoi speed = Num v) by (rewrite Hspeed; apply Atoi_fmt_d, Hv).
  split; [exact Hatoi|]. split.
  - intros Hr. split.
    + rewrite (setSpeed_valid E id speed v w Hatoi Hr). cbv zeta.
      destruct (tool E (history w) (writeArgv (formatID id) v));
        cbn [snd printed logged trace]; unfold history; rewrite fmap_app; reflexivity.
    + rewrite (hexToPercent_Num tok v Hp). apply hexToPercent_fmt_x. lia.
  - intros Hr. apply setSpeed_invalid. intros v' Hv'. rewrite Hatoi in Hv'.
    injection Hv' as <-. lia.
Qed.

Lemma saved_speed_round_trip_witness :
  ParseInt "1e" 16 = Num 30 /\
  Atoi (TrimSuffix (hexToPercent "1e") "%") = Num 30.
Proof.
  split; [reflexivity|].
  exact (proj1 (saved_speed_round_trip (H := referenceLib) sampleBmc "03" "1e" 30 world0
                  eq_refl)).
Defined.

Section TestSequence.
Context `{GoLib} (E : Env).

(** The sequence up to the announcement of step 1: one raw read. *)
Lemma testrun_prefix (w : World) :
  let first := tool E (history w) readArgv in
  exists wd,
    testrun E w = testrunTail E (saveSpeeds E (pwmTable first)).1 wd /\
    trace wd = trace w ++ [ {| site := AtGetPWMs; argv := readArgv; result := first |} ].
Proof.
  intros first. unfold testrun.
  destruct (Quiet_Println "--- STARTING AUTOMATED TEST SEQUENCE ---" w) as (wa & Ha & Hta).
  rewrite (bind_Ret _ _ _ _ _ Ha).
  destruct (Quiet_Println "[STEP 0] Saving current fan speeds..." wa) as (wb & Hb & Htb).
  rewrite (bind_Ret _ _ _ _ _ Hb).
  rewrite (bind_Ret _ _ _ _ _ (getPWMs_eq E wb)).
  assert (Hhist : history wb = history w) by (unfold history; rewrite Htb, Hta; reflexivity).
  rewrite Hhist. fold first.
  destruct (saveSpeeds E (pwmTable first)) as [saved backedUp]. cbn [fst].
  destruct (Quiet_forEach_emit backedUp (logged AtGetPWMs readArgv first wb))
    as (wc & Hc & Htc).
  rewrite (bind_Ret _ _ _ _ _ Hc).
  destruct (Quiet_Println (newline +:+ "[STEP 1] Testing 'set all' command (setting to 40%)...") wc)
    as (wd & Hd & Htd).
  rewrite (bind_Ret _ _ _ _ _ Hd).
  exists wd. split; [reflexivity|].
  rewrite Htd, Htc. cbn [logged trace]. rewrite Htb, Hta. reflexivity.
Qed.

Lemma saveSpeeds_empty : (saveSpeeds E ∅).1 = ∅.
Proof.
  unfold saveSpeeds. rewrite foldl_saveStep. cbn [fst].
  induction (mapOrder E 0 (map_to_list fanIDs)) as [|entry entries IH]; [reflexivity|].
  cbn [fmap list_fmap foldl]. exact IH.
Qed.

End TestSequence.

(** X16.  A tool failure in step 1 or step 2 of [testrun] ends the process
    with code 1 before anything is restored: after a failed broadcast the
    run has made the saving read and that write only; after a failed read of
    fan 01, the fans are left at the 40% of the broadcast. *)
Theorem testrun_stops_on_failure `{GoLib} (E : Env) (w : World) :
  let afterRead := history w ++ [readArgv] in
  let afterSet := afterRead ++ [writeArgv "00" 40] in
  (forall err out,
     tool E afterRead (writeArgv "00" 40) = Failed err out ->
     (testrun E w).1 = Exited 1 /\
     argv <$> trace (testrun E w).2 = afterSet) /\
  (forall out2 err out,
     tool E afterRead (writeArgv "00" 40) = Done out2 ->
     tool E afterSet readArgv = Failed err out ->
     (testrun E w).1 = Exited 1 /\
     argv <$> trace (testrun E w).2 = afterSet ++ [readArgv]).
Proof.
  intros afterRead afterSet.
  destruct (testrun_prefix E w) as (wd & -> & Htd).
  assert (Hhd : history wd = afterRead).
  { unfold history, afterRead. rewrite Htd, fmap_app. reflexivity. }
  unfold testrunTail.
  pose proof (setSpeed_valid E "all" "40" 40 wd eq_refl ltac:(lia)) as Hset.
  cbv zeta in Hset. rewrite (formatID_broadcast "all" (or_introl eq_refl)), Hhd in Hset.
  split.
  - intros err out Ht. rewrite Ht in Hset.
    rewrite (bind_Exited _ _ _ _ _ Hset). cbn [fst snd printed logged trace].
    split; [reflexivity|].
    rewrite fmap_app. fold (history wd). rewrite Hhd. reflexivity.
  - intros out2 err out Ht2 Ht3. rewrite Ht2 in Hset.
    rewrite (bind_Ret _ _ _ _ _ Hset).
    destruct (Quiet_Println (newline +:+ "[STEP 2] Testing 'get' command for Fan 01...")
                (printed (setConfirmation "all" 40)
                   (logged AtSetSpeed (writeArgv "00" 40) (Done out2) wd)))
      as (we & He & Hte).
    rewrite (bind_Ret _ _ _ _ _ He).
    assert (Hhe : history we = afterSet).
    { unfold history. rewrite Hte. cbn [printed logged trace]. rewrite fmap_app.
      fold (history wd). rewrite Hhd. reflexivity. }
    pose proof (getSpeed_valid E "01" 1 we ltac:(rewrite isAll_ascii; reflexivity)
                  eq_refl ltac:(lia)) as Hget.
    rewrite Hhe, Ht3 in Hget.
    rewrite (bind_Exited _ _ _ _ _ Hget). cbn [fst snd printed logged trace].
    split; [reflexivity|].
    rewrite fmap_app. fold (history we). rewrite Hhe. reflexivity.
Qed.

(** X17.  When the saving read of [testrun] fails or answers with fewer
    than seven tokens, and the broadcast and the read of fan 01 succeed, the
    sequence runs to its end with exactly five invocations, none of them a
    restore: every fan stays at 40%. *)
Theorem testrun_nothing_to_restore `{GoLib} (E : Env) (w : World) (out2 out3 : string) :
  (forall k entries, mapOrder E k entries ≡ₚ entries) ->
  pwmTable (tool E (history w) readArgv) = ∅ ->
  tool E (history w ++ [readArgv]) (writeArgv "00" 40) = Done out2 ->
  tool E (history w ++ [readArgv; writeArgv "00" 40]) readArgv = Done out3 ->
  (testrun E w).1 = Ret tt /\
  argv <$> trace (testrun E w).2
  = history w ++ [readArgv; writeArgv "00" 40; readArgv; readArgv; sensorArgv].
Proof.
  intros Horder Hempty Ht2 Ht3.
  destruct (testrun_prefix E w) as (wd & -> & Htd).
  rewrite Hempty, saveSpeeds_empty. unfold testrunTail. rewrite map_to_list_empty.
  assert (Hnil : mapOrder E 1 [] = []) by (apply Permutation_nil_r, Horder).
  assert (Hhd : history wd = history w ++ [readArgv]).
  { unfold history. rewrite Htd, fmap_app. reflexivity. }
  rewrite Hnil. cbn [forEach].
  pose proof (setSpeed_valid E "all" "40" 40 wd eq_refl ltac:(lia)) as Hset.
  cbv zeta in Hset. rewrite (formatID_broadcast "all" (or_introl eq_refl)), Hhd, Ht2 in Hset.
  rewrite (bind_Ret _ _ _ _ _ Hset).
  destruct (Quiet_Println (newline +:+ "[STEP 2] Testing 'get' command for Fan 01...")
              (printed (setConfirmation "all" 40)
                 (logged AtSetSpeed (writeArgv "00" 40) (Done out2) wd)))
    as (we & He & Hte).
  rewrite (bind_Ret _ _ _ _ _ He).
  assert (Hhe : history we = history w ++ [readArgv; writeArgv "00" 40]).
  { unfold history. rewrite Hte. cbn [printed logged trace]. rewrite fmap_app.
    fold (history wd). rewrite Hhd, <- app_assoc. reflexivity. }
  pose proof (getSpeed_valid E "01" 1 we ltac:(rewrite isAll_ascii; reflexivity)
                eq_refl ltac:(lia)) as Hget.
  rewrite Hhe, Ht3 in Hget.
  rewrite (bind_Ret _ _ _ _ _ Hget).
  destruct (Quiet_Println (newline +:+ "[STEP 3] Displaying full status dashboard...")
              (printed (getAnswer 1 out3) (logged AtGetSpeed readArgv (Done out3) we)))
    as (wf & Hf & Htf).
  rewrite (bind_Ret _ _ _ _ _ Hf).
  rewrite (bind_Ret _ _ _ _ _ (getStatus_eq E false wf)).
  assert (Hhf : history wf = history w ++ [readArgv; writeArgv "00" 40; readArgv]).
  { unfold history. rewrite Htf. cbn [printed logged trace]. rewrite fmap_app.
    fold (history we). rewrite Hhe, <- app_assoc. reflexivity. }
  match goal with
  | |- context [(Println ?s ≫= ?k) ?world] =>
      destruct (Quiet_Println s world) as (wg & Hg & Htg);
      rewrite (bind_Ret _ _ _ _ _ Hg)
  end.
  rewrite (bind_Ret (ret tt) _ wg wg tt eq_refl).
  rewrite Println_eq. cbn [fst snd printed trace]. split; [reflexivity|].
  rewrite Htg.
  destruct (tool E _ sensorArgv); cbn [printed logged trace];
    rewrite !fmap_app; fold (history wf); rewrite Hhf, <- !app_assoc; reflexivity.
Qed.

Lemma testrun_nothing_to_restore_witness :
  let E := {| lookPath := true;
              tool := fun past _ =>
                if bool_decide (past = []) then Failed "exit status 1" "timeout"
                else Done " 00 32 32 32 32 32 32";
              mapOrder := fun _ entries => entries |} in
  (testrun (H := referenceLib) E world0).1 = Ret tt /\
  argv <$> trace (testrun (H := referenceLib) E world0).2
  = [readArgv; writeArgv "00" 40; readArgv; readArgv; sensorArgv].
Proof.
  cbv zeta.
  apply (testrun_nothing_to_restore (H := referenceLib)
           {| lookPath := true;
              tool := fun past _ =>
                if bool_decide (past = []) then Failed "exit status 1" "timeout"
                else Done " 00 32 32 32 32 32 32";
              mapOrder := fun _ entries => entries |}
           world0 " 00 32 32 32 32 32 32" " 00 32 32 32 32 32 32");
    [intros k entries; reflexivity | reflexivity | reflexivity | reflexivity].
Defined.
